(** * Monus: task orchestration and streaming pipeline

    A shallow embedding of the TypeScript sources of the Monus server
    (the websocket orchestrator, the Planner and Coder agents, the
    SandboxTool workspace and the LLM client) together with the properties
    of its natural-language specification.

    Conventions of the embedding:
    - a JavaScript [string] is a Rocq [string] holding its UTF-8 bytes:
      the size of a file on disk is its number of bytes, and [length] and
      [slice], which count UTF-16 units in JavaScript, count them on the
      bytes ([JS.length16], [JS.slice0]);
    - a JavaScript [number] is a binary64 [float] (primitive floats); the
      length of an array and the index of a loop are [nat];
    - an [async] function is a state transformer over the part of the
      world it touches, returning a [Completion]: a normal value or a
      thrown error; [try]/[catch] is [try_catch];
    - what the platform supplies (the model's answers, [JSON.parse],
      [String.prototype.toLowerCase], [child_process.exec], ...) is a field
      of the [Runtime] class, over which every theorem quantifies;
    - a request to the model API settles, with an answer or with an error,
      and a stream ends: a request that stays pending for ever is outside
      the model, and nothing is claimed about how long a session takes;
    - the order in which [readdir] lists a directory is the platform's: it
      is part of the state of the file system, and every theorem holds for
      every such order. *)

From Stdlib Require Import Floats Ascii Sorted.
From stdpp Require Import base tactics option list strings pretty.

Set Default Proof Using "Type".
Set Warnings "-inexact-float,-abstract-large-number".
Open Scope string_scope.
Open Scope list_scope.

(** ** JavaScript basics *)

Module JS.

(** A thrown value: an [Error] with its message. *)
Record Error := mkError { message : string }.

Inductive Completion (A : Type) : Type :=
| Normal (a : A)
| Throw (e : Error).
Global Arguments Normal {A} a.
Global Arguments Throw {A} e.

Definition is_normal {A} (c : Completion A) : bool :=
  match c with Normal _ => true | Throw _ => false end.

(** Stateful computations over a state [S]. *)
Definition M (S A : Type) : Type := S -> Completion A * S.

Definition ret {S A} (a : A) : M S A := fun s => (Normal a, s).
Definition throw {S A} (e : Error) : M S A := fun s => (Throw e, s).
Definition bind {S A B} (m : M S A) (k : A -> M S B) : M S B :=
  fun s => match m s with
           | (Normal a, s') => k a s'
           | (Throw e, s') => (Throw e, s')
           end.
(** [try { m } catch (e) { h e }]: the effects of [m] up to the throw stay. *)
Definition try_catch {S A} (m : M S A) (h : Error -> M S A) : M S A :=
  fun s => match m s with
           | (Normal a, s') => (Normal a, s')
           | (Throw e, s') => h e s'
           end.
Definition gets {S A} (f : S -> A) : M S A := fun s => (Normal (f s), s).
Definition modify {S} (f : S -> S) : M S unit := fun s => (Normal tt, f s).

(** Truthiness of a string: only the empty string is falsy. *)
Definition truthy (s : string) : bool :=
  match s with EmptyString => false | String _ _ => true end.

(** [a || b] on strings. *)
Definition or_else (a b : string) : string := if truthy a then a else b.

(** [a ?? b]. *)
Definition nullish {A} (a : option A) (b : A) : A := default b a.

(** [s.includes(needle)]. *)
Fixpoint includes (needle s : string) : bool :=
  String.prefix needle s ||
  match s with
  | EmptyString => false
  | String _ rest => includes needle rest
  end.

(** [s.startsWith(p)]. *)
Definition startsWith (p s : string) : bool := String.prefix p s.

(** [s.split(sep)] for a non-empty separator: [skip] counts the characters
    of a separator still to be dropped, [cur] is the piece being read,
    reversed. *)
Fixpoint split_go (sep s : string) (skip : nat) (cur : string) : list string :=
  match s with
  | EmptyString => [String.rev cur]
  | String c rest =>
      match skip with
      | S k => split_go sep rest k cur
      | O => if String.prefix sep s
             then String.rev cur :: split_go sep rest (String.length sep - 1) EmptyString
             else split_go sep rest 0 (String c cur)
      end
  end.
Definition split (sep s : string) : list string := split_go sep s 0 EmptyString.

(** [xs.join(sep)]. *)
Definition join_with (sep : string) (xs : list string) : string :=
  String.concat sep xs.

(** The UTF-8 sequence that a byte starts: its number of bytes, and the
    number of UTF-16 units of its character (two for a character outside
    the basic plane, which takes four bytes). A byte that starts no
    sequence counts for itself. *)
Definition utf8_lead (c : ascii) : nat * nat :=
  let n := nat_of_ascii c in
  if Nat.ltb n 192 then (1, 1)
  else if Nat.ltb n 224 then (2, 1)
  else if Nat.ltb n 240 then (3, 1)
  else if Nat.ltb n 248 then (4, 2)
  else (1, 1).

(** [s.length]: the number of UTF-16 units of the text. [skip] is the
    number of bytes left of the character being read. *)
Fixpoint length16_go (skip : nat) (s : string) : nat :=
  match s with
  | EmptyString => 0
  | String c rest =>
      match skip with
      | S k => length16_go k rest
      | 0 => snd (utf8_lead c) + length16_go (fst (utf8_lead c) - 1) rest
      end
  end.

Definition length16 (s : string) : nat := length16_go 0 s.

(** [s.slice(0, n)]: the characters that fit in the first [n] UTF-16
    units. A character outside the basic plane that the cut would split is
    left out (JavaScript keeps the first of its two units, which no UTF-8
    text holds). *)
Fixpoint slice0_go (skip n : nat) (s : string) : string :=
  match s with
  | EmptyString => EmptyString
  | String c rest =>
      match skip with
      | S k => String c (slice0_go k n rest)
      | 0 =>
          if Nat.leb (snd (utf8_lead c)) n
          then String c (slice0_go (fst (utf8_lead c) - 1) (n - snd (utf8_lead c)) rest)
          else EmptyString
      end
  end.

Definition slice0 (n : nat) (s : string) : string := slice0_go 0 n s.

(** [xs.slice(-n)]: the last [n] elements. *)
Definition slice_last {A} (n : nat) (xs : list A) : list A :=
  drop (length xs - n) xs.

(** The double-quote character, for texts that contain it. *)
Definition dq : string := String (Ascii.ascii_of_nat 34) EmptyString.

(** The line feed. *)
Definition newline : string := String (Ascii.ascii_of_nat 10) EmptyString.

(** Numbers. *)
Definition of_nat (n : nat) : float := PrimFloat.of_uint63 (Uint63.of_Z (Z.of_nat n)).

Definition of_Z (z : Z) : float :=
  if (z <? 0)%Z then PrimFloat.opp (PrimFloat.of_uint63 (Uint63.of_Z (- z)))
  else PrimFloat.of_uint63 (Uint63.of_Z z).

(** [Math.floor]: a float with a non-negative exponent is an integer
    already; otherwise the mantissa is shifted and, for a negative number
    with a fractional part, rounded towards minus infinity. *)
Definition Math_floor (x : float) : float :=
  match Prim2SF x with
  | S754_finite sign m e =>
      if (0 <=? e)%Z then x
      else
        let q := Z.shiftr (Zpos m) (- e) in
        let exact := (Z.shiftl q (- e) =? Zpos m)%Z in
        if sign then of_Z (- (if exact then q else q + 1)) else of_Z q
  | _ => x
  end.

(** [Math.min] of two numbers. *)
Definition Math_min (a b : float) : float :=
  if PrimFloat.is_nan a then a
  else if PrimFloat.is_nan b then b
  else if PrimFloat.ltb a b then a
  else if PrimFloat.ltb b a then b
  else if PrimFloat.get_sign a then a else b.

(** [String(n)] for a count. *)
Definition show_nat (n : nat) : string := pretty n.

(** The number a text of decimal digits stands for. *)
Fixpoint digits_value (s : string) (acc : N) : option N :=
  match s with
  | EmptyString => Some acc
  | String c rest =>
      let d := Ascii.N_of_ascii c in
      if ((48 <=? d) && (d <=? 57))%N then digits_value rest (acc * 10 + (d - 48))%N
      else None
  end.

(** A property key that is an array index: the canonical decimal text of a
    number below [2^32 - 1]. An object lists such keys first, in ascending
    order, before its other keys. *)
Definition array_index (key : string) : option N :=
  match key with
  | EmptyString => None
  | String c rest =>
      if Ascii.eqb c "0" && negb (String.eqb rest EmptyString) then None
      else
        match digits_value key 0 with
        | Some n => if (n <? 4294967295)%N then Some n else None
        | None => None
        end
  end.

End JS.

Import JS.

Declare Scope js_scope.
Delimit Scope js_scope with js.
Notation "'let*' x ':=' m 'in' k" := (JS.bind m (fun x => k))
  (at level 10, x pattern, m at level 100, k at level 200) : js_scope.
Notation "m ';;' k" := (JS.bind m (fun _ => k))
  (at level 100, k at level 200, right associativity) : js_scope.
Open Scope js_scope.

(** ** Paths: Node's [path] module (POSIX flavour) *)

Module Path.

(** A normalized path: what [path.normalize] returns, kept as its
    segments. [to_string] gives the string back. A relative path may
    start with [..] segments; no other segment is [.], [..] or empty. *)
Record t := mk {
  absolute : bool;
  segments : list string;
  trailing : bool;   (* the text ends with a separator *)
}.

(** The pieces of a string between separators. *)
Fixpoint split_slash (s : string) : list string :=
  match s with
  | EmptyString => [EmptyString]
  | String c rest =>
      if Ascii.eqb c "/"%char then EmptyString :: split_slash rest
      else match split_slash rest with
           | piece :: pieces => String c piece :: pieces
           | [] => [String c EmptyString]
           end
  end.

(** One step of [normalizeString]: [stack] holds the segments kept so
    far, the last one first. *)
Definition push (isAbsolute : bool) (stack : list string) (seg : string) : list string :=
  if String.eqb seg "" || String.eqb seg "." then stack
  else if String.eqb seg ".." then
    match stack with
    | top :: below => if String.eqb top ".." then seg :: stack else below
    | [] => if isAbsolute then [] else [seg]
    end
  else seg :: stack.

Definition push_all (isAbsolute : bool) (stack : list string) (segs : list string) : list string :=
  fold_left (push isAbsolute) segs stack.

Definition ends_with_slash (s : string) : bool :=
  match last (split_slash s) with
  | Some EmptyString => negb (String.eqb s "")
  | _ => false
  end.

(** [path.normalize(s)]. *)
Definition normalize (s : string) : t :=
  let isAbsolute := JS.startsWith "/" s in
  {| absolute := isAbsolute;
     segments := rev (push_all isAbsolute [] (split_slash s));
     trailing := ends_with_slash s |}.

(** [path.join(...args)]: the non-empty arguments, glued with a
    separator, then normalized; [.] when there is none. *)
Definition join (args : list string) : t :=
  match filter (fun a => JS.truthy a = true) args with
  | [] => normalize "."
  | parts => normalize (JS.join_with "/" parts)
  end.

(** [path.join(p, ...args)] where [p] is the result of an earlier [join]:
    normalization goes on from the segments of [p]. This is [join] on the
    text of [p] followed by the arguments (lemma [join_from_is_join]). *)
Definition join_from (p : t) (args : list string) : t :=
  match filter (fun a => JS.truthy a = true) args with
  | [] => p
  | parts =>
      let s := JS.join_with "/" parts in
      {| absolute := absolute p;
         segments := rev (push_all (absolute p) (rev (segments p)) (split_slash s));
         trailing := ends_with_slash s |}
  end.

(** [path.dirname(p)] of a normalized path. *)
Definition dirname (p : t) : t :=
  {| absolute := absolute p;
     segments := removelast (segments p);
     trailing := false |}.

(** The text of a normalized path. *)
Definition to_string (p : t) : string :=
  match segments p with
  | [] => if absolute p then "/" else if trailing p then "./" else "."
  | segs => (if absolute p then "/" else "") +:+ JS.join_with "/" segs
            +:+ (if trailing p then "/" else "")
  end.

(** [p.split(/[\\/]/).pop()]: the text after the last slash or
    backslash of the path's text. *)
Fixpoint after_last_sep (s : string) (cur : string) : string :=
  match s with
  | EmptyString => String.rev cur
  | String c rest =>
      if Ascii.eqb c "/"%char || Ascii.eqb c "\"%char
      then after_last_sep rest EmptyString
      else after_last_sep rest (String c cur)
  end.
Definition basename_any (p : t) : string := after_last_sep (to_string p) EmptyString.

End Path.

(** ** The file system under the workspace

    A tree of directories and regular files, as [fs/promises] and
    [@modern-fs/core] show it to the SandboxTool. A directory keeps its
    entries in the order they were made; the order in which [readdir]
    lists them is the platform's, see [in_readdir_order].

    The sources of [@modern-fs/core] are not part of the repository. Its
    [exists], [mkdirp], [rimraf], [readFile] and [writeFile] are taken to do
    what their names say on the tree, and to fail only for a reason the
    tree shows (a regular file in the way, a directory missing), leaving
    the tree as it was: failures for other reasons, and failures half way,
    are not part of this model. *)

Module FS.

#[warnings="-register-all"]
Inductive node :=
| File (content : string)
| Dir (entries : list (string * node)).

Definition entries_t := list (string * node).

Fixpoint lookup (name : string) (es : entries_t) : option node :=
  match es with
  | [] => None
  | (n, v) :: rest => if String.eqb n name then Some v else lookup name rest
  end.

(** Replace the entry called [name], or add it after the others. *)
Fixpoint set_child (name : string) (v : node) (es : entries_t) : entries_t :=
  match es with
  | [] => [(name, v)]
  | (n, x) :: rest =>
      if String.eqb n name then (n, v) :: rest else (n, x) :: set_child name v rest
  end.

Fixpoint remove_child (name : string) (es : entries_t) : entries_t :=
  match es with
  | [] => []
  | (n, x) :: rest =>
      if String.eqb n name then remove_child name rest else (n, x) :: remove_child name rest
  end.

(** The node at a path (segments from the root). *)
Fixpoint get (p : list string) (n : node) : option node :=
  match p with
  | [] => Some n
  | x :: p' =>
      match n with
      | Dir es => match lookup x es with Some c => get p' c | None => None end
      | File _ => None
      end
  end.

(** Recursive removal; removing the root leaves an empty root. *)
Fixpoint tree_rimraf (p : list string) (n : node) : node :=
  match p with
  | [] => Dir []
  | x :: p' =>
      match n with
      | File _ => n
      | Dir es =>
          match p' with
          | [] => Dir (remove_child x es)
          | _ :: _ =>
              match lookup x es with
              | Some c => Dir (set_child x (tree_rimraf p' c) es)
              | None => n
              end
          end
      end
  end.

(** Recursive [mkdir]: fails when a regular file is in the way. *)
Fixpoint tree_mkdirp (p : list string) (n : node) : option node :=
  match n with
  | File _ => None
  | Dir es =>
      match p with
      | [] => Some n
      | x :: p' =>
          let child := match lookup x es with Some c => c | None => Dir [] end in
          match tree_mkdirp p' child with
          | Some c => Some (Dir (set_child x c es))
          | None => None
          end
      end
  end.

(** Create or overwrite a regular file; its directory must exist, and
    the path must not name a directory. *)
Fixpoint tree_write (p : list string) (content : string) (n : node) : option node :=
  match p, n with
  | [], _ => None
  | _, File _ => None
  | x :: p', Dir es =>
      match p' with
      | [] =>
          match lookup x es with
          | Some (Dir _) => None
          | _ => Some (Dir (set_child x (File content) es))
          end
      | _ :: _ =>
          match lookup x es with
          | Some c =>
              match tree_write p' content c with
              | Some c' => Some (Dir (set_child x c' es))
              | None => None
              end
          | None => None
          end
      end
  end.

(** The tree with the node at [p] replaced, when there is one. *)
Fixpoint tree_put (p : list string) (v : node) (n : node) : node :=
  match p with
  | [] => v
  | x :: p' =>
      match n with
      | File _ => n
      | Dir es =>
          match lookup x es with
          | Some c => Dir (set_child x (tree_put p' v c) es)
          | None => n
          end
      end
  end.

(** The content of the regular file at a path, if there is one. *)
Definition read (p : list string) (n : node) : option string :=
  match get p n with
  | Some (File c) => Some c
  | _ => None
  end.

(** The state: the tree, the working directory of the process, against
    which relative paths are resolved, and the order of [readdir]: the rank
    the platform gives a name among the names of its directory. *)
Record t := mk {
  root : node;
  cwd : list string;
  readdir_rank : list string -> string -> nat;
}.

Definition with_root (r : node) (fs : t) : t :=
  {| root := r; cwd := cwd fs; readdir_rank := readdir_rank fs |}.

(** Entries in the order [readdir] gives their names: by rank, entries of
    the same rank in the order they were made. Since the rank is any
    function, this is any order. *)
Fixpoint insert_ranked {A} (rank : string -> nat) (x : string * A) (l : list (string * A))
  : list (string * A) :=
  match l with
  | [] => [x]
  | y :: rest =>
      if Nat.leb (rank (fst x)) (rank (fst y)) then x :: y :: rest
      else y :: insert_ranked rank x rest
  end.

Definition in_readdir_order {A} (rank : string -> nat) (l : list (string * A))
  : list (string * A) :=
  fold_right (insert_ranked rank) [] l.

(** Where a normalized path points. *)
Definition resolve (fs : t) (p : Path.t) : list string :=
  if Path.absolute p then Path.segments p
  else rev (Path.push_all true (rev (cwd fs)) (Path.segments p)).

(** The state with the node at [p] replaced. *)
Definition replaced (p : list string) (v : node) (fs : t) : t :=
  with_root (tree_put p v (root fs)) fs.

Definition ENOENT := JS.mkError "ENOENT: no such file or directory".
Definition ENOTDIR := JS.mkError "ENOTDIR: not a directory".
Definition EISDIR := JS.mkError "EISDIR: illegal operation on a directory".
Definition EEXIST := JS.mkError "EEXIST: file already exists".

Definition exists_ (p : Path.t) : M t bool :=
  JS.gets (fun fs => bool_decide (is_Some (get (resolve fs p) (root fs)))).

Definition rimraf (p : Path.t) : M t unit :=
  JS.modify (fun fs => with_root (tree_rimraf (resolve fs p) (root fs)) fs).

Definition mkdirp (p : Path.t) : M t unit :=
  fun fs => match tree_mkdirp (resolve fs p) (root fs) with
            | Some r => (Normal tt, with_root r fs)
            | None => (Throw EEXIST, fs)
            end.

Definition writeFile (p : Path.t) (content : string) : M t unit :=
  fun fs =>
    if Path.trailing p then (Throw EISDIR, fs)
    else match tree_write (resolve fs p) content (root fs) with
         | Some r => (Normal tt, with_root r fs)
         | None => (Throw ENOENT, fs)
         end.

Definition readFile (p : Path.t) : M t string :=
  fun fs => match read (resolve fs p) (root fs) with
            | Some c => (Normal c, fs)
            | None => (Throw ENOENT, fs)
            end.

End FS.

(** ** Core types ([types/index.ts]) *)

Module Types.

Inductive TaskType := research | code.

Inductive ProjectTemplate := html | vite_react | vite_vue | node | python.

(** The text of a template's name. *)
Definition template_name (t : ProjectTemplate) : string :=
  match t with
  | html => "html"
  | vite_react => "vite-react"
  | vite_vue => "vite-vue"
  | node => "node"
  | python => "python"
  end.

Record TaskClassification := mkClassification {
  type : TaskType;
  template : option ProjectTemplate;
  confidence : float;
  reason : string;
}.

Inductive StepStatus := pending | running | completed | failed.

Record PlanStep := mkPlanStep {
  id : string;
  title : string;
  tool : string;
  input : string;
  status : StepStatus;
}.

Record FileSpec := mkFileSpec {
  path : string;
  description : string;
}.

Record ProjectStep := mkProjectStep {
  step : float;
  action : string;
  file : string;
  step_description : string;
}.

Record ProjectPlan := mkProjectPlan {
  projectName : string;
  plan_description : string;
  files : list FileSpec;
  steps : list ProjectStep;
}.

Inductive FileType := file_t | directory_t.

Record FileInfo := mkFileInfo {
  info_path : string;
  info_type : FileType;
  size : option nat;
}.

Inductive Role := system | user | assistant.

Record Message := mkMessage {
  role : Role;
  content : string;
}.

Record LLMOptions := mkLLMOptions {
  model : string;
  apiKey : string;
  baseURL : option string;
  temperature : option float;
  maxTokens : option nat;
}.

End Types.

Import Types.

(** ** What the platform supplies *)

(** The request the LLM client sends. *)
Record ChatRequest := mkChatRequest {
  req_model : string;
  req_messages : list Message;
  req_temperature : float;
  req_max_tokens : nat;
  req_stream : bool;
}.

(** The answer of the planner's classification prompt, once parsed. *)
Record ClassificationJSON := mkClassificationJSON {
  cj_type : TaskType;
  cj_template : option ProjectTemplate;
  cj_reason : string;
}.

(** One step of the answer of the research-plan prompt. *)
Record StepJSON := mkStepJSON {
  sj_title : string;
  sj_tool : string;
  sj_input : string;
}.

(** The message that starts a session, once parsed; a field that is
    absent is [None]. *)
Record StartMessage := mkStartMessage {
  sm_goal : option string;
  sm_output_format : option string;
  sm_theme : option string;
  sm_model : option string;
}.

(** The value of [error.code] after a failed [exec]: the exit status of the
    child, or the name of a system error. *)
Inductive ErrorCode :=
| CodeNum (n : Z)
| CodeStr (s : string).

(** The error [exec] rejects with: [code] is [null] when a signal ended the
    child, which is how a child that ran past the timeout ends. *)
Record ExecError := mkExecError {
  err_message : string;
  err_stdout : option string;
  err_stderr : option string;
  err_code : option ErrorCode;
  err_killed : bool;
  err_signal : option string;
}.

Inductive ExecOutcome :=
| ExecResolved (stdout stderr : string)
| ExecRejected (e : ExecError).

(** The [n]-th call of an oracle may answer differently from the others:
    each takes the number of calls made before it. *)
Class Runtime := {
  (** [String.prototype.toLowerCase] and [trim]. *)
  toLowerCase : string -> string;
  trim : string -> string;
  (** [JSON.parse(text) as T], for the types it is used at; [None] is
      the value [null]. *)
  JSON_parse_plan : string -> Completion (option ProjectPlan);
  JSON_parse_classification : string -> Completion (option ClassificationJSON);
  JSON_parse_steps : string -> Completion (option (list StepJSON));
  JSON_parse_start : string -> Completion (option StartMessage);
  (** [client.chat.completions.create]: the content of the first choice, and
      for a stream the content of each delta, then the error that ends the
      stream, if one does. Both settle: a request without an end has no
      place here. *)
  completions_create : nat -> ChatRequest -> Completion (option string);
  completions_stream : nat -> ChatRequest -> list (option string) * option Error;
  (** [nanoid(8)]. *)
  nanoid : nat -> string;
  (** [promisify(exec)(command, {cwd, timeout})], with what the command does
      to the files. *)
  exec : string -> string -> float -> FS.t -> ExecOutcome * FS.t;
}.

(** ** The workspace ([tools/sandbox.ts]) *)

Module Sandbox.

(** *** [JSON.stringify(value, null, 2)] for the manifests *)

#[warnings="-register-all"]
Inductive JSONValue :=
| JStr (s : string)
| JBool (b : bool)
| JObj (members : list (string * JSONValue)).

Definition hex_digit (n : nat) : string :=
  String.substring n 1 "0123456789abcdef".

(** The escape of one character inside a JSON string. *)
Definition JSON_escape (c : ascii) : string :=
  let n := nat_of_ascii c in
  if Nat.eqb n 34 then "\" +:+ dq
  else if Nat.eqb n 92 then "\\"
  else if Nat.eqb n 8 then "\b"
  else if Nat.eqb n 12 then "\f"
  else if Nat.eqb n 10 then "\n"
  else if Nat.eqb n 13 then "\r"
  else if Nat.eqb n 9 then "\t"
  else if Nat.ltb n 32 then "\u00" +:+ hex_digit (n / 16) +:+ hex_digit (n mod 16)
  else String c EmptyString.

Fixpoint JSON_escape_all (s : string) : string :=
  match s with
  | EmptyString => EmptyString
  | String c rest => JSON_escape c +:+ JSON_escape_all rest
  end.

Definition JSON_quote (s : string) : string := dq +:+ JSON_escape_all s +:+ dq.

Fixpoint spaces (n : nat) : string :=
  match n with O => EmptyString | S k => String " "%char (spaces k) end.

Fixpoint JSON_stringify (indent : nat) (v : JSONValue) : string :=
  match v with
  | JStr s => JSON_quote s
  | JBool b => if b then "true" else "false"
  | JObj [] => "{}"
  | JObj members =>
      "{" +:+ newline +:+
      JS.join_with ("," +:+ newline)
        ((fix each (ms : list (string * JSONValue)) : list string :=
            match ms with
            | [] => []
            | (k, x) :: rest =>
                (spaces (indent + 2) +:+ JSON_quote k +:+ ": " +:+ JSON_stringify (indent + 2) x)
                :: each rest
            end) members)
      +:+ newline +:+ spaces indent +:+ "}"
  end.

(** *** The boilerplate of the five templates *)

Definition html_indexHtml : string :=
"<!DOCTYPE html>
<html lang=" +:+ dq +:+ "en" +:+ dq +:+ ">
<head>
    <meta charset=" +:+ dq +:+ "UTF-8" +:+ dq +:+ ">
    <meta name=" +:+ dq +:+ "viewport" +:+ dq +:+ " content=" +:+ dq +:+ "width=device-width, initial-scale=1.0" +:+ dq +:+ ">
    <title>Monus App</title>
    <link rel=" +:+ dq +:+ "stylesheet" +:+ dq +:+ " href=" +:+ dq +:+ "style.css" +:+ dq +:+ ">
</head>
<body>
    <div id=" +:+ dq +:+ "app" +:+ dq +:+ ">
        <h1>Hello Monus!</h1>
    </div>
    <script src=" +:+ dq +:+ "script.js" +:+ dq +:+ "></script>
</body>
</html>".

Definition html_styleCss : string :=
"* {
    margin: 0;
    padding: 0;
    box-sizing: border-box;
}

body {
    font-family: -apple-system, BlinkMacSystemFont, 'Segoe UI', Roboto, sans-serif;
    background: linear-gradient(135deg, #1a1a2e 0%, #16213e 100%);
    color: white;
    min-height: 100vh;
    display: flex;
    justify-content: center;
    align-items: center;
}

#app {
    text-align: center;
}

h1 {
    font-size: 3rem;
    background: linear-gradient(90deg, #00d9ff, #00ff88);
    -webkit-background-clip: text;
    -webkit-text-fill-color: transparent;
}".

Definition html_scriptJs : string :=
"// Monus Generated App
console.log('Monus App Started!');

document.addEventListener('DOMContentLoaded', () => {
    const app = document.getElementById('app');
    // Your code here
});".

Definition react_viteConfig : string :=
"import { defineConfig } from 'vite'
import react from '@vitejs/plugin-react'

export default defineConfig({
  plugins: [react()],
})".

Definition react_indexHtml : string :=
"<!DOCTYPE html>
<html lang=" +:+ dq +:+ "en" +:+ dq +:+ ">
  <head>
    <meta charset=" +:+ dq +:+ "UTF-8" +:+ dq +:+ " />
    <meta name=" +:+ dq +:+ "viewport" +:+ dq +:+ " content=" +:+ dq +:+ "width=device-width, initial-scale=1.0" +:+ dq +:+ " />
    <title>Monus App</title>
  </head>
  <body>
    <div id=" +:+ dq +:+ "root" +:+ dq +:+ "></div>
    <script type=" +:+ dq +:+ "module" +:+ dq +:+ " src=" +:+ dq +:+ "/src/main.jsx" +:+ dq +:+ "></script>
  </body>
</html>".

Definition react_mainJsx : string :=
"import React from 'react'
import ReactDOM from 'react-dom/client'
import App from './App.jsx'
import './index.css'

ReactDOM.createRoot(document.getElementById('root')).render(
  <React.StrictMode>
    <App />
  </React.StrictMode>,
)".

Definition react_appJsx : string :=
"import { useState } from 'react'

function App() {
  const [count, setCount] = useState(0)

  return (
    <div className=" +:+ dq +:+ "app" +:+ dq +:+ ">
      <h1>Monus App</h1>
      <div className=" +:+ dq +:+ "card" +:+ dq +:+ ">
        <button onClick={() => setCount((count) => count + 1)}>
          count is {count}
        </button>
      </div>
    </div>
  )
}

export default App".

Definition react_indexCss : string :=
":root {
  font-family: Inter, system-ui, sans-serif;
  background: #242424;
  color: rgba(255, 255, 255, 0.87);
}

body {
  margin: 0;
  min-height: 100vh;
  display: flex;
  justify-content: center;
  align-items: center;
}

.app {
  text-align: center;
}

button {
  padding: 0.6em 1.2em;
  font-size: 1em;
  font-weight: 500;
  background-color: #1a1a1a;
  border: 1px solid transparent;
  border-radius: 8px;
  cursor: pointer;
  transition: border-color 0.25s;
}

button:hover {
  border-color: #646cff;
}".

Definition vue_viteConfig : string :=
"import { defineConfig } from 'vite'
import vue from '@vitejs/plugin-vue'

export default defineConfig({
  plugins: [vue()],
})".

Definition vue_indexHtml : string :=
"<!DOCTYPE html>
<html lang=" +:+ dq +:+ "en" +:+ dq +:+ ">
  <head>
    <meta charset=" +:+ dq +:+ "UTF-8" +:+ dq +:+ " />
    <meta name=" +:+ dq +:+ "viewport" +:+ dq +:+ " content=" +:+ dq +:+ "width=device-width, initial-scale=1.0" +:+ dq +:+ " />
    <title>Monus App</title>
  </head>
  <body>
    <div id=" +:+ dq +:+ "app" +:+ dq +:+ "></div>
    <script type=" +:+ dq +:+ "module" +:+ dq +:+ " src=" +:+ dq +:+ "/src/main.js" +:+ dq +:+ "></script>
  </body>
</html>".

Definition vue_mainJs : string :=
"import { createApp } from 'vue'
import App from './App.vue'
import './style.css'

createApp(App).mount('#app')".

Definition vue_appVue : string :=
"<script setup>
import { ref } from 'vue'

const count = ref(0)
</script>

<template>
  <div class=" +:+ dq +:+ "app" +:+ dq +:+ ">
    <h1>Monus App</h1>
    <div class=" +:+ dq +:+ "card" +:+ dq +:+ ">
      <button @click=" +:+ dq +:+ "count++" +:+ dq +:+ ">count is {{ count }}</button>
    </div>
  </div>
</template>

<style scoped>
.app {
  text-align: center;
}
</style>".

Definition vue_styleCss : string :=
":root {
  font-family: Inter, system-ui, sans-serif;
  background: #242424;
  color: rgba(255, 255, 255, 0.87);
}

body {
  margin: 0;
  min-height: 100vh;
  display: flex;
  justify-content: center;
  align-items: center;
}

button {
  padding: 0.6em 1.2em;
  font-size: 1em;
  font-weight: 500;
  background-color: #1a1a1a;
  border: 1px solid transparent;
  border-radius: 8px;
  cursor: pointer;
  transition: border-color 0.25s;
}

button:hover {
  border-color: #646cff;
}".

Definition node_indexJs : string :=
"// Monus Generated Node.js App
console.log('Hello from Monus!');

async function main() {
  // Your code here
}

main().catch(console.error);".

Definition python_mainPy : string :=
"" +:+ dq +:+ "" +:+ dq +:+ "" +:+ dq +:+ "
Monus Generated Python App
" +:+ dq +:+ "" +:+ dq +:+ "" +:+ dq +:+ "

def main():
    print(" +:+ dq +:+ "Hello from Monus!" +:+ dq +:+ ")

if __name__ == " +:+ dq +:+ "__main__" +:+ dq +:+ ":
    main()".

(** *** The SandboxTool class *)

Record ProjectInfo := mkProjectInfo {
  name : string;
  project_path : string;
  project_files : list FileInfo;
}.

Record CommandResult := mkCommandResult {
  success : bool;
  stdout : string;
  stderr : string;
  code : ErrorCode;
}.

Record SandboxTool := mkSandboxTool {
  workspaceDir : string;
}.

(** [process.cwd()]. *)
Definition process_cwd (fs : FS.t) : string :=
  Path.to_string (Path.mk true (FS.cwd fs) false).

(** [new SandboxTool(workspaceDir?)]. *)
Definition new_SandboxTool (dir : option string) (fs : FS.t) : SandboxTool :=
  {| workspaceDir :=
       JS.nullish dir (Path.to_string (Path.join [process_cwd fs; "sandbox_workspace"])) |}.

Definition initHTMLProject (projectPath : Path.t) : M FS.t unit :=
  FS.writeFile (Path.join_from projectPath ["index.html"]) html_indexHtml ;;
  FS.writeFile (Path.join_from projectPath ["style.css"]) html_styleCss ;;
  FS.writeFile (Path.join_from projectPath ["script.js"]) html_scriptJs.

Definition react_packageJson (projectPath : Path.t) : JSONValue :=
  JObj [("name", JStr (Path.basename_any projectPath));
        ("private", JBool true);
        ("version", JStr "0.0.0");
        ("type", JStr "module");
        ("scripts", JObj [("dev", JStr "vite");
                          ("build", JStr "vite build");
                          ("preview", JStr "vite preview")]);
        ("dependencies", JObj [("react", JStr "^18.2.0");
                               ("react-dom", JStr "^18.2.0")]);
        ("devDependencies", JObj [("@vitejs/plugin-react", JStr "^4.2.0");
                                  ("vite", JStr "^5.0.0")])].

Definition initViteReactProject (projectPath : Path.t) : M FS.t unit :=
  FS.mkdirp (Path.join_from projectPath ["src"]) ;;
  FS.mkdirp (Path.join_from projectPath ["public"]) ;;
  FS.writeFile (Path.join_from projectPath ["package.json"])
    (JSON_stringify 0 (react_packageJson projectPath)) ;;
  FS.writeFile (Path.join_from projectPath ["vite.config.js"]) react_viteConfig ;;
  FS.writeFile (Path.join_from projectPath ["index.html"]) react_indexHtml ;;
  FS.writeFile (Path.join_from projectPath ["src"; "main.jsx"]) react_mainJsx ;;
  FS.writeFile (Path.join_from projectPath ["src"; "App.jsx"]) react_appJsx ;;
  FS.writeFile (Path.join_from projectPath ["src"; "index.css"]) react_indexCss.

Definition vue_packageJson (projectPath : Path.t) : JSONValue :=
  JObj [("name", JStr (Path.basename_any projectPath));
        ("private", JBool true);
        ("version", JStr "0.0.0");
        ("type", JStr "module");
        ("scripts", JObj [("dev", JStr "vite");
                          ("build", JStr "vite build");
                          ("preview", JStr "vite preview")]);
        ("dependencies", JObj [("vue", JStr "^3.4.0")]);
        ("devDependencies", JObj [("@vitejs/plugin-vue", JStr "^5.0.0");
                                  ("vite", JStr "^5.0.0")])].

Definition initViteVueProject (projectPath : Path.t) : M FS.t unit :=
  FS.mkdirp (Path.join_from projectPath ["src"]) ;;
  FS.writeFile (Path.join_from projectPath ["package.json"])
    (JSON_stringify 0 (vue_packageJson projectPath)) ;;
  FS.writeFile (Path.join_from projectPath ["vite.config.js"]) vue_viteConfig ;;
  FS.writeFile (Path.join_from projectPath ["index.html"]) vue_indexHtml ;;
  FS.writeFile (Path.join_from projectPath ["src"; "main.js"]) vue_mainJs ;;
  FS.writeFile (Path.join_from projectPath ["src"; "App.vue"]) vue_appVue ;;
  FS.writeFile (Path.join_from projectPath ["src"; "style.css"]) vue_styleCss.

Definition node_packageJson (projectPath : Path.t) : JSONValue :=
  JObj [("name", JStr (Path.basename_any projectPath));
        ("version", JStr "1.0.0");
        ("type", JStr "module");
        ("main", JStr "src/index.js");
        ("scripts", JObj [("start", JStr "node src/index.js");
                          ("dev", JStr "node --watch src/index.js")])].

Definition initNodeProject (projectPath : Path.t) : M FS.t unit :=
  FS.mkdirp (Path.join_from projectPath ["src"]) ;;
  FS.writeFile (Path.join_from projectPath ["package.json"])
    (JSON_stringify 0 (node_packageJson projectPath)) ;;
  FS.writeFile (Path.join_from projectPath ["src"; "index.js"]) node_indexJs.

Definition initPythonProject (projectPath : Path.t) : M FS.t unit :=
  FS.writeFile (Path.join_from projectPath ["main.py"]) python_mainPy ;;
  FS.writeFile (Path.join_from projectPath ["requirements.txt"]) "".

(** The directory a template leaves in an empty project directory, its
    entries in the order they are made. *)
Definition boilerplate (template : ProjectTemplate) (projectPath : Path.t) : FS.node :=
  match template with
  | html =>
      FS.Dir [("index.html", FS.File html_indexHtml);
              ("style.css", FS.File html_styleCss);
              ("script.js", FS.File html_scriptJs)]
  | vite_react =>
      FS.Dir [("src", FS.Dir [("main.jsx", FS.File react_mainJsx);
                              ("App.jsx", FS.File react_appJsx);
                              ("index.css", FS.File react_indexCss)]);
              ("public", FS.Dir []);
              ("package.json", FS.File (JSON_stringify 0 (react_packageJson projectPath)));
              ("vite.config.js", FS.File react_viteConfig);
              ("index.html", FS.File react_indexHtml)]
  | vite_vue =>
      FS.Dir [("src", FS.Dir [("main.js", FS.File vue_mainJs);
                              ("App.vue", FS.File vue_appVue);
                              ("style.css", FS.File vue_styleCss)]);
              ("package.json", FS.File (JSON_stringify 0 (vue_packageJson projectPath)));
              ("vite.config.js", FS.File vue_viteConfig);
              ("index.html", FS.File vue_indexHtml)]
  | node =>
      FS.Dir [("src", FS.Dir [("index.js", FS.File node_indexJs)]);
              ("package.json", FS.File (JSON_stringify 0 (node_packageJson projectPath)))]
  | python =>
      FS.Dir [("main.py", FS.File python_mainPy);
              ("requirements.txt", FS.File "")]
  end.

(** The listing of a directory node: entries whose name starts with a dot
    and [node_modules] are left out; a directory is followed by its own
    listing. The part of the listing that each entry gives is computed
    first, and the parts are put in the order in which [readdir] gives the
    entries. The source lists a subdirectory by calling [listFiles] with
    the longer relative path, which leads to the same node. *)
Fixpoint listNode (rank : list string -> string -> nat) (subPath : string) (n : FS.node)
  : list FileInfo :=
  match n with
  | FS.File _ => []
  | FS.Dir es =>
      let parts :=
        (fix each (es : FS.entries_t) : list (string * list FileInfo) :=
           match es with
           | [] => []
           | (entry, child) :: rest =>
               if JS.startsWith "." entry || String.eqb entry "node_modules"
               then each rest
               else
                 let relativePath :=
                   if JS.truthy subPath then subPath +:+ "/" +:+ entry else entry in
                 match child with
                 | FS.Dir _ =>
                     (entry, mkFileInfo relativePath directory_t None
                             :: listNode rank relativePath child)
                     :: each rest
                 | FS.File content =>
                     (entry, [mkFileInfo relativePath file_t (Some (String.length content))])
                     :: each rest
                 end
           end) es in
      flat_map snd (FS.in_readdir_order (rank (map fst es)) parts)
  end.

Definition listFiles (self : SandboxTool) (projectName subPath : string)
  : M FS.t (list FileInfo) :=
  let projectPath := Path.join [workspaceDir self; projectName; subPath] in
  fun fs =>
    match FS.get (FS.resolve fs projectPath) (FS.root fs) with
    | None => (Normal [], fs)
    | Some (FS.File _) => (Throw FS.ENOTDIR, fs)
    | Some (FS.Dir es) => (Normal (listNode (FS.readdir_rank fs) subPath (FS.Dir es)), fs)
    end.

Definition initProject (self : SandboxTool) (name : string) (template : ProjectTemplate)
  : M FS.t ProjectInfo :=
  let projectPath := Path.join [workspaceDir self; name] in
  let* present := FS.exists_ projectPath in
  (if present then FS.rimraf projectPath else JS.ret tt) ;;
  FS.mkdirp projectPath ;;
  match template with
  | html => initHTMLProject projectPath
  | vite_react => initViteReactProject projectPath
  | vite_vue => initViteVueProject projectPath
  | node => initNodeProject projectPath
  | python => initPythonProject projectPath
  end ;;
  let* files := listFiles self name "" in
  JS.ret (mkProjectInfo name (Path.to_string projectPath) files).

Definition writeProjectFile (self : SandboxTool) (projectName filePath content : string)
  : M FS.t unit :=
  let fullPath := Path.join [workspaceDir self; projectName; filePath] in
  FS.mkdirp (Path.dirname fullPath) ;;
  FS.writeFile fullPath content.

Definition readProjectFile (self : SandboxTool) (projectName filePath : string)
  : M FS.t string :=
  FS.readFile (Path.join [workspaceDir self; projectName; filePath]).

Definition deleteProjectFile (self : SandboxTool) (projectName filePath : string)
  : M FS.t unit :=
  FS.rimraf (Path.join [workspaceDir self; projectName; filePath]).

Definition cleanup (self : SandboxTool) (projectName : string) : M FS.t unit :=
  FS.rimraf (Path.join [workspaceDir self; projectName]).

Definition getProjectPath (self : SandboxTool) (projectName : string) : string :=
  Path.to_string (Path.join [workspaceDir self; projectName]).

Section Commands.
Context `{Runtime}.

(** [runCommand(projectName, command, timeout = 60000)]. *)
Definition runCommand (self : SandboxTool) (projectName command : string) (timeout : float)
  : M FS.t CommandResult :=
  let projectPath := Path.join [workspaceDir self; projectName] in
  let* present := FS.exists_ projectPath in
  if negb present then
    JS.ret (mkCommandResult false "" "Project not found" (CodeNum 1))
  else
    fun fs =>
      match exec command (Path.to_string projectPath) timeout fs with
      | (ExecResolved out err, fs') =>
          (Normal (mkCommandResult true out err (CodeNum 0)), fs')
      | (ExecRejected error, fs') =>
          (Normal (mkCommandResult false
                     (JS.nullish (err_stdout error) "")
                     (JS.nullish (err_stderr error) (err_message error))
                     (JS.nullish (err_code error) (CodeNum 1))), fs')
      end.

Definition default_timeout : float := 60000.

Definition installDeps (self : SandboxTool) (projectName : string) : M FS.t CommandResult :=
  let projectPath := Path.join [workspaceDir self; projectName] in
  let* hasPackageJson := FS.exists_ (Path.join_from projectPath ["package.json"]) in
  if hasPackageJson then runCommand self projectName "npm install" 120000
  else
    let* hasRequirements := FS.exists_ (Path.join_from projectPath ["requirements.txt"]) in
    if hasRequirements
    then runCommand self projectName "pip install -r requirements.txt" 120000
    else JS.ret (mkCommandResult true "No dependencies to install" "" (CodeNum 0)).

End Commands.

End Sandbox.

(** ** The event protocol of the websocket ([ws.send(JSON.stringify(...))]) *)

Module Protocol.

Inductive Phase := planning | writing | complete.

Inductive StepState := step_running | step_done.

Inductive DoneResult :=
| CodeResult (success : bool) (projectName previewUrl : string) (files : list string)
| ResearchResult (success : bool) (runId report : string).

Inductive Event :=
| error (message : string)
| classification (taskType : TaskType) (template : option ProjectTemplate)
    (confidence : float) (reason : string)
| phase (p : Phase)
| progress (value : float)
| step (text : string) (status : StepState)
| project_created (projectName : string) (files : list FileInfo)
| file_start (file : string)
| file_chunk (file chunk : string)
| file_complete (file content : string)
| done (taskId : string) (mode : TaskType) (result : DoneResult).

End Protocol.

(** ** The world of one connection *)

Record World := mkWorld {
  fs : FS.t;                          (* the files on disk *)
  sent : list Protocol.Event;         (* what went out on the socket, oldest first *)
  llm_calls : nat;                    (* requests made to the model so far *)
  nanoid_calls : nat;                 (* identifiers drawn so far *)
  conversationHistory : list Message; (* the field of the session's Coder *)
  DEEPSEEK_API_KEY : option string;   (* [process.env.DEEPSEEK_API_KEY] *)
}.

Definition with_fs (f : FS.t) (w : World) : World :=
  mkWorld f (sent w) (llm_calls w) (nanoid_calls w) (conversationHistory w) (DEEPSEEK_API_KEY w).
Definition with_sent (s : list Protocol.Event) (w : World) : World :=
  mkWorld (fs w) s (llm_calls w) (nanoid_calls w) (conversationHistory w) (DEEPSEEK_API_KEY w).
Definition with_llm_calls (n : nat) (w : World) : World :=
  mkWorld (fs w) (sent w) n (nanoid_calls w) (conversationHistory w) (DEEPSEEK_API_KEY w).
Definition with_nanoid_calls (n : nat) (w : World) : World :=
  mkWorld (fs w) (sent w) (llm_calls w) n (conversationHistory w) (DEEPSEEK_API_KEY w).
Definition with_history (h : list Message) (w : World) : World :=
  mkWorld (fs w) (sent w) (llm_calls w) (nanoid_calls w) h (DEEPSEEK_API_KEY w).

(** A workspace call, run on the files of the world. *)
Definition on_fs {A} (m : M FS.t A) : M World A :=
  fun w => let '(r, f) := m (fs w) in (r, with_fs f w).

(** [ws.send(JSON.stringify(event))]. *)
Definition ws_send (e : Protocol.Event) : M World unit :=
  JS.modify (fun w => with_sent (sent w ++ [e])%list w).

(** ** The LLM client *)

Module LLM.
Section Client.
Context `{Runtime}.

Record LLMClient := mkLLMClient {
  model : string;
  temperature : float;
  maxTokens : nat;
}.

Definition new_LLMClient (options : LLMOptions) : LLMClient :=
  {| model := Types.model options;
     temperature := JS.nullish (Types.temperature options) 0.7%float;
     maxTokens := JS.nullish (Types.maxTokens options) 4096 |}.

Definition request (self : LLMClient) (messages : list Message) (stream : bool) : ChatRequest :=
  mkChatRequest (model self) messages (temperature self) (maxTokens self) stream.

(** [chat(messages)]: the content of the first choice, or the empty text. *)
Definition chat (self : LLMClient) (messages : list Message) : M World string :=
  fun w =>
    let w' := with_llm_calls (S (llm_calls w)) w in
    match completions_create (llm_calls w) (request self messages false) with
    | Normal content => (Normal (JS.nullish content ""), w')
    | Throw e => (Throw e, w')
    end.

(** The body of a [for await] loop over text fragments, with the local
    variables of the loop's owner as [A]. *)
Definition Consumer (A : Type) : Type := A -> string -> M World A.

Fixpoint each_delta {A} (body : Consumer A) (deltas : list (option string)) (acc : A)
  : M World A :=
  match deltas with
  | [] => JS.ret acc
  | delta :: rest =>
      match delta with
      | Some content =>
          if JS.truthy content
          then let* acc' := body acc content in each_delta body rest acc'
          else each_delta body rest acc
      | None => each_delta body rest acc
      end
  end.

(** [chatStream(messages)], an async generator, given the loop that
    consumes it: every delta with a content is yielded to [body]; the
    stream may end with an error, thrown after the fragments before it. *)
Definition chatStream {A} (self : LLMClient) (messages : list Message)
    (body : Consumer A) (init : A) : M World A :=
  fun w =>
    let '(deltas, ending) := completions_stream (llm_calls w) (request self messages true) in
    (let* acc := each_delta body deltas init in
     match ending with
     | Some e => JS.throw e
     | None => JS.ret acc
     end) (with_llm_calls (S (llm_calls w)) w).

Definition fence : string := "```".

(** The text between the first fence and the next one. *)
Definition between_fences (opening response : string) : string :=
  match JS.split opening response with
  | _ :: after :: _ =>
      match JS.split fence after with
      | inner :: _ => inner
      | [] => response
      end
  | _ => response
  end.

(** The text [chatJSON] hands to [JSON.parse]. *)
Definition extract_json (response : string) : string :=
  let jsonStr :=
    if JS.includes (fence +:+ "json") response
    then between_fences (fence +:+ "json") response
    else if JS.includes fence response
    then between_fences fence response
    else response in
  trim jsonStr.

(** [chatJSON<T>(messages)], with [parse] standing for [JSON.parse(...) as T]. *)
Definition chatJSON {T} (parse : string -> Completion T) (self : LLMClient)
    (messages : list Message) : M World T :=
  let* response := chat self messages in
  fun w => (parse (extract_json response), w).

End Client.
End LLM.

(** ** The Planner agent: classification and report planning *)

Module Planner.
Section Planner.
Context `{Runtime}.

Record Planner := mkPlanner {
  llm : LLM.LLMClient;
}.

Definition new_Planner (options : LLMOptions) : Planner :=
  {| llm := LLM.new_LLMClient options |}.

Definition codeKeywords : list string :=
  ["做一個"; "寫一個"; "開發"; "實作"; "建立"; "創建"; "遊戲"; "網站"; "app"; "應用"; "程式"; "功能";
   "make"; "build"; "create"; "develop"; "implement"; "game"; "website"; "application"; "program"].

Definition researchKeywords : list string :=
  ["研究"; "分析"; "比較"; "什麼是"; "介紹"; "說明"; "教學"; "原理"; "報告"; "彙整"; "推薦"; "整理";
   "research"; "analyze"; "compare"; "explain"; "tutorial"; "overview"; "how does"; "what is"].

(** [keywords.filter((kw) => goalLower.includes(kw.toLowerCase())).length]. *)
Definition score (keywords : list string) (goalLower : string) : nat :=
  length (filter (fun kw => JS.includes (toLowerCase kw) goalLower = true) keywords).

(** [keywords.some((kw) => goalLower.includes(kw))]. *)
Definition some_included (keywords : list string) (goalLower : string) : bool :=
  existsb (fun kw => JS.includes kw goalLower) keywords.

Definition select_template (goalLower : string) : ProjectTemplate :=
  if some_included ["react"; "元件"; "component"] goalLower then vite_react
  else if some_included ["vue"] goalLower then vite_vue
  else if some_included ["python"; "爬蟲"; "腳本"; "script"] goalLower then python
  else if some_included ["node"; "後端"; "api"; "server"] goalLower then node
  else html.

Definition classify_prompt (goal : string) : string :=
  "分析以下用戶需求，判斷是「研究型任務」還是「程式開發任務」。

用戶需求: "
  +:+ goal
  +:+ "

判斷標準:
- 研究型(research): 需要搜尋資料、整理報告、比較分析、教學說明
- 程式開發(code): 需要寫程式碼、做應用、做遊戲、建網站

回覆 JSON 格式（不要 markdown）:
{" +:+ dq +:+ "type" +:+ dq +:+ ": " +:+ dq +:+ "research 或 code" +:+ dq +:+ ", " +:+ dq +:+ "template" +:+ dq +:+ ": " +:+ dq +:+ "html/vite-react/vite-vue/node/python 或 null" +:+ dq +:+ ", " +:+ dq +:+ "reason" +:+ dq +:+ ": " +:+ dq +:+ "判斷理由" +:+ dq +:+ "}".

(** [llmClassifyTask(goal)]. *)
Definition llmClassifyTask (self : Planner) (goal : string) : M World TaskClassification :=
  let prompt := classify_prompt goal in
  JS.try_catch
    (let* parsed := LLM.chatJSON JSON_parse_classification (llm self) [mkMessage user prompt] in
     match parsed with
     | None => JS.throw (JS.mkError "Cannot read properties of null (reading 'type')")
     | Some result =>
         JS.ret (mkClassification (cj_type result) (cj_template result) 0.7%float (cj_reason result))
     end)
    (fun _ =>
       JS.ret (mkClassification research None 0.5%float
                 "Default to research (LLM classification failed)")).

(** [classifyTask(goal)]. *)
Definition classifyTask (self : Planner) (goal : string) : M World TaskClassification :=
  let goalLower := toLowerCase goal in
  let codeScore := score codeKeywords goalLower in
  let researchScore := score researchKeywords goalLower in
  let template :=
    if Nat.ltb researchScore codeScore then Some (select_template goalLower) else None in
  if Nat.eqb codeScore 0 && Nat.eqb researchScore 0 then
    llmClassifyTask self goal
  else if Nat.ltb researchScore codeScore then
    JS.ret (mkClassification code template
              (JS.Math_min 1 (JS.of_nat codeScore / 3))
              ("Detected code-related keywords (score: " +:+ JS.show_nat codeScore
               +:+ " vs " +:+ JS.show_nat researchScore +:+ ")"))
  else
    JS.ret (mkClassification research None
              (JS.Math_min 1 (JS.of_nat researchScore / 3))
              ("Detected research-related keywords (score: " +:+ JS.show_nat researchScore
               +:+ " vs " +:+ JS.show_nat codeScore +:+ ")")).

Definition plan_prompt (goal : string) : string :=
  "你是一個研究助理 AI。用戶給你一個研究目標，你需要規劃執行步驟。

目標: "
  +:+ goal
  +:+ "

可用的工具:
- browser.search: 搜尋網路資料（輸入搜尋關鍵字）
- browser.open: 開啟特定網頁（輸入 URL）
- browser.extract: 提取當前頁面內容
- fs.write: 寫入檔案
- code.run: 執行命令

請規劃 3-5 個步驟來完成這個研究任務。
每個步驟格式:
- title: 步驟標題
- tool: 使用的工具
- input: 工具輸入

回覆純 JSON 格式（不要 markdown）:
[
  {" +:+ dq +:+ "title" +:+ dq +:+ ": " +:+ dq +:+ "步驟1標題" +:+ dq +:+ ", " +:+ dq +:+ "tool" +:+ dq +:+ ": " +:+ dq +:+ "browser.search" +:+ dq +:+ ", " +:+ dq +:+ "input" +:+ dq +:+ ": " +:+ dq +:+ "搜尋關鍵字" +:+ dq +:+ "},
  ...
]".

(** [nanoid(8)]. *)
Definition fresh_id : M World string :=
  fun w => (Normal (nanoid (nanoid_calls w)), with_nanoid_calls (S (nanoid_calls w)) w).

Fixpoint map_steps (steps : list StepJSON) : M World (list PlanStep) :=
  match steps with
  | [] => JS.ret []
  | st :: rest =>
      let* i := fresh_id in
      let* others := map_steps rest in
      JS.ret (mkPlanStep i (sj_title st) (sj_tool st) (sj_input st) pending :: others)
  end.

(** [createPlan(goal)]. *)
Definition createPlan (self : Planner) (goal : string) : M World (list PlanStep) :=
  let prompt := plan_prompt goal in
  JS.try_catch
    (let* parsed := LLM.chatJSON JSON_parse_steps (llm self) [mkMessage user prompt] in
     match parsed with
     | None => JS.throw (JS.mkError "Cannot read properties of null (reading 'map')")
     | Some steps => map_steps steps
     end)
    (fun _ =>
       let* id1 := fresh_id in
       let* id2 := fresh_id in
       let* id3 := fresh_id in
       JS.ret [mkPlanStep id1 "搜尋相關資料" "browser.search" goal pending;
               mkPlanStep id2 "分析搜尋結果" "browser.extract" "Extract main content" pending;
               mkPlanStep id3 "生成報告" "generate_report" goal pending]).

Definition content_type_prompt (goal preview : string) : string :=
  "分析以下研究目標和內容，判斷最適合的報告類型。

目標: "
  +:+ goal
  +:+ "

內容預覽:
"
  +:+ preview
  +:+ "

可選類型:
- tutorial: 教學文章（有步驟、程式碼範例）
- comparison: 比較分析（對比多個選項）
- report: 研究報告（深度分析、學術風格）
- reference: 參考文件（API、技術規格）
- list: 列表彙整（推薦清單、排名）
- overview: 概述介紹（入門、基礎介紹）

只回覆類型 ID，不要其他文字。".

Definition validTypes : list string :=
  ["tutorial"; "comparison"; "report"; "reference"; "list"; "overview"].

(** [analyzeContentType(goal, contents)]. *)
Definition analyzeContentType (self : Planner) (goal : string) (contents : list string)
  : M World string :=
  let preview := JS.slice0 2000 (JS.join_with newline (take 3 contents)) in
  let prompt := content_type_prompt goal preview in
  let* answered :=
    JS.try_catch
      (let* result := LLM.chat (llm self) [mkMessage user prompt] in
       let type := trim (toLowerCase result) in
       if existsb (String.eqb type) validTypes then JS.ret (Some type) else JS.ret None)
      (fun _ => JS.ret None) in
  match answered with
  | Some type => JS.ret type
  | None =>
      let goalLower := toLowerCase goal in
      if some_included ["教學"; "教程"; "how to"; "步驟"; "tutorial"] goalLower then JS.ret "tutorial"
      else if some_included ["比較"; "對比"; "vs"; "差異"] goalLower then JS.ret "comparison"
      else if some_included ["api"; "參考"; "reference"; "文件"] goalLower then JS.ret "reference"
      else if some_included ["推薦"; "列表"; "top"; "最佳"] goalLower then JS.ret "list"
      else if some_included ["什麼是"; "介紹"; "概述"; "入門"] goalLower then JS.ret "overview"
      else JS.ret "report"
  end.

(** What [descriptions[key]] finds, and the text it has in the prompt, for
    a key that is none of the six of [descriptions]: the object inherits
    the properties of [Object.prototype], which are functions but for
    [__proto__], the prototype itself. *)
Definition inherited_text (key : string) : option string :=
  if String.eqb key "__proto__" then Some "[object Object]"
  else if String.eqb key "constructor" then Some "function Object() { [native code] }"
  else if existsb (String.eqb key)
            ["__defineGetter__"; "__defineSetter__"; "__lookupGetter__"; "__lookupSetter__";
             "hasOwnProperty"; "isPrototypeOf"; "propertyIsEnumerable";
             "toLocaleString"; "toString"; "valueOf"]
  then Some ("function " +:+ key +:+ "() { [native code] }")
  else None.

(** [getTypeDescription(contentType)], as the text the prompt shows. *)
Definition getTypeDescription (contentType : string) : string :=
  if String.eqb contentType "tutorial" then "實用教學文章"
  else if String.eqb contentType "comparison" then "深度比較分析報告"
  else if String.eqb contentType "report" then "研究報告"
  else if String.eqb contentType "reference" then "技術參考文件"
  else if String.eqb contentType "list" then "精選列表"
  else if String.eqb contentType "overview" then "概述介紹文章"
  else JS.nullish (inherited_text contentType) "研究報告".

Definition report_prompt (goal contentType sourcesText contentsText : string) : string :=
  "目標: "
  +:+ goal
  +:+ "
內容類型: "
  +:+ contentType
  +:+ "

收集的來源:
"
  +:+ sourcesText
  +:+ "

內容摘要:
"
  +:+ contentsText
  +:+ "

請根據以上資料撰寫一份"
  +:+ getTypeDescription contentType
  +:+ "。

撰寫要求:
1. 使用繁體中文
2. 報告需超過 1000 字
3. 內容要有深度，不要泛泛而談
4. 適當使用 Markdown 格式（標題、列表、程式碼區塊、表格等）
5. 如果是教學類，要有清晰的步驟和程式碼範例
6. 如果是比較類，要有表格對比
7. 引用來源時標註出處".

(** [generateReport(goal, sources, contents, contentType?)]; a source is a
    title and a url. *)
Definition generateReport (self : Planner) (goal : string)
    (sources : list (string * string)) (contents : list string)
    (contentType : option string) : M World string :=
  let* contentType :=
    match contentType with
    | Some t => if JS.truthy t then JS.ret t else analyzeContentType self goal contents
    | None => analyzeContentType self goal contents
    end in
  let sourcesText :=
    JS.join_with newline (map (fun s => "- " +:+ fst s +:+ ": " +:+ snd s) sources) in
  let contentsText :=
    JS.slice0 8000
      (JS.join_with (newline +:+ newline +:+ "---" +:+ newline +:+ newline)
         (take 5 contents)) in
  LLM.chat (llm self) [mkMessage user (report_prompt goal contentType sourcesText contentsText)].

End Planner.
End Planner.

(** ** The Coder agent: project planning and file generation *)

Module Coder.
Section Coder.
Context `{Runtime}.

(** The [conversationHistory] field lives in the world: a session has one
    Coder. *)
Record Coder := mkCoder {
  llm : LLM.LLMClient;
}.

(** [new Coder(options)]: the history starts empty. *)
Definition new_Coder (options : LLMOptions) : M World Coder :=
  JS.modify (with_history []) ;;
  JS.ret {| llm := LLM.new_LLMClient options |}.

Definition templateHints (template : ProjectTemplate) : string :=
  match template with
  | html => "使用純 HTML + CSS + JavaScript，不需要建置工具"
  | vite_react => "使用 Vite + React，現代化前端架構"
  | vite_vue => "使用 Vite + Vue 3，現代化前端架構"
  | node => "使用 Node.js"
  | python => "使用 Python，可搭配 Flask 或純腳本"
  end.

Definition analyze_prompt (goal : string) (template : ProjectTemplate) : string :=
  "你是一個專業的程式碼架構師。
分析使用者需求，規劃專案結構。

回傳 JSON 格式：
{
    " +:+ dq +:+ "projectName" +:+ dq +:+ ": " +:+ dq +:+ "專案名稱（英文，用底線分隔）" +:+ dq +:+ ",
    " +:+ dq +:+ "description" +:+ dq +:+ ": " +:+ dq +:+ "專案描述" +:+ dq +:+ ",
    " +:+ dq +:+ "files" +:+ dq +:+ ": [
        {" +:+ dq +:+ "path" +:+ dq +:+ ": " +:+ dq +:+ "檔案路徑" +:+ dq +:+ ", " +:+ dq +:+ "description" +:+ dq +:+ ": " +:+ dq +:+ "檔案說明" +:+ dq +:+ "}
    ],
    " +:+ dq +:+ "steps" +:+ dq +:+ ": [
        {" +:+ dq +:+ "step" +:+ dq +:+ ": 1, " +:+ dq +:+ "action" +:+ dq +:+ ": " +:+ dq +:+ "create_file" +:+ dq +:+ ", " +:+ dq +:+ "file" +:+ dq +:+ ": " +:+ dq +:+ "檔案路徑" +:+ dq +:+ ", " +:+ dq +:+ "description" +:+ dq +:+ ": " +:+ dq +:+ "說明" +:+ dq +:+ "}
    ]
}

注意：
1. 專案名稱用英文小寫加底線
2. 列出所有需要建立的檔案
3. 步驟要按順序，從基礎結構開始

使用者需求："
  +:+ goal
  +:+ "

專案模板："
  +:+ template_name template
  +:+ "
模板說明："
  +:+ templateHints template
  +:+ "

請分析並規劃專案結構。回傳 JSON。".

(** The plan of the [catch] branch. *)
Definition fallback_plan (goal : string) : ProjectPlan :=
  {| projectName := "monus_project";
     plan_description := goal;
     files := [mkFileSpec "index.html" "主頁面";
               mkFileSpec "style.css" "樣式";
               mkFileSpec "script.js" "腳本"];
     steps := [mkProjectStep 1 "create_file" "index.html" "建立主頁面";
               mkProjectStep 2 "create_file" "style.css" "建立樣式";
               mkProjectStep 3 "create_file" "script.js" "建立腳本"] |}.

(** [analyzeTask(goal, template = 'html')]. *)
Definition analyzeTask (self : Coder) (goal : string) (template : ProjectTemplate)
  : M World ProjectPlan :=
  let prompt := analyze_prompt goal template in
  JS.try_catch
    (let* parsed := LLM.chatJSON JSON_parse_plan (llm self) [mkMessage user prompt] in
     match parsed with
     | None => JS.throw (JS.mkError "Cannot read properties of null (reading 'projectName')")
     | Some plan =>
         JS.ret {| projectName := JS.or_else (projectName plan) "monus_project";
                   plan_description := plan_description plan;
                   files := files plan;
                   steps := steps plan |}
     end)
    (fun _ => JS.ret (fallback_plan goal)).

(** [existingFiles: Record<string, string>], in the order [Object.keys]
    and [Object.entries] list it: the keys that are array indices first, in
    ascending order, then the other keys in the order they were first
    set. *)
Definition Files := list (string * string).

(** The value of a key that is there is replaced where it stands. *)
Fixpoint replace_file (path content : string) (fs : Files) : Files :=
  match fs with
  | [] => []
  | (k, v) :: rest =>
      if String.eqb k path then (k, content) :: rest
      else (k, v) :: replace_file path content rest
  end.

(** A new key that is the array index [n] goes before the first key that
    is a larger index or no index. *)
Fixpoint insert_index (n : N) (path content : string) (fs : Files) : Files :=
  match fs with
  | [] => [(path, content)]
  | (k, v) :: rest =>
      match JS.array_index k with
      | Some m =>
          if (m <? n)%N then (k, v) :: insert_index n path content rest
          else (path, content) :: (k, v) :: rest
      | None => (path, content) :: (k, v) :: rest
      end
  end.

(** [existingFiles[path] = content]. Assigning a string to [__proto__]
    sets no key. *)
Definition set_file (path content : string) (fs : Files) : Files :=
  if String.eqb path "__proto__" then fs
  else if existsb (String.eqb path) (map fst fs) then replace_file path content fs
  else
    match JS.array_index path with
    | Some n => insert_index n path content fs
    | None => fs ++ [(path, content)]
    end.

Record GenerateOptions := mkGenerateOptions {
  goal : string;
  filePath : string;
  description : string;
  existingFiles : option Files;
  context : option string;
}.

Definition systemPrompt : string :=
  "你是一個專業的程式碼開發者。
根據需求生成完整、可運行的程式碼。

規則：
1. 只輸出程式碼，不要解釋
2. 程式碼要完整可運行
3. 加入適當的註解
4. 使用現代化的最佳實踐
5. 不要使用 markdown code block，直接輸出程式碼內容".

Definition preview_of (content : string) : string :=
  if Nat.ltb 500 (JS.length16 content) then JS.slice0 500 content +:+ "..." else content.

Definition filesContext (options : GenerateOptions) : string :=
  match existingFiles options with
  | Some (entry :: entries) =>
      fold_left
        (fun acc (file : string * string) =>
           acc +:+ newline +:+ "--- " +:+ fst file +:+ " ---" +:+ newline
           +:+ preview_of (snd file) +:+ newline)
        (entry :: entries)
        (newline +:+ newline +:+ "已存在的檔案：" +:+ newline)
  | _ => ""
  end.

Definition userPrompt (options : GenerateOptions) : string :=
  "專案目標："
  +:+ goal options
  +:+ "

現在需要生成："
  +:+ filePath options
  +:+ "
檔案說明："
  +:+ description options
  +:+ "
"
  +:+ filesContext options
  +:+ "
"
  +:+ JS.or_else (JS.nullish (context options) "") ""
  +:+ "

請生成完整的 "
  +:+ filePath options
  +:+ " 檔案內容。直接輸出程式碼，不要 markdown。".

(** The body of the loop inside [generateFile]: the fragment is added to
    [fullResponse], then yielded to the consumer's loop. *)
Definition forward {A} (body : LLM.Consumer A) : LLM.Consumer (string * A) :=
  fun vars chunk =>
    let fullResponse := fst vars +:+ chunk in
    let* acc := body (snd vars) chunk in
    JS.ret (fullResponse, acc).

(** [generateFile(options)], an async generator, given the loop that
    consumes it: each fragment of the model's stream is added to the full
    response and yielded; the exchange enters the history once the stream
    has ended. *)
Definition generateFile {A} (self : Coder) (options : GenerateOptions)
    (body : LLM.Consumer A) (init : A) : M World A :=
  let* history := JS.gets conversationHistory in
  let messages :=
    ([mkMessage system systemPrompt] ++ JS.slice_last 4 history
     ++ [mkMessage user (userPrompt options)])%list in
  let* result := LLM.chatStream (llm self) messages (forward body) ("", init) in
  let fullResponse := fst result in
  JS.modify (fun w => with_history (conversationHistory w
                                    ++ [mkMessage user (userPrompt options);
                                        mkMessage assistant fullResponse])%list w) ;;
  JS.ret (snd result).

(** [clearHistory()]. *)
Definition clearHistory (self : Coder) : M World unit :=
  JS.modify (with_history []).

(** The options of [modifyFile] and of [fixError]. *)
Record ModifyOptions := mkModifyOptions {
  modify_goal : string;
  modify_filePath : string;
  currentContent : string;
  modify_request : string;
}.

Record FixOptions := mkFixOptions {
  fix_filePath : string;
  fix_content : string;
  fix_error : string;
}.

Definition modify_systemPrompt : string :=
  "你是一個專業的程式碼開發者。
根據要求修改程式碼。

規則：
1. 只輸出修改後的完整程式碼
2. 不要解釋
3. 保持原有的風格和結構
4. 不要使用 markdown code block".

Definition modify_userPrompt (options : ModifyOptions) : string :=
  "專案目標："
  +:+ modify_goal options
  +:+ "

檔案："
  +:+ modify_filePath options
  +:+ "

目前內容：
"
  +:+ currentContent options
  +:+ "

修改要求："
  +:+ modify_request options
  +:+ "

請輸出修改後的完整檔案內容。".

(** [modifyFile(options)], an async generator, given the loop that
    consumes it: the fragments of the model's stream are yielded as they
    come. The request holds the two prompts and nothing of the history. *)
Definition modifyFile {A} (self : Coder) (options : ModifyOptions)
    (body : LLM.Consumer A) (init : A) : M World A :=
  let messages :=
    [mkMessage system modify_systemPrompt; mkMessage user (modify_userPrompt options)] in
  LLM.chatStream (llm self) messages body init.

Definition fix_systemPrompt : string :=
  "你是一個專業的程式碼除錯專家。
分析錯誤並修復程式碼。

規則：
1. 分析錯誤原因
2. 輸出修復後的完整程式碼
3. 不要使用 markdown code block".

Definition fix_userPrompt (options : FixOptions) : string :=
  "檔案："
  +:+ fix_filePath options
  +:+ "

目前內容：
"
  +:+ fix_content options
  +:+ "

錯誤訊息：
"
  +:+ fix_error options
  +:+ "

請修復錯誤，輸出完整的修復後程式碼。".

(** [fixError(options)], an async generator. *)
Definition fixError {A} (self : Coder) (options : FixOptions)
    (body : LLM.Consumer A) (init : A) : M World A :=
  let messages :=
    [mkMessage system fix_systemPrompt; mkMessage user (fix_userPrompt options)] in
  LLM.chatStream (llm self) messages body init.

Definition chat_systemPrompt : string :=
  "你是一個友善的程式開發助手。
幫助使用者澄清需求、解答問題。
回答要簡潔明確。".

(** The [context] argument of [chat], when it is given: the properties of
    the object that are set ([project], [goal]), in the order
    [JSON.stringify] lists them. *)
Definition ChatContext := list (string * string).

Definition contextStr (context : option ChatContext) : string :=
  match context with
  | Some members =>
      newline +:+ newline +:+ "專案上下文：" +:+ newline
      +:+ Sandbox.JSON_stringify 0
            (Sandbox.JObj (map (fun member => (fst member, Sandbox.JStr (snd member))) members))
  | None => ""
  end.

(** [chat(message, context?)], an async generator, given the loop that
    consumes it: the request holds the system prompt with the context, the
    last six messages of the history and the message; the exchange enters
    the history once the stream has ended. *)
Definition chat {A} (self : Coder) (message : string) (context : option ChatContext)
    (body : LLM.Consumer A) (init : A) : M World A :=
  let* history := JS.gets conversationHistory in
  let messages :=
    ([mkMessage system (chat_systemPrompt +:+ contextStr context)]
     ++ JS.slice_last 6 history
     ++ [mkMessage user message])%list in
  let* result := LLM.chatStream (llm self) messages (forward body) ("", init) in
  let fullResponse := fst result in
  JS.modify (fun w => with_history (conversationHistory w
                                    ++ [mkMessage user message;
                                        mkMessage assistant fullResponse])%list w) ;;
  JS.ret (snd result).

End Coder.
End Coder.

(** ** The session orchestrator (the websocket endpoint of the server) *)

Module Server.
Section Server.
Context `{Runtime}.

(** Truthiness of a value that may be absent. *)
Definition present (v : option string) : bool :=
  match v with Some s => JS.truthy s | None => false end.

(** [10 + Math.floor(((i + 1) / totalFiles) * 80)]. *)
Definition progress_value (i totalFiles : nat) : float :=
  10 + JS.Math_floor (JS.of_nat (i + 1) / JS.of_nat totalFiles * 80).

(** The body of the loop that consumes a file's generator: the local
    variable is [content]. *)
Definition on_chunk (filePath : string) : LLM.Consumer string :=
  fun content chunk =>
    let content := content +:+ chunk in
    ws_send (Protocol.file_chunk filePath chunk) ;;
    JS.ret content.

(** The [for] loop of [runCodeGeneration], from index [i] on: [rest] is
    [filesToCreate] from that index, and the result is [existingFiles]. *)
Fixpoint writing_loop (coder : Coder.Coder) (sandbox : Sandbox.SandboxTool)
    (goal projectName : string) (totalFiles i : nat) (rest : list FileSpec)
    (existingFiles : Coder.Files) : M World Coder.Files :=
  match rest with
  | [] => JS.ret existingFiles
  | fileInfo :: rest' =>
      let filePath := path fileInfo in
      let fileDesc := description fileInfo in
      if negb (JS.truthy filePath)
      then writing_loop coder sandbox goal projectName totalFiles (S i) rest' existingFiles
      else
        ws_send (Protocol.file_start filePath) ;;
        let progress := progress_value i totalFiles in
        ws_send (Protocol.progress progress) ;;
        ws_send (Protocol.step ("Generating " +:+ filePath) Protocol.step_running) ;;
        let* content :=
          Coder.generateFile coder
            (Coder.mkGenerateOptions goal filePath fileDesc (Some existingFiles) None)
            (on_chunk filePath) "" in
        on_fs (Sandbox.writeProjectFile sandbox projectName filePath content) ;;
        let existingFiles := Coder.set_file filePath content existingFiles in
        ws_send (Protocol.file_complete filePath content) ;;
        ws_send (Protocol.step ("Generated " +:+ filePath) Protocol.step_done) ;;
        writing_loop coder sandbox goal projectName totalFiles (S i) rest' existingFiles
  end.

(** [runCodeGeneration(ws, taskId, goal, template, coder, sandbox)]. *)
Definition runCodeGeneration (taskId goal : string) (template : ProjectTemplate)
    (coder : Coder.Coder) (sandbox : Sandbox.SandboxTool) : M World unit :=
  ws_send (Protocol.phase Protocol.planning) ;;
  ws_send (Protocol.progress 5) ;;
  let* plan := Coder.analyzeTask coder goal template in
  let projectName := projectName plan in
  ws_send (Protocol.progress 10) ;;
  ws_send (Protocol.step ("Creating project: " +:+ projectName) Protocol.step_running) ;;
  let* initResult := on_fs (Sandbox.initProject sandbox projectName template) in
  ws_send (Protocol.project_created projectName (Sandbox.project_files initResult)) ;;
  let filesToCreate := files plan in
  let totalFiles := length filesToCreate in
  ws_send (Protocol.phase Protocol.writing) ;;
  let* existingFiles :=
    writing_loop coder sandbox goal projectName totalFiles 0 filesToCreate [] in
  ws_send (Protocol.progress 100) ;;
  ws_send (Protocol.phase Protocol.complete) ;;
  ws_send (Protocol.done taskId code
             (Protocol.CodeResult true projectName
                ("/sandbox/" +:+ projectName +:+ "/index.html")
                (map fst existingFiles))).

(** [runResearch(ws, taskId, goal, planner)]. *)
Definition runResearch (taskId goal : string) (planner : Planner.Planner) : M World unit :=
  ws_send (Protocol.phase Protocol.planning) ;;
  ws_send (Protocol.progress 10) ;;
  let* plan := Planner.createPlan planner goal in
  ws_send (Protocol.step ("Created " +:+ JS.show_nat (length plan) +:+ " steps")
             Protocol.step_done) ;;
  ws_send (Protocol.phase Protocol.writing) ;;
  ws_send (Protocol.progress 50) ;;
  let* report := Planner.generateReport planner goal [] [] (Some "overview") in
  ws_send (Protocol.progress 100) ;;
  ws_send (Protocol.phase Protocol.complete) ;;
  ws_send (Protocol.done taskId research (Protocol.ResearchResult true taskId report)).

Definition agent_options (model : option string) (apiKey : string) : LLMOptions :=
  mkLLMOptions (if present model then default "" model else "deepseek-chat")
    apiKey (Some "https://api.deepseek.com/v1") None None.

(** [onMessage(event, ws)] of the endpoint [/ws/:taskId]; [data] is the
    text of the message and [sandbox] the SandboxTool of the server. *)
Definition onMessage (sandbox : Sandbox.SandboxTool) (taskId data : string) : M World unit :=
  JS.try_catch
    (let* parsed := (fun w => (JSON_parse_start data, w)) in
     match parsed with
     | None =>
         JS.throw (JS.mkError "Cannot destructure property 'goal' of 'data' as it is null.")
     | Some message =>
         let goal := sm_goal message in
         let model := sm_model message in
         if negb (present goal) then
           ws_send (Protocol.error "Goal is required")
         else
           let goal := default "" goal in
           let* apiKey := JS.gets DEEPSEEK_API_KEY in
           if negb (present apiKey) then
             ws_send (Protocol.error "DEEPSEEK_API_KEY not configured")
           else
             let apiKey := default "" apiKey in
             let planner := Planner.new_Planner (agent_options model apiKey) in
             let* coder := Coder.new_Coder (agent_options model apiKey) in
             let* classification := Planner.classifyTask planner goal in
             ws_send (Protocol.classification (type classification) (template classification)
                        (confidence classification) (reason classification)) ;;
             match type classification with
             | code =>
                 runCodeGeneration taskId goal (default html (template classification))
                   coder sandbox
             | research => runResearch taskId goal planner
             end
     end)
    (fun error => ws_send (Protocol.error (JS.message error))).

End Server.
End Server.

(** ** A concrete runtime, for running the model *)

Module Demo.

(** Lower-casing of the letters A to Z; every other byte stays. *)
Definition lower_ascii (c : ascii) : ascii :=
  let n := nat_of_ascii c in
  if Nat.leb 65 n && Nat.leb n 90 then ascii_of_nat (n + 32) else c.

Fixpoint lower (s : string) : string :=
  match s with
  | EmptyString => EmptyString
  | String c rest => String (lower_ascii c) (lower rest)
  end.

(** A model whose every answer is the same text, streamed in two fragments
    with an empty delta between them; no answer parses as JSON. *)
Definition not_json : Error := JS.mkError "Unexpected token h in JSON at position 0".

#[local] Instance scripted : Runtime := {|
  toLowerCase := lower;
  trim := fun s => s;
  JSON_parse_plan := fun _ => Throw not_json;
  JSON_parse_classification := fun _ => Throw not_json;
  JSON_parse_steps := fun _ => Throw not_json;
  JSON_parse_start := fun text =>
    Normal (Some (mkStartMessage (if JS.truthy text then Some text else None) None None None));
  completions_create := fun _ _ => Normal (Some "hello");
  completions_stream := fun _ _ => ([Some "ab"; Some ""; None; Some "cd"], None);
  nanoid := fun n => "id" +:+ JS.show_nat n;
  exec := fun command _ _ fs =>
    if String.eqb command "true" then (ExecResolved "" "", fs)
    else if String.eqb command "sleep 100" then
      (ExecRejected (mkExecError "Command failed: sleep 100" (Some "") (Some "")
                       None true (Some "SIGTERM")), fs)
    else (ExecRejected (mkExecError ("Command failed: " +:+ command) (Some "") (Some "")
                          (Some (CodeNum 2)) false None), fs);
|}.

(** The same model behind a parser that reads every answer as a plan of
    five files. *)
Definition five_file_plan : ProjectPlan :=
  mkProjectPlan "snake" "a snake game"
    [mkFileSpec "index.html" "page"; mkFileSpec "style.css" "style";
     mkFileSpec "game.js" "game"; mkFileSpec "snake.js" "snake";
     mkFileSpec "README.md" "notes"]
    [].

#[local] Instance five_files : Runtime := {|
  toLowerCase := lower;
  trim := fun s => s;
  JSON_parse_plan := fun _ => Normal (Some five_file_plan);
  JSON_parse_classification := fun _ => Throw not_json;
  JSON_parse_steps := fun _ => Throw not_json;
  JSON_parse_start := fun text =>
    Normal (Some (mkStartMessage (if JS.truthy text then Some text else None) None None None));
  completions_create := fun _ _ => Normal (Some "hello");
  completions_stream := fun _ _ => ([Some "ab"; Some ""; None; Some "cd"], None);
  nanoid := fun n => "id" +:+ JS.show_nat n;
  exec := fun _ _ _ fs => (ExecResolved "" "", fs);
|}.

(** And one whose plan has an entry with an empty path in the middle. *)
Definition gap_plan : ProjectPlan :=
  mkProjectPlan "gap" "a plan with a gap"
    [mkFileSpec "a.txt" "first"; mkFileSpec "" "nameless"; mkFileSpec "c.txt" "third"]
    [].

#[local] Instance with_gap : Runtime := {|
  toLowerCase := lower;
  trim := fun s => s;
  JSON_parse_plan := fun _ => Normal (Some gap_plan);
  JSON_parse_classification := fun _ => Throw not_json;
  JSON_parse_steps := fun _ => Throw not_json;
  JSON_parse_start := fun text =>
    Normal (Some (mkStartMessage (if JS.truthy text then Some text else None) None None None));
  completions_create := fun _ _ => Normal (Some "hello");
  completions_stream := fun _ _ => ([Some "ab"; Some "cd"], None);
  nanoid := fun n => "id" +:+ JS.show_nat n;
  exec := fun _ _ _ fs => (ExecResolved "" "", fs);
|}.

(** And one whose stream breaks while the second file is generated (the
    request of the plan is call 0, the first file call 1). *)
#[local] Instance breaking : Runtime := {|
  toLowerCase := lower;
  trim := fun s => s;
  JSON_parse_plan := fun _ => Throw not_json;
  JSON_parse_classification := fun _ => Throw not_json;
  JSON_parse_steps := fun _ => Throw not_json;
  JSON_parse_start := fun text =>
    Normal (Some (mkStartMessage (if JS.truthy text then Some text else None) None None None));
  completions_create := fun _ _ => Normal (Some "hello");
  completions_stream := fun n _ =>
    if Nat.eqb n 2 then ([Some "ab"], Some (JS.mkError "socket hang up"))
    else ([Some "ab"; Some "cd"], None);
  nanoid := fun n => "id" +:+ JS.show_nat n;
  exec := fun _ _ _ fs => (ExecResolved "" "", fs);
|}.

(** And one whose model wraps its answers in code fences: the first in a
    [json] fence with a sentence before and after it, the others in a plain
    fence. *)
Definition json_fenced_answer : string :=
  "Here is the plan:" +:+ LLM.fence +:+ "json" +:+ "{ }" +:+ LLM.fence +:+ " Anything else?".

Definition plain_fenced_answer : string :=
  "Here is the plan:" +:+ LLM.fence +:+ "[ ]" +:+ LLM.fence +:+ " Anything else?".

#[local] Instance fenced : Runtime := {|
  toLowerCase := lower;
  trim := fun s => s;
  JSON_parse_plan := fun _ => Throw not_json;
  JSON_parse_classification := fun _ => Throw not_json;
  JSON_parse_steps := fun text => if String.eqb text "[ ]" then Normal (Some []) else Throw not_json;
  JSON_parse_start := fun text =>
    Normal (Some (mkStartMessage (if JS.truthy text then Some text else None) None None None));
  completions_create := fun n _ =>
    Normal (Some (if Nat.eqb n 0 then json_fenced_answer else plain_fenced_answer));
  completions_stream := fun _ _ => ([Some "ab"; Some "cd"], None);
  nanoid := fun n => "id" +:+ JS.show_nat n;
  exec := fun _ _ _ fs => (ExecResolved "" "", fs);
|}.

Definition coder : Coder.Coder :=
  Coder.mkCoder (LLM.new_LLMClient (Server.agent_options None "k")).

(** An empty disk whose [readdir] lists entries in the order they were
    made. *)
Definition empty_disk : FS.t := FS.mk (FS.Dir []) [] (fun _ _ => 0).

Definition fresh_world (key : option string) : World :=
  mkWorld empty_disk [] 0 0 [] key.

Definition sandbox : Sandbox.SandboxTool := Sandbox.mkSandboxTool "/ws".

End Demo.

(** ** Where a write lands *)

Module Workspace.

(** A segment that names an entry: not empty, not [.] and not [..]. *)
Definition is_plain (seg : string) : bool :=
  negb (String.eqb seg "" || String.eqb seg "." || String.eqb seg "..").

(** Reading the segments of a relative path from [depth] levels below a
    directory: [true] when no [..] leads above that directory. *)
Fixpoint stays_inside (depth : nat) (segs : list string) : bool :=
  match segs with
  | [] => true
  | seg :: rest =>
      if String.eqb seg "" || String.eqb seg "." then stays_inside depth rest
      else if String.eqb seg ".." then
        match depth with
        | O => false
        | S d => stays_inside d rest
        end
      else stays_inside (S depth) rest
  end.

(** A file path none of whose [..] segments leads above the directory it
    starts from. *)
Definition no_climb (filePath : string) : bool :=
  stays_inside 0 (Path.split_slash filePath).

(** A text without a separator. *)
Fixpoint no_slash (s : string) : bool :=
  match s with
  | EmptyString => true
  | String c rest => negb (Ascii.eqb c "/"%char) && no_slash rest
  end.

(** A segment of a normal path other than [..]: plain, without separator. *)
Definition is_name (seg : string) : bool := is_plain seg && no_slash seg.

(** The paths [normalize] returns: [..] segments only at the front of a
    relative path, then names. *)
Definition normal (p : Path.t) : Prop :=
  exists ups names,
    Path.segments p = ups ++ names
    /\ Forall (fun seg => seg = "..") ups
    /\ (Path.absolute p = true -> ups = [])
    /\ Forall (fun seg => is_name seg = true) names.

(** The segments that arguments of [join] add below a directory, when
    they are all plain and the last one does not end with a separator. *)
Definition relative_segments (args : list string) : option (list string) :=
  match filter (fun a => JS.truthy a = true) args with
  | [] => None
  | parts =>
      let s := JS.join_with "/" parts in
      if forallb is_plain (Path.split_slash s) && negb (Path.ends_with_slash s)
      then Some (Path.split_slash s)
      else None
  end.

(** The project directory [proj], reached by the path [projectPath], holds
    the node [sub]. *)
Definition holds (proj : list string) (projectPath : Path.t) (sub : FS.node) (fs : FS.t)
  : Prop :=
  FS.resolve fs projectPath = proj /\ FS.get proj (FS.root fs) = Some sub.

(** The directory of a project, as segments from the root. *)
Definition project_dir (self : Sandbox.SandboxTool) (projectName : string) (fs : FS.t)
  : list string :=
  FS.resolve fs (Path.join [Sandbox.workspaceDir self; projectName]).

(** Where [writeProjectFile] writes. *)
Definition target (self : Sandbox.SandboxTool) (projectName filePath : string) (fs : FS.t)
  : list string :=
  FS.resolve fs (Path.join [Sandbox.workspaceDir self; projectName; filePath]).

(** [writeProjectFile] with this file path leaves every regular file
    outside the project directory as it was, and creates none there. *)
Definition confined (self : Sandbox.SandboxTool) (projectName filePath : string) : Prop :=
  forall (content : string) (fs : FS.t) (q : list string),
    ~ project_dir self projectName fs `prefix_of` q ->
    FS.read q (FS.root (snd (Sandbox.writeProjectFile self projectName filePath content fs)))
    = FS.read q (FS.root fs).

(** A file path made of names: no empty segment, no [.] and no [..]. *)
Definition plain_path (filePath : string) : bool :=
  forallb is_name (Path.split_slash filePath).

(** An entry that a listing shows: its name does not start with a dot and
    is not [node_modules]. *)
Definition is_visible (entry : string) : bool :=
  negb (JS.startsWith "." entry || String.eqb entry "node_modules").

(** A tree as a file system holds it: in every directory the entries have
    proper names, and no two entries have the same name. *)
Fixpoint well_named (n : FS.node) : bool :=
  match n with
  | FS.File _ => true
  | FS.Dir es =>
      (fix each (es : FS.entries_t) : bool :=
         match es with
         | [] => true
         | (entry, child) :: rest =>
             is_name entry && negb (existsb (String.eqb entry) (map fst rest))
             && well_named child && each rest
         end) es
  end.

(** What the [init] function of a template makes in the project directory,
    in the order of its calls: a directory, or a regular file with the
    content written. Paths are relative to the project directory. *)
Definition template_entries (template : ProjectTemplate) (projectPath : Path.t)
  : list (list string * option string) :=
  match template with
  | html =>
      [(["index.html"], Some Sandbox.html_indexHtml);
       (["style.css"], Some Sandbox.html_styleCss);
       (["script.js"], Some Sandbox.html_scriptJs)]
  | vite_react =>
      [(["src"], None);
       (["public"], None);
       (["package.json"],
        Some (Sandbox.JSON_stringify 0 (Sandbox.react_packageJson projectPath)));
       (["vite.config.js"], Some Sandbox.react_viteConfig);
       (["index.html"], Some Sandbox.react_indexHtml);
       (["src"; "main.jsx"], Some Sandbox.react_mainJsx);
       (["src"; "App.jsx"], Some Sandbox.react_appJsx);
       (["src"; "index.css"], Some Sandbox.react_indexCss)]
  | vite_vue =>
      [(["src"], None);
       (["package.json"],
        Some (Sandbox.JSON_stringify 0 (Sandbox.vue_packageJson projectPath)));
       (["vite.config.js"], Some Sandbox.vue_viteConfig);
       (["index.html"], Some Sandbox.vue_indexHtml);
       (["src"; "main.js"], Some Sandbox.vue_mainJs);
       (["src"; "App.vue"], Some Sandbox.vue_appVue);
       (["src"; "style.css"], Some Sandbox.vue_styleCss)]
  | node =>
      [(["src"], None);
       (["package.json"],
        Some (Sandbox.JSON_stringify 0 (Sandbox.node_packageJson projectPath)));
       (["src"; "index.js"], Some Sandbox.node_indexJs)]
  | python =>
      [(["main.py"], Some Sandbox.python_mainPy);
       (["requirements.txt"], Some "")]
  end.

(** The entry of a listing for such a file or directory. *)
Definition listed (entry : list string * option string) : FileInfo :=
  match snd entry with
  | Some content =>
      mkFileInfo (JS.join_with "/" (fst entry)) file_t (Some (String.length content))
  | None => mkFileInfo (JS.join_with "/" (fst entry)) directory_t None
  end.

(** The regular files of a tree, each with the path that leads to it. *)
Fixpoint files_of (n : FS.node) : list (list string * string) :=
  match n with
  | FS.File content => [([], content)]
  | FS.Dir es =>
      (fix each (es : FS.entries_t) : list (list string * string) :=
         match es with
         | [] => []
         | (entry, child) :: rest =>
             map (fun found => (entry :: fst found, snd found)) (files_of child) ++ each rest
         end) es
  end.

(** The listing of a directory node with the entries of every directory in
    the order they were made. *)
Fixpoint listing_as_made (subPath : string) (n : FS.node) : list FileInfo :=
  match n with
  | FS.File _ => []
  | FS.Dir es =>
      (fix each (es : FS.entries_t) : list FileInfo :=
         match es with
         | [] => []
         | (entry, child) :: rest =>
             if JS.startsWith "." entry || String.eqb entry "node_modules"
             then each rest
             else
               let relativePath :=
                 if JS.truthy subPath then subPath +:+ "/" +:+ entry else entry in
               match child with
               | FS.Dir _ =>
                   mkFileInfo relativePath directory_t None
                   :: listing_as_made relativePath child ++ each rest
               | FS.File content =>
                   mkFileInfo relativePath file_t (Some (String.length content))
                   :: each rest
               end
         end) es
  end.

End Workspace.

(** ** Reading an event stream *)

Module Stream.

Definition is_classification (e : Protocol.Event) : bool :=
  match e with Protocol.classification _ _ _ _ => true | _ => false end.

(** The fragments a stream of deltas yields: the non-empty contents. *)
Fixpoint yielded (deltas : list (option string)) : list string :=
  match deltas with
  | [] => []
  | Some content :: rest =>
      if JS.truthy content then content :: yielded rest else yielded rest
  | None :: rest => yielded rest
  end.

(** The events of one file up to the end of its generation, and the whole
    block of a file that was written. *)
Definition file_opening (total i : nat) (filePath : string) (chunks : list string)
  : list Protocol.Event :=
  [Protocol.file_start filePath;
   Protocol.progress (Server.progress_value i total);
   Protocol.step ("Generating " +:+ filePath) Protocol.step_running]
  ++ map (Protocol.file_chunk filePath) chunks.

Definition file_block (total i : nat) (filePath : string) (chunks : list string)
  : list Protocol.Event :=
  file_opening total i filePath chunks
  ++ [Protocol.file_complete filePath (String.concat "" chunks);
      Protocol.step ("Generated " +:+ filePath) Protocol.step_done].

(** The shape of what the writing loop sends from index [i] on: nothing
    for an entry with an empty path, a whole block for each file written,
    and, when the loop is left by an error, the opening of the file it was
    generating. The flag tells whether the loop ran to its end. *)
Inductive loop_trace (total : nat) : nat -> list FileSpec -> list Protocol.Event -> bool -> Prop :=
| trace_end i : loop_trace total i [] [] true
| trace_skip i f rest events finished :
    JS.truthy (path f) = false ->
    loop_trace total (S i) rest events finished ->
    loop_trace total i (f :: rest) events finished
| trace_file i f rest chunks events finished :
    JS.truthy (path f) = true ->
    loop_trace total (S i) rest events finished ->
    loop_trace total i (f :: rest) (file_block total i (path f) chunks ++ events) finished
| trace_abort i f rest chunks :
    JS.truthy (path f) = true ->
    loop_trace total i (f :: rest) (file_opening total i (path f) chunks) false.

(** The events of [runCodeGeneration] around the loop. *)
Definition planning_events (projectName : string) : list Protocol.Event :=
  [Protocol.phase Protocol.planning;
   Protocol.progress 5;
   Protocol.progress 10;
   Protocol.step ("Creating project: " +:+ projectName) Protocol.step_running].

Definition writing_events (projectName : string) (listing : list FileInfo)
  : list Protocol.Event :=
  [Protocol.project_created projectName listing;
   Protocol.phase Protocol.writing].

Definition closing_events (taskId projectName : string) (names : list string)
  : list Protocol.Event :=
  [Protocol.progress 100;
   Protocol.phase Protocol.complete;
   Protocol.done taskId code
     (Protocol.CodeResult true projectName
        ("/sandbox/" +:+ projectName +:+ "/index.html") names)].

(** The shape of what [runCodeGeneration] sends for the plan [plan]: the
    planning events; then, unless the project could not be initialized,
    [project_created], the writing phase and the events of the loop; then,
    when the loop ran to its end, the three closing events. *)
Inductive code_trace (taskId : string) (plan : ProjectPlan)
  : list Protocol.Event -> bool -> Prop :=
| code_not_initialized :
    code_trace taskId plan (planning_events (projectName plan)) false
| code_aborted listing body :
    loop_trace (length (files plan)) 0 (files plan) body false ->
    code_trace taskId plan
      (planning_events (projectName plan)
       ++ writing_events (projectName plan) listing ++ body) false
| code_finished listing body names :
    loop_trace (length (files plan)) 0 (files plan) body true ->
    code_trace taskId plan
      (planning_events (projectName plan)
       ++ writing_events (projectName plan) listing ++ body
       ++ closing_events taskId (projectName plan) names) true.

(** The protocol of the file events, as an automaton whose state is the
    file that is open, if one is: [file_start] opens a file when none is
    open, [file_chunk] needs its file to be open, [file_complete] closes
    the file that is open. The result is the state after the events, or
    [None] when an event is out of order. *)
Definition order_step (open : option string) (e : Protocol.Event) : option (option string) :=
  match e, open with
  | Protocol.file_start f, None => Some (Some f)
  | Protocol.file_start _, Some _ => None
  | Protocol.file_chunk f _, Some g => if String.eqb f g then Some open else None
  | Protocol.file_chunk _ _, None => None
  | Protocol.file_complete f _, Some g => if String.eqb f g then Some None else None
  | Protocol.file_complete _ _, None => None
  | _, _ => Some open
  end.

Fixpoint order_run (open : option string) (events : list Protocol.Event)
  : option (option string) :=
  match events with
  | [] => Some open
  | e :: rest =>
      match order_step open e with
      | Some open' => order_run open' rest
      | None => None
      end
  end.

Definition well_ordered (events : list Protocol.Event) : bool :=
  match order_run None events with Some _ => true | None => false end.

(** The events that are not about a file. *)
Definition is_file_event (e : Protocol.Event) : bool :=
  match e with
  | Protocol.file_start _ | Protocol.file_chunk _ _ | Protocol.file_complete _ _ => true
  | _ => false
  end.

(** A computation that sends nothing. *)
Definition silent {A} (m : M World A) : Prop :=
  forall w, sent (snd (m w)) = sent w.

Definition quiet (events : list Protocol.Event) : bool :=
  forallb (fun e => negb (is_file_event e)) events.

(** 1 when the open file is [f], else 0. *)
Definition open_count (f : string) (open : option string) : nat :=
  match open with
  | Some g => if String.eqb f g then 1 else 0
  | None => 0
  end.

(** The number of events of a kind about a file. *)
Definition is_start_of (f : string) (e : Protocol.Event) : bool :=
  match e with Protocol.file_start g => String.eqb f g | _ => false end.

Definition count_start (f : string) (events : list Protocol.Event) : nat :=
  length (List.filter (is_start_of f) events).

Definition is_complete_of (f : string) (e : Protocol.Event) : bool :=
  match e with Protocol.file_complete g _ => String.eqb f g | _ => false end.

Definition count_complete (f : string) (events : list Protocol.Event) : nat :=
  length (List.filter (is_complete_of f) events).

(** The values of the progress events, in order. *)
Fixpoint progress_values (events : list Protocol.Event) : list float :=
  match events with
  | [] => []
  | Protocol.progress v :: rest => v :: progress_values rest
  | _ :: rest => progress_values rest
  end.

(** The last progress value sent by the time the [n]-th [file_complete]
    (counting from 1) has gone out; [None] when there are fewer completions
    or no progress event before it. [current] is the last value seen. *)
Fixpoint progress_at_completion (n : nat) (current : option float)
    (events : list Protocol.Event) : option float :=
  match events with
  | [] => None
  | Protocol.progress v :: rest => progress_at_completion n (Some v) rest
  | Protocol.file_complete _ _ :: rest =>
      match n with
      | 0 => None
      | 1 => current
      | S k => progress_at_completion k current rest
      end
  | _ :: rest => progress_at_completion n current rest
  end.

(** The exact value of the progress formula, in integers. *)
Definition exact_progress (i totalFiles : nat) : Z :=
  (10 + (Z.of_nat (i + 1) * 80) / Z.of_nat totalFiles)%Z.

(** The float formula and the exact one agree for every index of every
    plan of at most [bound] files. *)
Definition progress_agrees_upto (bound : nat) : bool :=
  forallb (fun total =>
             forallb (fun i => PrimFloat.eqb (Server.progress_value i total)
                                 (JS.of_Z (exact_progress i total)))
               (seq 0 total))
    (seq 1 bound).

(** The entries of a plan that are written, with their positions. *)
Fixpoint written_from (i : nat) (files : list FileSpec) : list (nat * FileSpec) :=
  match files with
  | [] => []
  | f :: rest =>
      if JS.truthy (path f) then (i, f) :: written_from (S i) rest
      else written_from (S i) rest
  end.

(** Reading the file events with the text received since the last
    [file_start]: [true] when every [file_complete] carries exactly the
    fragments that came with the [file_chunk] events of its file. *)
Fixpoint contents_match (received : string) (events : list Protocol.Event) : bool :=
  match events with
  | [] => true
  | Protocol.file_start _ :: rest => contents_match "" rest
  | Protocol.file_chunk _ chunk :: rest => contents_match (received +:+ chunk) rest
  | Protocol.file_complete _ content :: rest =>
      String.eqb content received && contents_match received rest
  | _ :: rest => contents_match received rest
  end.

(** The files started and the files completed, in the order of their
    events. *)
Fixpoint started (events : list Protocol.Event) : list string :=
  match events with
  | [] => []
  | Protocol.file_start f :: rest => f :: started rest
  | _ :: rest => started rest
  end.

Fixpoint completed (events : list Protocol.Event) : list (string * string) :=
  match events with
  | [] => []
  | Protocol.file_complete f content :: rest => (f, content) :: completed rest
  | _ :: rest => completed rest
  end.

(** The events that end a session. *)
Definition is_terminal (e : Protocol.Event) : bool :=
  match e with
  | Protocol.done _ _ _ | Protocol.error _ => true
  | _ => false
  end.

(** The events sent while a session works: neither the classification
    nor an event that ends the session. *)
Definition is_work (e : Protocol.Event) : bool :=
  negb (is_terminal e) && negb (is_classification e).

(** The events of [runResearch]: those up to the request of the report,
    and those that follow its answer. *)
Definition research_opening (steps : nat) : list Protocol.Event :=
  [Protocol.phase Protocol.planning;
   Protocol.progress 10;
   Protocol.step ("Created " +:+ JS.show_nat steps +:+ " steps") Protocol.step_done;
   Protocol.phase Protocol.writing;
   Protocol.progress 50].

Definition research_closing (taskId report : string) : list Protocol.Event :=
  [Protocol.progress 100;
   Protocol.phase Protocol.complete;
   Protocol.done taskId research (Protocol.ResearchResult true taskId report)].

End Stream.

(** * Properties *)

(** ** The classifier *)

Section ClassifierProperties.
Context `{Runtime}.

Lemma score_le_length (keywords : list string) (goalLower : string) :
  Planner.score keywords goalLower <= length keywords.
Proof. unfold Planner.score. apply length_filter. Qed.

(** [Math.min(1.0, n / 3)] is [n / 3] below three matches and [1] from three
    on, for every count a keyword list of at most 21 entries can give. *)
Lemma confidence_of_score (n : nat) :
  n <= 21 ->
  JS.Math_min 1 (JS.of_nat n / 3) = if Nat.leb 3 n then 1%float else (JS.of_nat n / 3)%float.
Proof.
  intros Hn.
  do 22 (destruct n as [|n]; [vm_compute; reflexivity|]).
  lia.
Qed.

Lemma codeKeywords_length : length Planner.codeKeywords = 21.
Proof. reflexivity. Qed.

Lemma researchKeywords_length : length Planner.researchKeywords = 20.
Proof. reflexivity. Qed.

(** C3. A goal with at least one implementation keyword and no information
    keyword is classified as [code], with the template the secondary
    keywords select and confidence [min(1, codeScore / 3)], where [codeScore]
    counts the implementation keywords that occur in the lower-cased goal;
    the model is not asked. *)
Theorem classify_code_only_goal (self : Planner.Planner) (goal : string) (w : World) :
  let goalLower := toLowerCase goal in
  let codeScore := Planner.score Planner.codeKeywords goalLower in
  1 <= codeScore ->
  Planner.score Planner.researchKeywords goalLower = 0 ->
  exists c,
    Planner.classifyTask self goal w = (Normal c, w)
    /\ type c = code
    /\ template c = Some (Planner.select_template goalLower)
    /\ confidence c = JS.Math_min 1 (JS.of_nat codeScore / 3)
    /\ confidence c = (if Nat.leb 3 codeScore then 1 else JS.of_nat codeScore / 3)%float.
Proof.
  intros goalLower codeScore Hcode Hres.
  unfold Planner.classifyTask.
  fold goalLower. fold codeScore. rewrite Hres.
  destruct codeScore as [|k] eqn:E; [lia|].
  cbn [Nat.eqb andb Nat.ltb Nat.leb].
  eexists. split; [reflexivity|].
  cbn [type template confidence].
  repeat split.
  apply confidence_of_score.
  rewrite <- E. unfold codeScore.
  pose proof (score_le_length Planner.codeKeywords goalLower) as L.
  rewrite codeKeywords_length in L. exact L.
Qed.

(** C9. When the two scores are equal and not zero the goal is classified
    as [research], with confidence [min(1, researchScore / 3)] and no
    template, and the model is not asked; in general the model is asked
    exactly when both scores are zero. *)
Theorem classify_tie_is_research (self : Planner.Planner) (goal : string) (w : World) :
  let goalLower := toLowerCase goal in
  let codeScore := Planner.score Planner.codeKeywords goalLower in
  let researchScore := Planner.score Planner.researchKeywords goalLower in
  codeScore = researchScore ->
  researchScore <> 0 ->
  (exists c,
     Planner.classifyTask self goal w = (Normal c, w)
     /\ type c = research
     /\ template c = None
     /\ confidence c = JS.Math_min 1 (JS.of_nat researchScore / 3)
     /\ confidence c = (if Nat.leb 3 researchScore then 1 else JS.of_nat researchScore / 3)%float)
  /\ (forall goal' w',
        llm_calls (snd (Planner.classifyTask self goal' w')) =
        if Nat.eqb (Planner.score Planner.codeKeywords (toLowerCase goal')) 0
           && Nat.eqb (Planner.score Planner.researchKeywords (toLowerCase goal')) 0
        then S (llm_calls w') else llm_calls w').
Proof.
  intros goalLower codeScore researchScore Htie Hnz.
  split.
  - unfold Planner.classifyTask.
    fold goalLower. fold codeScore. fold researchScore. rewrite Htie.
    destruct researchScore as [|k] eqn:E; [congruence|].
    rewrite Nat.ltb_irrefl. cbn [Nat.eqb andb].
    eexists. split; [reflexivity|].
    cbn [type template confidence].
    repeat split.
    apply confidence_of_score.
    rewrite <- E. unfold researchScore.
    pose proof (score_le_length Planner.researchKeywords goalLower) as L.
    rewrite researchKeywords_length in L. lia.
  - intros goal' w'. unfold Planner.classifyTask.
    destruct (Nat.eqb _ 0 && Nat.eqb _ 0).
    + unfold Planner.llmClassifyTask, JS.try_catch, JS.bind, LLM.chatJSON, LLM.chat, JS.bind.
      destruct (completions_create _ _) as [content|e]; cbn.
      * destruct (JSON_parse_classification _) as [[r|]|e]; reflexivity.
      * reflexivity.
    + destruct (Nat.ltb _ _); reflexivity.
Qed.

End ClassifierProperties.

(** C3 at the goal [make a snake game]: two implementation keywords. *)
Lemma classify_code_only_goal_witness :
  exists c,
    Planner.classifyTask (H:=Demo.scripted) (Planner.new_Planner (Server.agent_options None "k"))
      "make a snake game" (Demo.fresh_world (Some "k"))
    = (Normal c, Demo.fresh_world (Some "k"))
    /\ type c = code
    /\ template c = Some html
    /\ confidence c = JS.Math_min 1 (JS.of_nat 2 / 3)
    /\ confidence c = (JS.of_nat 2 / 3)%float.
Proof.
  apply (classify_code_only_goal (H:=Demo.scripted)
           (Planner.new_Planner (Server.agent_options None "k"))
           "make a snake game" (Demo.fresh_world (Some "k"))).
  - vm_compute. lia.
  - vm_compute. reflexivity.
Defined.

(** C9 at the goal [research game]: one keyword of each kind. *)
Lemma classify_tie_is_research_witness :
  (exists c,
     Planner.classifyTask (H:=Demo.scripted) (Planner.new_Planner (Server.agent_options None "k"))
       "research game" (Demo.fresh_world (Some "k"))
     = (Normal c, Demo.fresh_world (Some "k"))
     /\ type c = research
     /\ template c = None
     /\ confidence c = JS.Math_min 1 (JS.of_nat 1 / 3)
     /\ confidence c = (JS.of_nat 1 / 3)%float)
  /\ (forall goal' w',
        llm_calls (snd (Planner.classifyTask (H:=Demo.scripted)
                          (Planner.new_Planner (Server.agent_options None "k")) goal' w')) =
        if Nat.eqb (Planner.score (H:=Demo.scripted) Planner.codeKeywords (Demo.lower goal')) 0
           && Nat.eqb (Planner.score (H:=Demo.scripted) Planner.researchKeywords (Demo.lower goal')) 0
        then S (llm_calls w') else llm_calls w').
Proof.
  apply (classify_tie_is_research (H:=Demo.scripted)
           (Planner.new_Planner (Server.agent_options None "k"))
           "research game" (Demo.fresh_world (Some "k"))).
  - vm_compute. reflexivity.
  - vm_compute. lia.
Defined.

(** ** The project planner *)

Section PlannerProperties.
Context `{Runtime}.

(** C4. Whenever the JSON call of the planner fails (it throws, because
    the request fails or because the text returned, fences stripped, is not
    valid JSON, or it yields [null], whose fields cannot be read)
    [analyzeTask] returns normally, with the fixed plan of three files
    [index.html], [style.css], [script.js] under the name [monus_project],
    whatever the template; the request itself has been made. *)
Theorem analyzeTask_fallback (self : Coder.Coder) (goal : string)
    (template : ProjectTemplate) (w : World) :
  let answer :=
    fst (LLM.chatJSON JSON_parse_plan (Coder.llm self)
           [mkMessage user (Coder.analyze_prompt goal template)] w) in
  (exists e, answer = Throw e) \/ answer = Normal None ->
  exists plan,
    Coder.analyzeTask self goal template w
      = (Normal plan, with_llm_calls (S (llm_calls w)) w)
    /\ plan = Coder.fallback_plan goal
    /\ projectName plan = "monus_project"
    /\ map path (files plan) = ["index.html"; "style.css"; "script.js"].
Proof.
  intros answer Hfail.
  exists (Coder.fallback_plan goal).
  split; [|repeat split].
  unfold Coder.analyzeTask, JS.try_catch, JS.bind.
  subst answer. revert Hfail.
  unfold LLM.chatJSON, LLM.chat, JS.bind.
  destruct (completions_create _ _) as [content|e]; cbn.
  - destruct (JSON_parse_plan _) as [[plan|]|e]; cbn; intros Hfail.
    + exfalso. destruct Hfail as [[e E]|E]; discriminate E.
    + reflexivity.
    + reflexivity.
  - reflexivity.
Qed.

(** What the fallback depends on: a response whose JSON text does not parse
    makes [chatJSON] throw. *)
Lemma chatJSON_invalid_json_throws (self : LLM.LLMClient) (messages : list Message)
    (w : World) (response : option string) (e : Error) :
  completions_create (llm_calls w) (LLM.request self messages false) = Normal response ->
  JSON_parse_plan (LLM.extract_json (JS.nullish response "")) = Throw e ->
  fst (LLM.chatJSON JSON_parse_plan self messages w) = Throw e.
Proof.
  intros Hc Hp. unfold LLM.chatJSON, LLM.chat, JS.bind. rewrite Hc. cbn. rewrite Hp. reflexivity.
Qed.

End PlannerProperties.

(** C4 with a model whose answer is not JSON, for the React template. *)
Lemma analyzeTask_fallback_witness :
  exists plan,
    Coder.analyzeTask (H:=Demo.scripted) (Coder.mkCoder (LLM.new_LLMClient (Server.agent_options None "k")))
      "make a snake game" vite_react (Demo.fresh_world (Some "k"))
      = (Normal plan, with_llm_calls 1 (Demo.fresh_world (Some "k")))
    /\ plan = Coder.fallback_plan "make a snake game"
    /\ projectName plan = "monus_project"
    /\ map path (files plan) = ["index.html"; "style.css"; "script.js"].
Proof.
  apply (analyzeTask_fallback (H:=Demo.scripted)
           (Coder.mkCoder (LLM.new_LLMClient (Server.agent_options None "k")))
           "make a snake game" vite_react (Demo.fresh_world (Some "k"))).
  left. exists Demo.not_json. vm_compute. reflexivity.
Defined.

(** ** Commands in the workspace *)

Section CommandProperties.
Context `{Runtime}.

(** C6. [runCommand] always returns a result record and never throws. When
    the project directory exists the command is handed to [exec] with the
    project directory and the timeout; if [exec] rejects, the result has
    [success = false]: with code 1 when the error carries no code (a child
    ended by the signal sent at the timeout), and with the exit status when
    the child exited with a status other than zero. The result of a
    command that succeeds has code 0. *)
Theorem runCommand_structured_result (self : Sandbox.SandboxTool)
    (projectName command : string) (timeout : float) (fs : FS.t) :
  let projectPath := Path.join [Sandbox.workspaceDir self; projectName] in
  exists r fs',
    Sandbox.runCommand self projectName command timeout fs = (Normal r, fs')
    /\ (fst (FS.exists_ projectPath fs) = Normal false ->
        r = Sandbox.mkCommandResult false "" "Project not found" (CodeNum 1) /\ fs' = fs)
    /\ (fst (FS.exists_ projectPath fs) = Normal true ->
        fs' = snd (exec command (Path.to_string projectPath) timeout fs)
        /\ match fst (exec command (Path.to_string projectPath) timeout fs) with
           | ExecResolved out err => r = Sandbox.mkCommandResult true out err (CodeNum 0)
           | ExecRejected e =>
               Sandbox.success r = false
               /\ (err_code e = None -> Sandbox.code r = CodeNum 1)
               /\ (forall n, err_code e = Some (CodeNum n) -> n <> 0%Z ->
                   Sandbox.code r = CodeNum n /\ Sandbox.code r <> CodeNum 0)
           end).
Proof.
  intros projectPath.
  unfold Sandbox.runCommand, JS.bind. fold projectPath.
  unfold FS.exists_, JS.gets. cbn [fst].
  destruct (bool_decide _) eqn:E; cbn [negb].
  - destruct (exec command (Path.to_string projectPath) timeout fs) as [[out err|e] fs'] eqn:X;
      cbn [fst snd].
    + eexists _, _. split; [reflexivity|]. split; [discriminate|]. intros _. split; reflexivity.
    + eexists _, _. split; [reflexivity|]. split; [discriminate|]. intros _.
      split; [reflexivity|]. cbn [Sandbox.success Sandbox.code].
      split; [reflexivity|]. split.
      * intros ->. reflexivity.
      * intros n -> Hn. cbn. split; [reflexivity|]. congruence.
  - eexists _, _. split; [reflexivity|]. split.
    + intros _. split; reflexivity.
    + discriminate.
Qed.

End CommandProperties.

(** A command that runs past the timeout, on the scripted runtime: [exec]
    rejects with no code after the kill, and the result is a failure with
    code 1. *)
Example runCommand_timeout_example :
  let fs := snd (Sandbox.initProject Demo.sandbox "proj" html Demo.empty_disk) in
  fst (Sandbox.runCommand (H:=Demo.scripted) Demo.sandbox "proj" "sleep 100" 50 fs)
  = Normal (Sandbox.mkCommandResult false "" "" (CodeNum 1)).
Proof. vm_compute. reflexivity. Qed.

(** A command that exits with status 2. *)
Example runCommand_nonzero_example :
  let fs := snd (Sandbox.initProject Demo.sandbox "proj" html Demo.empty_disk) in
  fst (Sandbox.runCommand (H:=Demo.scripted) Demo.sandbox "proj" "false" 50 fs)
  = Normal (Sandbox.mkCommandResult false "" "" (CodeNum 2)).
Proof. vm_compute. reflexivity. Qed.

(** ** Validation of the start message *)

Section ValidationProperties.
Context `{Runtime}.

(** C8. For a start message that parses to an object: when the goal is
    missing or empty the only effect is the event
    [error "Goal is required"]; when the goal is there and the key of the
    model API is not set, the only effect is the event
    [error "DEEPSEEK_API_KEY not configured"]. In both cases the handler
    returns, no classification event is sent and the model is not asked. *)
Theorem onMessage_validation (sandbox : Sandbox.SandboxTool) (taskId data : string)
    (message : StartMessage) (w : World) :
  JSON_parse_start data = Normal (Some message) ->
  Server.present (sm_goal message) && Server.present (DEEPSEEK_API_KEY w) = false ->
  let expected :=
    if Server.present (sm_goal message)
    then Protocol.error "DEEPSEEK_API_KEY not configured"
    else Protocol.error "Goal is required" in
  Server.onMessage sandbox taskId data w = (Normal tt, with_sent (sent w ++ [expected]) w)
  /\ (forall e, In e (drop (length (sent w)) (sent (snd (Server.onMessage sandbox taskId data w)))) ->
      Stream.is_classification e = false)
  /\ llm_calls (snd (Server.onMessage sandbox taskId data w)) = llm_calls w.
Proof.
  intros Hparse Hmissing expected.
  assert (E : Server.onMessage sandbox taskId data w
              = (Normal tt, with_sent (sent w ++ [expected]) w)).
  { unfold Server.onMessage, JS.try_catch, JS.bind. rewrite Hparse.
    subst expected.
    destruct (Server.present (sm_goal message)); cbn [negb andb] in *.
    - unfold JS.gets. rewrite Hmissing. reflexivity.
    - reflexivity. }
  rewrite E. cbn [snd sent with_sent llm_calls].
  split; [reflexivity|]. split; [|reflexivity].
  rewrite drop_app_length. intros e [<-|[]].
  subst expected. destruct (Server.present (sm_goal message)); reflexivity.
Qed.

End ValidationProperties.

(** C8 with an empty goal, then with a goal and no key. *)
Lemma onMessage_validation_witness :
  (Server.onMessage (H:=Demo.scripted) Demo.sandbox "t1" "" (Demo.fresh_world (Some "k"))
   = (Normal tt, with_sent [Protocol.error "Goal is required"] (Demo.fresh_world (Some "k")))
   /\ (forall e, In e (drop 0 (sent (snd (Server.onMessage (H:=Demo.scripted) Demo.sandbox "t1" ""
                                            (Demo.fresh_world (Some "k")))))) ->
       Stream.is_classification e = false)
   /\ llm_calls (snd (Server.onMessage (H:=Demo.scripted) Demo.sandbox "t1" ""
                        (Demo.fresh_world (Some "k")))) = 0)
  /\
  (Server.onMessage (H:=Demo.scripted) Demo.sandbox "t1" "make a game" (Demo.fresh_world None)
   = (Normal tt, with_sent [Protocol.error "DEEPSEEK_API_KEY not configured"] (Demo.fresh_world None))
   /\ (forall e, In e (drop 0 (sent (snd (Server.onMessage (H:=Demo.scripted) Demo.sandbox "t1"
                                            "make a game" (Demo.fresh_world None))))) ->
       Stream.is_classification e = false)
   /\ llm_calls (snd (Server.onMessage (H:=Demo.scripted) Demo.sandbox "t1" "make a game"
                        (Demo.fresh_world None))) = 0).
Proof.
  split.
  - apply (onMessage_validation (H:=Demo.scripted) Demo.sandbox "t1" ""
             (mkStartMessage None None None None) (Demo.fresh_world (Some "k")));
      reflexivity.
  - apply (onMessage_validation (H:=Demo.scripted) Demo.sandbox "t1" "make a game"
             (mkStartMessage (Some "make a game") None None None) (Demo.fresh_world None));
      reflexivity.
Defined.

(** ** The writing loop *)

Section LoopProperties.
Context `{Runtime}.

Lemma append_cons (c : ascii) (s t : string) : String c s +:+ t = String c (s +:+ t).
Proof. reflexivity. Qed.

Lemma append_empty_r (s : string) : s +:+ "" = s.
Proof. induction s as [|c s IH]; [reflexivity|]. rewrite append_cons, IH. reflexivity. Qed.

Lemma append_assoc' (a b c : string) : (a +:+ b) +:+ c = a +:+ (b +:+ c).
Proof.
  induction a as [|x a IH]; [reflexivity|]. rewrite !append_cons, IH. reflexivity.
Qed.

Lemma concat_empty_cons (y : string) (ys : list string) :
  String.concat "" (y :: ys) = y +:+ String.concat "" ys.
Proof.
  destruct ys as [|z ys]; cbn.
  - symmetry. apply append_empty_r.
  - reflexivity.
Qed.

Lemma with_sent_same (w : World) : with_sent (sent w) w = w.
Proof. destruct w. reflexivity. Qed.

Lemma with_sent_twice (a b : list Protocol.Event) (w : World) :
  with_sent b (with_sent a w) = with_sent b w.
Proof. reflexivity. Qed.

(** The loop over the deltas of one file's stream, with the body that
    [runCodeGeneration] gives it: every fragment yielded goes out as a
    [file_chunk], both accumulators grow by it, and nothing throws. *)
Lemma each_delta_on_chunk (p : string) (deltas : list (option string)) :
  forall (full content : string) (w : World),
    LLM.each_delta (Coder.forward (Server.on_chunk p)) deltas (full, content) w
    = (Normal (full +:+ String.concat "" (Stream.yielded deltas),
               content +:+ String.concat "" (Stream.yielded deltas)),
       with_sent (sent w ++ map (Protocol.file_chunk p) (Stream.yielded deltas)) w).
Proof.
  induction deltas as [|d deltas IH]; intros full content w.
  - cbn. rewrite !append_empty_r, app_nil_r, with_sent_same. reflexivity.
  - destruct d as [c|]; cbn [LLM.each_delta].
    + destruct (JS.truthy c) eqn:T.
      * unfold JS.bind at 1.
        unfold Coder.forward, Server.on_chunk, JS.bind, ws_send, JS.modify, JS.ret. cbn [fst snd].
        rewrite IH. cbn [sent with_sent].
        cbn [Stream.yielded]. rewrite T. cbn [map].
        rewrite concat_empty_cons, !append_assoc', <- app_assoc. reflexivity.
      * rewrite IH. cbn [Stream.yielded]. rewrite T. reflexivity.
    + rewrite IH. reflexivity.
Qed.

(** One call of [generateFile] under the loop's body: the fragments yielded
    go out as [file_chunk] events and nothing else is sent; the files are
    untouched; a normal return gives the concatenation of the fragments. *)
Lemma generateFile_on_chunk (coder : Coder.Coder) (options : Coder.GenerateOptions)
    (p : string) (w w' : World) (r : Completion string) :
  Coder.generateFile coder options (Server.on_chunk p) "" w = (r, w') ->
  exists chunks,
    sent w' = sent w ++ map (Protocol.file_chunk p) chunks
    /\ fs w' = fs w
    /\ (forall content, r = Normal content -> content = String.concat "" chunks).
Proof.
  unfold Coder.generateFile, JS.bind, JS.gets, LLM.chatStream.
  destruct (completions_stream _ _) as [deltas ending].
  unfold JS.bind. rewrite each_delta_on_chunk.
  intros E. exists (Stream.yielded deltas).
  destruct ending as [e|]; cbn in E; injection E as <- <-; cbn.
  - split; [reflexivity|]. split; [reflexivity|]. discriminate.
  - split; [reflexivity|]. split; [reflexivity|]. intros content [= <-]. reflexivity.
Qed.

Lemma bind_ws_send {A} (e : Protocol.Event) (k : unit -> M World A) (w : World) :
  JS.bind (ws_send e) k w = k tt (with_sent (sent w ++ [e]) w).
Proof. reflexivity. Qed.

Lemma bind_run {S A B} (m : M S A) (k : A -> M S B) (s : S) :
  JS.bind m k s = match m s with
                  | (Normal a, s') => k a s'
                  | (Throw e, s') => (Throw e, s')
                  end.
Proof. reflexivity. Qed.

Lemma on_fs_sent {A} (m : M FS.t A) (w : World) : sent (snd (on_fs m w)) = sent w.
Proof. unfold on_fs. destruct (m (fs w)) as [r f]. reflexivity. Qed.

(** What the writing loop sends, whatever the model and the disk do. *)
Lemma writing_loop_trace (coder : Coder.Coder) (sandbox : Sandbox.SandboxTool)
    (goal projectName : string) (total : nat) (rest : list FileSpec) :
  forall (i : nat) (existingFiles : Coder.Files) (w w' : World) (r : Completion Coder.Files),
    Server.writing_loop coder sandbox goal projectName total i rest existingFiles w = (r, w') ->
    exists events,
      sent w' = sent w ++ events
      /\ Stream.loop_trace total i rest events (JS.is_normal r).
Proof.
  induction rest as [|f rest IH]; intros i existingFiles w w' r E.
  - cbn in E. injection E as <- <-. exists []. rewrite app_nil_r.
    split; [reflexivity|constructor].
  - cbn [Server.writing_loop] in E.
    destruct (JS.truthy (path f)) eqn:T; cbn [negb] in E.
    + rewrite !bind_ws_send in E. rewrite bind_run in E.
      destruct (Coder.generateFile _ _ _ _ _) as [rg wg] eqn:G.
      apply generateFile_on_chunk in G as (chunks & Gsent & _ & Gcontent).
      cbn [sent with_sent] in Gsent.
      destruct rg as [content|e].
      * rewrite bind_run in E.
        pose proof (on_fs_sent (Sandbox.writeProjectFile sandbox projectName (path f) content) wg)
          as Wsent.
        destruct (on_fs _ wg) as [rw ww]. cbn [snd] in Wsent.
        destruct rw as [[]|e].
        -- rewrite !bind_ws_send in E.
           apply IH in E as (events & Esent & Etrace).
           cbn [sent with_sent] in Esent.
           exists (Stream.file_block total i (path f) chunks ++ events).
           split.
           ++ rewrite Esent, Wsent, Gsent. rewrite (Gcontent content eq_refl).
              unfold Stream.file_block, Stream.file_opening.
              rewrite <- !app_assoc. reflexivity.
           ++ apply Stream.trace_file; assumption.
        -- injection E as <- <-.
           exists (Stream.file_opening total i (path f) chunks).
           split.
           ++ rewrite Wsent, Gsent. unfold Stream.file_opening.
              rewrite <- !app_assoc. reflexivity.
           ++ apply Stream.trace_abort; assumption.
      * injection E as <- <-.
        exists (Stream.file_opening total i (path f) chunks).
        split.
        -- rewrite Gsent. unfold Stream.file_opening. rewrite <- !app_assoc. reflexivity.
        -- apply Stream.trace_abort; assumption.
    + apply IH in E as (events & Esent & Etrace).
      exists events. split; [assumption|]. apply Stream.trace_skip; assumption.
Qed.

End LoopProperties.

(** ** Computations that send nothing *)

Section Silence.
Context `{Runtime}.

Lemma silent_ret {A} (a : A) : Stream.silent (JS.ret a).
Proof. intros w. reflexivity. Qed.

Lemma silent_throw {A} (e : Error) : Stream.silent (JS.throw (A:=A) e).
Proof. intros w. reflexivity. Qed.

Lemma silent_gets {A} (f : World -> A) : Stream.silent (JS.gets f).
Proof. intros w. reflexivity. Qed.

Lemma silent_bind {A B} (m : M World A) (k : A -> M World B) :
  Stream.silent m -> (forall a, Stream.silent (k a)) -> Stream.silent (JS.bind m k).
Proof.
  intros Hm Hk w. unfold JS.bind. specialize (Hm w).
  destruct (m w) as [[a|e] w1]; cbn [snd] in *.
  - rewrite Hk. exact Hm.
  - exact Hm.
Qed.

Lemma silent_try_catch {A} (m : M World A) (h : Error -> M World A) :
  Stream.silent m -> (forall e, Stream.silent (h e)) -> Stream.silent (JS.try_catch m h).
Proof.
  intros Hm Hh w. unfold JS.try_catch. specialize (Hm w).
  destruct (m w) as [[a|e] w1]; cbn [snd] in *.
  - exact Hm.
  - rewrite Hh. exact Hm.
Qed.

Lemma silent_on_fs {A} (m : M FS.t A) : Stream.silent (on_fs m).
Proof. intros w. apply on_fs_sent. Qed.

Lemma silent_chat (self : LLM.LLMClient) (messages : list Message) :
  Stream.silent (LLM.chat self messages).
Proof. intros w. unfold LLM.chat. destruct (completions_create _ _); reflexivity. Qed.

Lemma silent_chatJSON {T} (parse : string -> Completion T) (self : LLM.LLMClient)
    (messages : list Message) :
  Stream.silent (LLM.chatJSON parse self messages).
Proof.
  apply silent_bind; [apply silent_chat|]. intros response w. reflexivity.
Qed.

Lemma silent_fresh_id : Stream.silent Planner.fresh_id.
Proof. intros w. reflexivity. Qed.

Lemma silent_set_history (f : World -> list Message) :
  Stream.silent (JS.modify (fun w => with_history (f w) w)).
Proof. intros w. reflexivity. Qed.

Lemma silent_map_steps (steps : list StepJSON) : Stream.silent (Planner.map_steps steps).
Proof.
  induction steps as [|st steps IH]; cbn [Planner.map_steps].
  - apply silent_ret.
  - apply silent_bind; [apply silent_fresh_id|]. intros i.
    apply silent_bind; [exact IH|]. intros others. apply silent_ret.
Qed.

Ltac silence :=
  repeat first
    [ apply silent_ret | apply silent_throw | apply silent_gets
    | apply silent_chat | apply silent_chatJSON | apply silent_fresh_id
    | apply silent_map_steps | apply silent_on_fs | apply silent_set_history
    | apply silent_bind | apply silent_try_catch
    | match goal with
      | |- forall _, Stream.silent _ => intro
      | |- Stream.silent (match ?x with _ => _ end) => destruct x
      | |- Stream.silent (if ?x then _ else _) => destruct x
      end ].

Lemma silent_analyzeTask (self : Coder.Coder) (goal : string) (template : ProjectTemplate) :
  Stream.silent (Coder.analyzeTask self goal template).
Proof. unfold Coder.analyzeTask. silence. Qed.

Lemma silent_new_Coder (options : LLMOptions) : Stream.silent (Coder.new_Coder options).
Proof. unfold Coder.new_Coder. intros w. reflexivity. Qed.

Lemma silent_llmClassifyTask (self : Planner.Planner) (goal : string) :
  Stream.silent (Planner.llmClassifyTask self goal).
Proof. unfold Planner.llmClassifyTask. silence. Qed.

Lemma silent_classifyTask (self : Planner.Planner) (goal : string) :
  Stream.silent (Planner.classifyTask self goal).
Proof.
  unfold Planner.classifyTask.
  destruct (Nat.eqb _ 0 && Nat.eqb _ 0); [apply silent_llmClassifyTask|].
  destruct (Nat.ltb _ _); apply silent_ret.
Qed.

Lemma silent_createPlan (self : Planner.Planner) (goal : string) :
  Stream.silent (Planner.createPlan self goal).
Proof. unfold Planner.createPlan. silence. Qed.

Lemma silent_analyzeContentType (self : Planner.Planner) (goal : string)
    (contents : list string) :
  Stream.silent (Planner.analyzeContentType self goal contents).
Proof. unfold Planner.analyzeContentType. silence. Qed.

Lemma silent_generateReport (self : Planner.Planner) (goal : string)
    (sources : list (string * string)) (contents : list string) (contentType : option string) :
  Stream.silent (Planner.generateReport self goal sources contents contentType).
Proof.
  unfold Planner.generateReport.
  apply silent_bind; [|intros; apply silent_chat].
  destruct contentType as [t|]; [destruct (JS.truthy t)|];
    first [apply silent_ret | apply silent_analyzeContentType].
Qed.

End Silence.

(** ** Reading the stream of a session *)

Section OrderProperties.

Lemma order_run_app (open : option string) (a b : list Protocol.Event) :
  Stream.order_run open (a ++ b)
  = match Stream.order_run open a with
    | Some open' => Stream.order_run open' b
    | None => None
    end.
Proof.
  revert open. induction a as [|e a IH]; intros open; cbn; [reflexivity|].
  destruct (Stream.order_step open e); [apply IH|reflexivity].
Qed.

Lemma order_run_quiet (open : option string) (events : list Protocol.Event) :
  Stream.quiet events = true -> Stream.order_run open events = Some open.
Proof.
  induction events as [|e events IH]; cbn; [reflexivity|].
  intros [Q1 Q2]%andb_true_iff.
  destruct e; cbn in Q1; try discriminate; destruct open; cbn; apply IH, Q2.
Qed.

Lemma order_run_chunks (p : string) (chunks : list string) :
  Stream.order_run (Some p) (map (Protocol.file_chunk p) chunks) = Some (Some p).
Proof.
  induction chunks as [|c chunks IH]; cbn; [reflexivity|].
  rewrite String.eqb_refl. exact IH.
Qed.

Lemma order_run_opening (total i : nat) (p : string) (chunks : list string) :
  Stream.order_run None (Stream.file_opening total i p chunks) = Some (Some p).
Proof. unfold Stream.file_opening. cbn. apply order_run_chunks. Qed.

Lemma order_run_block (total i : nat) (p : string) (chunks : list string) :
  Stream.order_run None (Stream.file_block total i p chunks) = Some None.
Proof.
  unfold Stream.file_block. rewrite order_run_app, order_run_opening. cbn.
  rewrite String.eqb_refl. reflexivity.
Qed.

(** The events of the writing loop follow the protocol, and leave no file
    open when the loop runs to its end. *)
Lemma loop_trace_ordered (total i : nat) (rest : list FileSpec)
    (events : list Protocol.Event) (finished : bool) :
  Stream.loop_trace total i rest events finished ->
  exists open,
    Stream.order_run None events = Some open /\ (finished = true -> open = None).
Proof.
  induction 1 as [i|i f rest events finished T _ IH|i f rest chunks events finished T _ IH
                 |i f rest chunks T].
  - exists None. split; reflexivity.
  - exact IH.
  - destruct IH as (open & Hrun & Hfin). exists open.
    rewrite order_run_app, order_run_block. split; assumption.
  - exists (Some (path f)). split; [apply order_run_opening|discriminate].
Qed.

(** Under the protocol a file is never completed more often than it was
    started, at any point of the stream. *)
Lemma order_run_counts (f : string) (events : list Protocol.Event) :
  forall open open',
    Stream.order_run open events = Some open' ->
    Stream.count_start f events + Stream.open_count f open
    = Stream.count_complete f events + Stream.open_count f open'.
Proof.
  unfold Stream.count_start, Stream.count_complete.
  induction events as [|e events IH]; intros open open' E; cbn in E.
  - injection E as <-. reflexivity.
  - destruct (Stream.order_step open e) as [mid|] eqn:S; [|discriminate].
    specialize (IH mid open' E).
    cbn [List.filter].
    destruct e as [m|tt tm cf rs|ph|v|tx st|pn fl|g|g c|g c|tid md res]; cbn in S;
      try (injection S as <-; cbn; exact IH).
    + destruct open; [discriminate|]. injection S as <-.
      cbn [Stream.is_start_of Stream.is_complete_of Stream.open_count] in *.
      destruct (String.eqb f g); cbn [length]; lia.
    + destruct open as [g'|]; [|discriminate].
      destruct (String.eqb g g'); [|discriminate]. injection S as <-.
      cbn [Stream.is_start_of Stream.is_complete_of]. exact IH.
    + destruct open as [g'|]; [|discriminate].
      destruct (String.eqb g g') eqn:Efg; [|discriminate]. injection S as <-.
      apply String.eqb_eq in Efg as <-.
      cbn [Stream.is_start_of Stream.is_complete_of Stream.open_count] in *.
      destruct (String.eqb f g); cbn [length]; lia.
Qed.

Lemma well_ordered_prefix (a b : list Protocol.Event) :
  Stream.well_ordered (a ++ b) = true -> Stream.well_ordered a = true.
Proof.
  unfold Stream.well_ordered. rewrite order_run_app.
  destruct (Stream.order_run None a); [reflexivity|discriminate].
Qed.

Lemma well_ordered_counts (f : string) (events : list Protocol.Event) :
  Stream.well_ordered events = true ->
  Stream.count_complete f events <= Stream.count_start f events.
Proof.
  unfold Stream.well_ordered.
  destruct (Stream.order_run None events) as [open|] eqn:E; [|discriminate].
  intros _. pose proof (order_run_counts f events None open E) as C.
  cbn [Stream.open_count] in C. lia.
Qed.

End OrderProperties.

(** ** The code session *)

Section SessionProperties.
Context `{Runtime}.

(** [analyzeTask] always returns a plan. *)
Lemma analyzeTask_returns (self : Coder.Coder) (goal : string) (template : ProjectTemplate)
    (w : World) :
  exists plan, fst (Coder.analyzeTask self goal template w) = Normal plan.
Proof.
  unfold Coder.analyzeTask, JS.try_catch, JS.bind, LLM.chatJSON, LLM.chat, JS.bind.
  destruct (completions_create _ _) as [content|e]; cbn.
  - destruct (JSON_parse_plan _) as [[plan|]|e]; cbn; eexists; reflexivity.
  - eexists; reflexivity.
Qed.

Lemma silent_run {A} (m : M World A) (w w' : World) (r : Completion A) :
  Stream.silent m -> m w = (r, w') -> sent w' = sent w.
Proof. intros S E. specialize (S w). rewrite E in S. exact S. Qed.

(** What [runCodeGeneration] sends, for the plan that [analyzeTask] gave. *)
Lemma runCodeGeneration_trace (taskId goal : string) (template : ProjectTemplate)
    (coder : Coder.Coder) (sandbox : Sandbox.SandboxTool) (w w' : World) (r : Completion unit) :
  Server.runCodeGeneration taskId goal template coder sandbox w = (r, w') ->
  exists plan events,
    fst (Coder.analyzeTask coder goal template
           (with_sent ((sent w ++ [Protocol.phase Protocol.planning]) ++ [Protocol.progress 5]) w))
      = Normal plan
    /\ sent w' = sent w ++ events
    /\ Stream.code_trace taskId plan events (JS.is_normal r).
Proof.
  unfold Server.runCodeGeneration. intros E.
  rewrite !bind_ws_send in E. cbn [sent with_sent] in E. rewrite with_sent_twice in E.
  rewrite bind_run in E.
  destruct (analyzeTask_returns coder goal template
              (with_sent ((sent w ++ [Protocol.phase Protocol.planning])
                          ++ [Protocol.progress 5]) w)) as [plan P].
  destruct (Coder.analyzeTask _ _ _ _) as [rp w1] eqn:A. cbn [fst] in P. subst rp.
  apply (silent_run _ _ _ _ (silent_analyzeTask coder goal template)) in A.
  cbn [sent with_sent] in A.
  exists plan.
  rewrite !bind_ws_send in E. cbn [sent with_sent] in E. rewrite with_sent_twice in E.
  rewrite bind_run in E.
  destruct (on_fs _ _) as [ri w2] eqn:I.
  apply (silent_run _ _ _ _ (silent_on_fs _)) in I. cbn [sent with_sent] in I.
  destruct ri as [info|e].
  - rewrite !bind_ws_send in E. cbn [sent with_sent] in E. rewrite with_sent_twice in E.
    rewrite bind_run in E.
    destruct (Server.writing_loop _ _ _ _ _ _ _ _ _) as [rl w3] eqn:L.
    apply writing_loop_trace in L as (body & Lsent & Ltrace).
    cbn [sent with_sent] in Lsent.
    destruct rl as [existingFiles|e]; cbn [JS.is_normal] in Ltrace.
    + rewrite !bind_ws_send in E. cbn [sent with_sent] in E.
      unfold ws_send, JS.modify in E. injection E as <- <-. cbn [sent with_sent JS.is_normal].
      eexists. split; [reflexivity|]. split.
      2: { apply (Stream.code_finished taskId plan (Sandbox.project_files info) body
                    (map fst existingFiles)). exact Ltrace. }
      rewrite Lsent, I, A.
      unfold Stream.planning_events, Stream.writing_events, Stream.closing_events.
      rewrite <- !app_assoc. reflexivity.
    + injection E as <- <-. cbn [JS.is_normal].
      eexists. split; [reflexivity|]. split.
      2: { apply (Stream.code_aborted taskId plan (Sandbox.project_files info) body).
           exact Ltrace. }
      rewrite Lsent, I, A.
      unfold Stream.planning_events, Stream.writing_events.
      rewrite <- !app_assoc. reflexivity.
  - injection E as <- <-. cbn [JS.is_normal].
    eexists. split; [reflexivity|]. split; [|apply Stream.code_not_initialized].
    rewrite I, A. unfold Stream.planning_events. rewrite <- !app_assoc. reflexivity.
Qed.

End SessionProperties.

(** ** Order of the events of a session *)

Section OrderOfSession.
Context `{Runtime}.

Lemma code_trace_ordered (taskId : string) (plan : ProjectPlan)
    (events : list Protocol.Event) (finished : bool) :
  Stream.code_trace taskId plan events finished ->
  exists open, Stream.order_run None events = Some open.
Proof.
  destruct 1 as [|listing body L|listing body names L].
  - eexists. apply order_run_quiet. reflexivity.
  - apply loop_trace_ordered in L as (open & L & _).
    exists open.
    rewrite order_run_app, (order_run_quiet None (Stream.planning_events _)) by reflexivity.
    rewrite order_run_app, (order_run_quiet None (Stream.writing_events _ _)) by reflexivity.
    exact L.
  - apply loop_trace_ordered in L as (open & L & F). rewrite (F eq_refl) in L.
    exists None.
    rewrite order_run_app, (order_run_quiet None (Stream.planning_events _)) by reflexivity.
    rewrite order_run_app, (order_run_quiet None (Stream.writing_events _ _)) by reflexivity.
    rewrite order_run_app, L. reflexivity.
Qed.

(** The report path sends no file event. *)
Lemma runResearch_quiet (taskId goal : string) (planner : Planner.Planner)
    (w w' : World) (r : Completion unit) :
  Server.runResearch taskId goal planner w = (r, w') ->
  exists events, sent w' = sent w ++ events /\ Stream.quiet events = true.
Proof.
  unfold Server.runResearch. intros E.
  rewrite !bind_ws_send in E. cbn [sent with_sent] in E. rewrite with_sent_twice in E.
  rewrite bind_run in E.
  destruct (Planner.createPlan _ _ _) as [rp w1] eqn:P.
  apply (silent_run _ _ _ _ (silent_createPlan planner goal)) in P. cbn [sent with_sent] in P.
  destruct rp as [plan|e].
  - rewrite !bind_ws_send in E. cbn [sent with_sent] in E. rewrite !with_sent_twice in E.
    rewrite bind_run in E.
    destruct (Planner.generateReport _ _ _ _ _ _) as [rr w2] eqn:R.
    apply (silent_run _ _ _ _ (silent_generateReport planner goal [] [] (Some "overview"))) in R.
    cbn [sent with_sent] in R.
    destruct rr as [report|e].
    + rewrite !bind_ws_send in E. cbn [sent with_sent] in E.
      unfold ws_send, JS.modify in E. injection E as <- <-. cbn [sent with_sent].
      eexists. split.
      * rewrite R, P. rewrite <- !app_assoc. reflexivity.
      * reflexivity.
    + injection E as <- <-. eexists. split.
      * rewrite R, P. rewrite <- !app_assoc. reflexivity.
      * reflexivity.
  - injection E as <- <-. eexists. split.
    + rewrite P. rewrite <- !app_assoc. reflexivity.
    + reflexivity.
Qed.

(** Every session sends its events in the order of the protocol. *)
Lemma onMessage_ordered (sandbox : Sandbox.SandboxTool) (taskId data : string)
    (w w' : World) (r : Completion unit) :
  Server.onMessage sandbox taskId data w = (r, w') ->
  exists events open,
    sent w' = sent w ++ events /\ Stream.order_run None events = Some open.
Proof.
  unfold Server.onMessage, JS.try_catch.
  match goal with |- context [JS.bind ?m ?k w] => set (body := JS.bind m k) end.
  assert (B : forall rb wb, body w = (rb, wb) ->
              exists events open,
                sent wb = sent w ++ events /\ Stream.order_run None events = Some open).
  { subst body. intros rb wb E. rewrite bind_run in E.
    destruct (JSON_parse_start data) as [[message|]|e].
    - destruct (Server.present (sm_goal message)); cbn [negb] in E.
      + rewrite bind_run in E. unfold JS.gets at 1 in E.
        destruct (Server.present (DEEPSEEK_API_KEY w)); cbn [negb] in E.
        * rewrite bind_run in E.
          destruct (Coder.new_Coder _ _) as [rc w1] eqn:C.
          pose proof (silent_run _ _ _ _ (silent_new_Coder _) C) as Cs.
          unfold Coder.new_Coder, JS.bind, JS.modify, JS.ret in C. injection C as <- <-.
          rewrite bind_run in E.
          destruct (Planner.classifyTask _ _ _) as [rk w2] eqn:K.
          apply (silent_run _ _ _ _ (silent_classifyTask _ _)) in K.
          destruct rk as [classification|e].
          -- rewrite bind_ws_send in E.
             destruct (type classification).
             ++ apply runResearch_quiet in E as (events & Es & Q).
                cbn [sent with_sent] in Es.
                exists (Protocol.classification research (template classification)
                          (confidence classification) (reason classification) :: events), None.
                split.
                ** rewrite Es, K. cbn [sent with_history]. rewrite <- app_assoc. reflexivity.
                ** cbn. apply order_run_quiet, Q.
             ++ apply runCodeGeneration_trace in E as (plan & events & _ & Es & T).
                cbn [sent with_sent] in Es.
                apply code_trace_ordered in T as (open & T).
                exists (Protocol.classification code (template classification)
                          (confidence classification) (reason classification) :: events), open.
                split.
                ** rewrite Es, K. cbn [sent with_history]. rewrite <- app_assoc. reflexivity.
                ** cbn. exact T.
          -- injection E as <- <-. exists [], None. rewrite app_nil_r. split; [|reflexivity].
             rewrite K. reflexivity.
        * unfold ws_send, JS.modify in E. injection E as <- <-.
          eexists _, None. split; reflexivity.
      + unfold ws_send, JS.modify in E. injection E as <- <-.
        eexists _, None. split; reflexivity.
    - injection E as <- <-. exists [], None. rewrite app_nil_r. split; reflexivity.
    - injection E as <- <-. exists [], None. rewrite app_nil_r. split; reflexivity. }
  intros E. destruct (body w) as [[[]|e] wb] eqn:Eb.
  - injection E as <- <-. eapply B. reflexivity.
  - destruct (B _ _ eq_refl) as (events & open & Es & O).
    unfold ws_send, JS.modify in E. injection E as <- <-. cbn [sent with_sent].
    exists (events ++ [Protocol.error (JS.message e)]), open. split.
    + rewrite Es, <- app_assoc. reflexivity.
    + rewrite order_run_app, O. destruct open; reflexivity.
Qed.

(** C5. In every session the file events follow the protocol: a file is
    opened by its [file_start] when no other file is open, its [file_chunk]
    events come while it is open, and its [file_complete] closes it before
    the next [file_start]. So at no point of the stream has a file been
    completed more often than it was started. This holds whatever the model
    answers and whatever fails on the way. *)
Theorem session_events_ordered (sandbox : Sandbox.SandboxTool) (taskId data : string)
    (w : World) :
  let events :=
    drop (length (sent w)) (sent (snd (Server.onMessage sandbox taskId data w))) in
  sent (snd (Server.onMessage sandbox taskId data w)) = sent w ++ events
  /\ Stream.well_ordered events = true
  /\ (forall f before after,
        events = before ++ after ->
        Stream.count_complete f before <= Stream.count_start f before).
Proof.
  intros events.
  destruct (Server.onMessage sandbox taskId data w) as [r w'] eqn:E.
  apply onMessage_ordered in E as (sent_now & open & Es & O).
  cbn [snd] in events.
  assert (Ev : events = sent_now).
  { subst events. rewrite Es. apply drop_app_length. }
  rewrite Ev. cbn [snd].
  split; [exact Es|].
  assert (W : Stream.well_ordered sent_now = true).
  { unfold Stream.well_ordered. rewrite O. reflexivity. }
  split; [exact W|].
  intros f before after ->.
  apply well_ordered_counts. apply (well_ordered_prefix before after). exact W.
Qed.

End OrderOfSession.

(** A session whose stream breaks in the second file: the events end with
    the fragment received and the error, and follow the protocol. *)
Example broken_stream_session :
  let events :=
    sent (snd (Server.onMessage (H:=Demo.breaking) Demo.sandbox "t1" "make a snake game"
                 (Demo.fresh_world (Some "k")))) in
  List.filter (fun e => Stream.is_file_event e
                        || match e with Protocol.error _ => true | _ => false end) events
  = [Protocol.file_start "index.html";
     Protocol.file_chunk "index.html" "ab"; Protocol.file_chunk "index.html" "cd";
     Protocol.file_complete "index.html" "abcd";
     Protocol.file_start "style.css";
     Protocol.file_chunk "style.css" "ab";
     Protocol.error "socket hang up"]
  /\ Stream.well_ordered events = true
  /\ Stream.order_run None events = Some (Some "style.css").
Proof. vm_compute. repeat split; reflexivity. Qed.

(** ** Progress during the writing phase *)

Section ProgressProperties.
Context `{Runtime}.

Lemma progress_values_app (a b : list Protocol.Event) :
  Stream.progress_values (a ++ b) = Stream.progress_values a ++ Stream.progress_values b.
Proof.
  induction a as [|e a IH]; [reflexivity|].
  destruct e; cbn; rewrite IH; reflexivity.
Qed.

Lemma progress_values_chunks (p : string) (chunks : list string) :
  Stream.progress_values (map (Protocol.file_chunk p) chunks) = [].
Proof. induction chunks as [|c chunks IH]; [reflexivity|exact IH]. Qed.

Lemma progress_values_block (total i : nat) (p : string) (chunks : list string) :
  Stream.progress_values (Stream.file_block total i p chunks) = [Server.progress_value i total].
Proof.
  unfold Stream.file_block, Stream.file_opening.
  rewrite !progress_values_app, progress_values_chunks. reflexivity.
Qed.

(** A loop that ran to its end sent one progress value for each entry
    written, computed from the entry's position in the plan. *)
Lemma loop_trace_progress (total i : nat) (rest : list FileSpec)
    (events : list Protocol.Event) (finished : bool) :
  Stream.loop_trace total i rest events finished ->
  finished = true ->
  Stream.progress_values events
  = map (fun jf => Server.progress_value (fst jf) total) (Stream.written_from i rest).
Proof.
  induction 1 as [i|i f rest events finished T _ IH|i f rest chunks events finished T _ IH
                 |i f rest chunks T]; intros F.
  - reflexivity.
  - cbn [Stream.written_from]. rewrite T. apply IH, F.
  - cbn [Stream.written_from]. rewrite T. cbn [map fst].
    rewrite progress_values_app, progress_values_block, (IH F). reflexivity.
  - discriminate.
Qed.






(** The float formula is the exact [10 + floor(80 (i + 1) / total)] for
    every plan of at most 128 files. *)
Lemma progress_value_exact (i total : nat) :
  i < total -> total <= 128 ->
  PrimFloat.eqb (Server.progress_value i total) (JS.of_Z (Stream.exact_progress i total)) = true.
Proof.
  intros Hi Ht.
  assert (C : Stream.progress_agrees_upto 128 = true) by (vm_compute; reflexivity).
  unfold Stream.progress_agrees_upto in C.
  rewrite forallb_forall in C.
  specialize (C total). rewrite forallb_forall in C.
  apply C; apply in_seq; lia.
Qed.





End ProgressProperties.


(** The progress values of that session, and the value when the third file
    completes. *)
Example five_files_progress :
  let events :=
    sent (snd (Server.runCodeGeneration (H:=Demo.five_files) "t1" "make a snake game" html
                 Demo.coder Demo.sandbox (Demo.fresh_world (Some "k")))) in
  Stream.progress_values events = [5; 10; 26; 42; 58; 74; 90; 100]%float
  /\ Stream.progress_at_completion 3 None events = Some 58%float.
Proof. vm_compute. split; reflexivity. Qed.

(** ** Entries without a path *)

Section SkipProperties.
Context `{Runtime}.

Lemma bind_assoc {S A B C} (m : M S A) (k : A -> M S B) (k' : B -> M S C) (s : S) :
  JS.bind (JS.bind m k) k' s = JS.bind m (fun a => JS.bind (k a) k') s.
Proof. unfold JS.bind. destruct (m s) as [[a|e] s']; reflexivity. Qed.

Lemma bind_ext {S A B} (m : M S A) (k k' : A -> M S B) (s : S) :
  (forall a s', k a s' = k' a s') -> JS.bind m k s = JS.bind m k' s.
Proof. intros E. unfold JS.bind. destruct (m s) as [[a|e] s']; [apply E|reflexivity]. Qed.

(** The loop over a plan in two parts: the second part goes on from the
    position after the first. *)
Lemma writing_loop_app (coder : Coder.Coder) (sandbox : Sandbox.SandboxTool)
    (goal projectName : string) (total : nat) (pre post : list FileSpec) :
  forall (i : nat) (existingFiles : Coder.Files) (w : World),
    Server.writing_loop coder sandbox goal projectName total i (pre ++ post) existingFiles w
    = JS.bind (Server.writing_loop coder sandbox goal projectName total i pre existingFiles)
        (fun files' =>
           Server.writing_loop coder sandbox goal projectName total (i + length pre) post files')
        w.
Proof.
  induction pre as [|f pre IH]; intros i existingFiles w.
  - cbn. rewrite Nat.add_0_r. reflexivity.
  - cbn [app Server.writing_loop length].
    replace (i + S (length pre)) with (S i + length pre) by lia.
    destruct (JS.truthy (path f)); cbn [negb].
    + repeat (rewrite bind_assoc; apply bind_ext; intros).
      apply IH.
    + apply IH.
Qed.

(** C10. An entry of the plan whose path is empty has no effect in the
    writing loop: the loop over a plan that holds such an entry is the loop
    over the entries before it followed by the loop over the entries after
    it, which keep their positions; nothing is sent, written or asked of
    the model for the entry itself. The entry still counts in
    [totalFiles]: in a session that runs to its end, the progress values
    are those of the positions of the other entries, computed with the
    length of the whole plan, and none is sent for its own position. *)
Theorem empty_path_entry_skipped (coder : Coder.Coder) (sandbox : Sandbox.SandboxTool)
    (goal projectName : string) (totalFiles i : nat) (pre post : list FileSpec)
    (desc : string) (existingFiles : Coder.Files) (w : World) :
  Server.writing_loop coder sandbox goal projectName totalFiles i
    (pre ++ mkFileSpec "" desc :: post) existingFiles w
  = JS.bind (Server.writing_loop coder sandbox goal projectName totalFiles i pre existingFiles)
      (fun files' =>
         Server.writing_loop coder sandbox goal projectName totalFiles
           (i + length pre + 1) post files')
      w
  /\ (forall taskId template w0 w' plan,
        Server.runCodeGeneration taskId goal template coder sandbox w0 = (Normal tt, w') ->
        fst (Coder.analyzeTask coder goal template
               (with_sent ((sent w0 ++ [Protocol.phase Protocol.planning])
                           ++ [Protocol.progress 5]) w0)) = Normal plan ->
        files plan = pre ++ mkFileSpec "" desc :: post ->
        Stream.progress_values (drop (length (sent w0)) (sent w'))
        = [5%float; 10%float]
          ++ map (fun jf => Server.progress_value (fst jf) (length pre + 1 + length post))
                 (Stream.written_from 0 pre ++ Stream.written_from (length pre + 1) post)
          ++ [100%float]).
Proof.
  split.
  - rewrite writing_loop_app. apply bind_ext. intros files' w1.
    cbn [Server.writing_loop path JS.truthy negb].
    replace (S (i + length pre)) with (i + length pre + 1) by lia. reflexivity.
  - intros taskId template w0 w' plan E P F.
    apply runCodeGeneration_trace in E as (plan' & events & P' & Es & T).
    rewrite P in P'. injection P' as <-.
    rewrite Es, drop_app_length.
    cbn [JS.is_normal] in T.
    inversion T as [| |listing body names L]; subst.
    rewrite !progress_values_app.
    rewrite (loop_trace_progress _ _ _ _ _ L eq_refl).
    rewrite F. rewrite !length_app. cbn [length].
    replace (length pre + S (length post)) with (length pre + 1 + length post) by lia.
    assert (W : forall j, Stream.written_from j (pre ++ mkFileSpec "" desc :: post)
                          = Stream.written_from j pre
                            ++ Stream.written_from (j + length pre + 1) post).
    { clear. induction pre as [|f pre IH]; intros j.
      - cbn. replace (j + 0 + 1) with (S j) by lia. reflexivity.
      - cbn [app Stream.written_from length].
        replace (j + S (length pre) + 1) with (S j + length pre + 1) by lia.
        destruct (JS.truthy (path f)); rewrite IH; reflexivity. }
    rewrite (W 0). reflexivity.
Qed.

End SkipProperties.

(** A plan of three entries, the second without a path: two files are
    generated, with the progress values of positions 0 and 2 out of 3. *)
Example gap_session :
  let events :=
    sent (snd (Server.runCodeGeneration (H:=Demo.with_gap) "t1" "a plan with a gap" html
                 Demo.coder Demo.sandbox (Demo.fresh_world (Some "k")))) in
  Stream.progress_values events = [5; 10; 36; 90; 100]%float
  /\ List.filter Stream.is_file_event events
     = [Protocol.file_start "a.txt";
        Protocol.file_chunk "a.txt" "ab"; Protocol.file_chunk "a.txt" "cd";
        Protocol.file_complete "a.txt" "abcd";
        Protocol.file_start "c.txt";
        Protocol.file_chunk "c.txt" "ab"; Protocol.file_chunk "c.txt" "cd";
        Protocol.file_complete "c.txt" "abcd"].
Proof. vm_compute. split; reflexivity. Qed.

(** ** Files and directories *)

Section TreeProperties.

Lemma lookup_set_child (x y : string) (v : FS.node) (es : FS.entries_t) :
  FS.lookup y (FS.set_child x v es) = if String.eqb x y then Some v else FS.lookup y es.
Proof.
  induction es as [|[n c] es IH]; cbn.
  - destruct (String.eqb x y) eqn:E; [reflexivity|]. reflexivity.
  - destruct (String.eqb n x) eqn:Enx; cbn.
    + apply String.eqb_eq in Enx as ->.
      destruct (String.eqb x y); reflexivity.
    + destruct (String.eqb n y) eqn:Eny.
      * apply String.eqb_eq in Eny as ->.
        rewrite String.eqb_sym in Enx. rewrite Enx. reflexivity.
      * exact IH.
Qed.

Lemma read_nil (n : FS.node) :
  FS.read [] n = match n with FS.File c => Some c | FS.Dir _ => None end.
Proof. reflexivity. Qed.

Lemma read_cons_dir (y : string) (q : list string) (es : FS.entries_t) :
  FS.read (y :: q) (FS.Dir es)
  = match FS.lookup y es with Some c => FS.read q c | None => None end.
Proof. unfold FS.read. cbn. destruct (FS.lookup y es); reflexivity. Qed.

Lemma read_cons_file (y : string) (q : list string) (c : string) :
  FS.read (y :: q) (FS.File c) = None.
Proof. reflexivity. Qed.

Lemma read_empty_dir (q : list string) : FS.read q (FS.Dir []) = None.
Proof. destruct q; reflexivity. Qed.

(** [mkdirp] makes directories only: every regular file stays as it was,
    and none appears. *)
Lemma tree_mkdirp_read (p : list string) :
  forall (n n' : FS.node) (q : list string),
    FS.tree_mkdirp p n = Some n' -> FS.read q n' = FS.read q n.
Proof.
  induction p as [|x p IH]; intros n n' q E.
  - destruct n; cbn in E; [discriminate|]. injection E as <-. reflexivity.
  - destruct n as [c|es]; cbn in E; [discriminate|].
    destruct (FS.tree_mkdirp p _) as [c|] eqn:M; [|discriminate].
    injection E as <-.
    destruct q as [|y q]; [reflexivity|].
    rewrite !read_cons_dir, lookup_set_child.
    destruct (String.eqb x y) eqn:Exy; [|reflexivity].
    apply String.eqb_eq in Exy as <-.
    rewrite (IH _ _ q M).
    destruct (FS.lookup x es); [reflexivity|apply read_empty_dir].
Qed.

(** [writeFile] changes the regular file at its path and no other. *)
Lemma tree_write_read (p : list string) (content : string) :
  forall (n n' : FS.node) (q : list string),
    FS.tree_write p content n = Some n' -> q <> p -> FS.read q n' = FS.read q n.
Proof.
  induction p as [|x p IH]; intros n n' q E Hq.
  - discriminate.
  - destruct n as [c|es]; cbn in E; [discriminate|].
    destruct p as [|x' p].
    + destruct (FS.lookup x es) as [[old|sub]|] eqn:L; try discriminate;
        injection E as <-;
        (destruct q as [|y q]; [reflexivity|]);
        rewrite !read_cons_dir, lookup_set_child;
        (destruct (String.eqb x y) eqn:Exy; [|reflexivity]);
        apply String.eqb_eq in Exy as <-; rewrite L;
        (destruct q as [|z q]; [congruence|reflexivity]).
    + destruct (FS.lookup x es) as [child|] eqn:L; [|discriminate].
      destruct (FS.tree_write (x' :: p) content child) as [child'|] eqn:W; [|discriminate].
      injection E as <-.
      destruct q as [|y q]; [reflexivity|].
      rewrite !read_cons_dir, lookup_set_child.
      destruct (String.eqb x y) eqn:Exy; [|reflexivity].
      apply String.eqb_eq in Exy as <-. rewrite L.
      apply (IH _ _ q W). congruence.
Qed.

End TreeProperties.

(** ** Normalization of paths *)

Section PathProperties.

Lemma split_slash_nonempty (s : string) : Path.split_slash s <> [].
Proof.
  destruct s as [|c s]; cbn; [discriminate|].
  destruct (Ascii.eqb c "/"); [discriminate|].
  destruct (Path.split_slash s); discriminate.
Qed.

(** Splitting two texts glued by a separator. *)
Lemma split_slash_glue (a b : string) :
  Path.split_slash (a +:+ "/" +:+ b) = Path.split_slash a ++ Path.split_slash b.
Proof.
  induction a as [|c a IH].
  - reflexivity.
  - rewrite append_cons. cbn [Path.split_slash]. rewrite IH.
    destruct (Ascii.eqb c "/"); [reflexivity|].
    pose proof (split_slash_nonempty a) as N.
    destruct (Path.split_slash a) as [|piece pieces]; [congruence|]. reflexivity.
Qed.

Lemma push_all_app (isAbsolute : bool) (stack : list string) (a b : list string) :
  Path.push_all isAbsolute stack (a ++ b)
  = Path.push_all isAbsolute (Path.push_all isAbsolute stack a) b.
Proof. unfold Path.push_all. apply fold_left_app. Qed.

Lemma push_plain (isAbsolute : bool) (stack : list string) (seg : string) :
  Workspace.is_plain seg = true -> Path.push isAbsolute stack seg = seg :: stack.
Proof.
  unfold Workspace.is_plain, Path.push. intros P.
  apply negb_true_iff in P.
  apply orb_false_iff in P as [P Pdd]. rewrite P, Pdd. reflexivity.
Qed.

Lemma push_all_plain (isAbsolute : bool) (segs : list string) :
  forall stack,
    Forall (fun seg => Workspace.is_plain seg = true) segs ->
    Path.push_all isAbsolute stack segs = rev segs ++ stack.
Proof.
  induction segs as [|seg segs IH]; intros stack A; [reflexivity|].
  apply Forall_cons in A as [P A].
  cbn [Path.push_all fold_left rev]. rewrite (push_plain _ _ _ P).
  change (fold_left (Path.push isAbsolute) segs (seg :: stack))
    with (Path.push_all isAbsolute (seg :: stack) segs).
  rewrite (IH _ A), <- app_assoc. reflexivity.
Qed.

(** Segments that never lead above their starting directory only add to
    the stack they start from. *)
Lemma push_all_stays (isAbsolute : bool) (base : list string) (segs : list string) :
  forall (depth : nat) (extra : list string),
    Workspace.stays_inside depth segs = true ->
    length extra = depth ->
    Forall (fun seg => Workspace.is_plain seg = true) extra ->
    exists extra',
      Path.push_all isAbsolute (extra ++ base) segs = extra' ++ base
      /\ Forall (fun seg => Workspace.is_plain seg = true) extra'.
Proof.
  induction segs as [|seg segs IH]; intros depth extra St L A.
  - exists extra. split; [reflexivity|exact A].
  - cbn [Workspace.stays_inside] in St. cbn [Path.push_all fold_left].
    change (fold_left (Path.push isAbsolute) segs ?st)
      with (Path.push_all isAbsolute st segs).
    unfold Path.push.
    destruct (String.eqb seg "" || String.eqb seg ".") eqn:Edot.
    + apply (IH depth extra St L A).
    + destruct (String.eqb seg "..") eqn:Eup.
      * destruct depth as [|d]; [discriminate|].
        destruct extra as [|top below]; [discriminate|].
        apply Forall_cons in A as [Ptop A].
        cbn [app].
        assert (T : String.eqb top ".." = false).
        { unfold Workspace.is_plain in Ptop. apply negb_true_iff in Ptop.
          apply orb_false_iff in Ptop as [_ Ptop]. exact Ptop. }
        rewrite T. apply (IH d below St); [cbn in L; lia|exact A].
      * apply (IH (S depth) (seg :: extra) St); [cbn; lia|].
        apply Forall_cons. split; [|exact A].
        unfold Workspace.is_plain. rewrite Edot, Eup. reflexivity.
Qed.

Lemma prefix_empty (s : string) : String.prefix "" s = true.
Proof. destruct s; reflexivity. Qed.

Lemma startsWith_glue (a b : string) :
  a <> "" -> JS.startsWith "/" (a +:+ b) = JS.startsWith "/" a.
Proof.
  intros N. destruct a as [|c a]; [congruence|].
  rewrite append_cons. unfold JS.startsWith. cbn [String.prefix].
  rewrite !prefix_empty. reflexivity.
Qed.

(** Normalizing a text followed by a separator and a path that does not
    climb: the segments of the text's normal form, then plain segments. *)
Lemma normalize_glue (x filePath : string) :
  x <> "" ->
  Workspace.no_climb filePath = true ->
  exists extra,
    Forall (fun seg => Workspace.is_plain seg = true) extra
    /\ Path.absolute (Path.normalize (x +:+ "/" +:+ filePath)) = Path.absolute (Path.normalize x)
    /\ Path.segments (Path.normalize (x +:+ "/" +:+ filePath))
       = Path.segments (Path.normalize x) ++ extra.
Proof.
  intros N C. unfold Path.normalize. cbn [Path.absolute Path.segments].
  rewrite (startsWith_glue x _ N).
  rewrite split_slash_glue, push_all_app.
  destruct (push_all_stays (JS.startsWith "/" x)
              (Path.push_all (JS.startsWith "/" x) [] (Path.split_slash x))
              (Path.split_slash filePath) 0 [] C eq_refl (Forall_nil_2 _))
    as (extra & E & A).
  cbn [app] in E. rewrite E.
  exists (rev extra). split; [apply Forall_rev, A|].
  split; [reflexivity|]. apply rev_app_distr.
Qed.

End PathProperties.

(** ** Confinement of writes *)

Section ConfinementProperties.

Lemma join_empty_last (a b : string) : Path.join [a; b; ""] = Path.join [a; b].
Proof.
  unfold Path.join.
  change [a; b; ""] with ([a; b] ++ [""]).
  rewrite filter_app. cbn [filter]. rewrite app_nil_r. reflexivity.
Qed.


(** When the workspace directory or the project name is not empty, the
    project directory is the normal form of one text, and the target of a
    write is the normal form of that text, a separator and the file path. *)
Lemma join_project (workspaceDir projectName : string) :
  JS.truthy workspaceDir || JS.truthy projectName = true ->
  exists x,
    x <> ""
    /\ Path.join [workspaceDir; projectName] = Path.normalize x
    /\ (forall filePath,
          filePath <> "" ->
          Path.join [workspaceDir; projectName; filePath]
          = Path.normalize (x +:+ "/" +:+ filePath)).
Proof.
  intros N. destruct workspaceDir as [|c ws]; destruct projectName as [|d name];
    try discriminate N.
  - exists (String d name). split; [discriminate|]. split; [reflexivity|].
    intros [|e fp] F; [congruence|]. reflexivity.
  - exists (String c ws). split; [discriminate|]. split; [reflexivity|].
    intros [|e fp] F; [congruence|]. reflexivity.
  - exists (String c ws +:+ "/" +:+ String d name). split; [discriminate|].
    split; [reflexivity|].
    intros [|e fp] F; [congruence|].
    unfold Path.join. cbn [filter list_filter JS.truthy].
    cbn. rewrite !append_assoc'. reflexivity.
Qed.

Lemma resolve_extend (fs : FS.t) (p t : Path.t) (extra : list string) :
  Forall (fun seg => Workspace.is_plain seg = true) extra ->
  Path.absolute t = Path.absolute p ->
  Path.segments t = Path.segments p ++ extra ->
  FS.resolve fs t = FS.resolve fs p ++ extra.
Proof.
  intros A Ea Es. unfold FS.resolve. rewrite Ea, Es.
  destruct (Path.absolute p); [reflexivity|].
  rewrite push_all_app, (push_all_plain _ _ _ A), rev_app_distr, rev_involutive.
  reflexivity.
Qed.

(** A file path that does not climb is written under the project
    directory: a relative one always, an absolute one (which [join] reads
    as relative) when the workspace directory or the project name is not
    empty. *)
Lemma target_under_project (self : Sandbox.SandboxTool) (projectName filePath : string)
    (fs : FS.t) :
  JS.startsWith "/" filePath = false
  \/ JS.truthy (Sandbox.workspaceDir self) || JS.truthy projectName = true ->
  Workspace.no_climb filePath = true ->
  Workspace.project_dir self projectName fs `prefix_of` Workspace.target self projectName filePath fs.
Proof.
  intros W C. unfold Workspace.project_dir, Workspace.target.
  destruct filePath as [|c fp].
  - rewrite join_empty_last. reflexivity.
  - destruct (JS.truthy (Sandbox.workspaceDir self) || JS.truthy projectName) eqn:N.
    + destruct (join_project (Sandbox.workspaceDir self) projectName N) as (x & Nx & P & T).
      rewrite P, (T (String c fp)) by discriminate.
      destruct (normalize_glue x (String c fp) Nx C) as (extra & A & Ea & Es).
      rewrite (resolve_extend fs _ _ extra A Ea Es).
      apply prefix_app_r. reflexivity.
    + destruct W as [Rel|W]; [|discriminate W].
      apply orb_false_iff in N as [Nw Nn].
      destruct (Sandbox.workspaceDir self); [|discriminate Nw].
      destruct projectName; [|discriminate Nn].
      destruct (push_all_stays false [] (Path.split_slash (String c fp)) 0 [] C eq_refl
                  (Forall_nil_2 _)) as (extra & E & A).
      cbn [app] in E. rewrite app_nil_r in E.
      assert (Ex : FS.resolve fs (Path.join [""; ""; String c fp])
                   = FS.resolve fs (Path.join [""; ""]) ++ rev extra).
      { apply resolve_extend.
        - apply Forall_rev, A.
        - unfold Path.join. cbn [filter list_filter JS.truthy]. cbn [Path.normalize Path.absolute].
          exact Rel.
        - change (Path.join [""; ""; String c fp]) with (Path.normalize (String c fp)).
          unfold Path.normalize. cbn [Path.segments]. rewrite Rel, E. reflexivity. }
      rewrite Ex. apply prefix_app_r. reflexivity.
Qed.

(** Whatever the file path, [writeProjectFile] changes no regular file
    other than the one at its target. *)
Lemma writeProjectFile_touches_target (self : Sandbox.SandboxTool)
    (projectName filePath content : string) (fs : FS.t) (q : list string) :
  q <> Workspace.target self projectName filePath fs ->
  FS.read q (FS.root (snd (Sandbox.writeProjectFile self projectName filePath content fs)))
  = FS.read q (FS.root fs).
Proof.
  intros Hq. unfold Sandbox.writeProjectFile, JS.bind, FS.mkdirp.
  destruct (FS.tree_mkdirp _ (FS.root fs)) as [r1|] eqn:M; [|reflexivity].
  pose proof (tree_mkdirp_read _ _ _ q M) as R1.
  unfold FS.writeFile.
  destruct (Path.trailing _); [exact R1|].
  destruct (FS.tree_write _ content _) as [r2|] eqn:Wt; [|exact R1].
  cbn [snd FS.root FS.with_root].
  rewrite <- R1. apply (tree_write_read _ _ _ _ q Wt). exact Hq.
Qed.

(** C1, as the code has it. [writeProjectFile] writes at the lexical
    normal form of [join(workspaceDir, projectName, filePath)] and nowhere
    else; nothing rejects a path. For a relative file path none of whose
    [..] segments leads above the project directory (so for every relative
    path without [..]), the target is under the project directory: every
    regular file outside it stays as it was and none is created there,
    whether the call returns or throws. The same holds for an absolute file
    path, which [join] reads as relative, unless the workspace directory and
    the project name are both empty. *)
Theorem writeProjectFile_confined (self : Sandbox.SandboxTool)
    (projectName filePath : string) :
  JS.startsWith "/" filePath = false
  \/ JS.truthy (Sandbox.workspaceDir self) || JS.truthy projectName = true ->
  Workspace.no_climb filePath = true ->
  Workspace.confined self projectName filePath.
Proof.
  intros W C content fs q Out.
  apply writeProjectFile_touches_target.
  intros ->. apply Out. apply target_under_project; assumption.
Qed.

End ConfinementProperties.

(** C1 for a nested path with a [..] that stays inside: a file next to
    the project directory is not touched. *)
Lemma writeProjectFile_confined_witness :
  FS.read ["ws"; "escape.txt"]
    (FS.root (snd (Sandbox.writeProjectFile Demo.sandbox "proj" "src/../assets/logo.svg"
                     "<svg/>" Demo.empty_disk)))
  = FS.read ["ws"; "escape.txt"] (FS.root Demo.empty_disk).
Proof.
  apply (writeProjectFile_confined Demo.sandbox "proj" "src/../assets/logo.svg"
           (or_introl eq_refl) eq_refl "<svg/>" Demo.empty_disk ["ws"; "escape.txt"]).
  intros [k E]. discriminate E.
Defined.

(** C1 as stated fails: in the project [proj] of the workspace [/ws], the
    path [../escape.txt] passes [join] and the file is created at
    [/ws/escape.txt], next to the project directory [/ws/proj]. *)
Lemma writeProjectFile_escapes :
  let fs := snd (Sandbox.initProject Demo.sandbox "proj" html Demo.empty_disk) in
  let fs' := snd (Sandbox.writeProjectFile Demo.sandbox "proj" "../escape.txt" "pwned" fs) in
  fst (Sandbox.writeProjectFile Demo.sandbox "proj" "../escape.txt" "pwned" fs) = Normal tt
  /\ Workspace.project_dir Demo.sandbox "proj" fs = ["ws"; "proj"]
  /\ Workspace.target Demo.sandbox "proj" "../escape.txt" fs = ["ws"; "escape.txt"]
  /\ FS.read ["ws"; "escape.txt"] (FS.root fs) = None
  /\ FS.read ["ws"; "escape.txt"] (FS.root fs') = Some "pwned"
  /\ ~ ["ws"; "proj"] `prefix_of` ["ws"; "escape.txt"]
  /\ ~ Workspace.confined Demo.sandbox "proj" "../escape.txt".
Proof.
  assert (NP : ~ ["ws"; "proj"] `prefix_of` ["ws"; "escape.txt"]).
  { intros [k E]. discriminate E. }
  repeat split; try reflexivity; try exact NP.
  intros C.
  specialize (C "pwned" (snd (Sandbox.initProject Demo.sandbox "proj" html Demo.empty_disk))
                ["ws"; "escape.txt"] NP).
  vm_compute in C. discriminate C.
Qed.

(** ** Re-initialization of a project *)

Section TreeSurgery.

Lemma lookup_remove_child (x : string) (es : FS.entries_t) :
  FS.lookup x (FS.remove_child x es) = None.
Proof.
  induction es as [|[n c] es IH]; [reflexivity|]. cbn.
  destruct (String.eqb n x) eqn:E; [exact IH|]. cbn. rewrite E. exact IH.
Qed.

Lemma set_child_twice (x : string) (a b : FS.node) (es : FS.entries_t) :
  FS.set_child x b (FS.set_child x a es) = FS.set_child x b es.
Proof.
  induction es as [|[n c] es IH]; cbn.
  - rewrite String.eqb_refl. reflexivity.
  - destruct (String.eqb n x) eqn:E; cbn; rewrite E; [reflexivity|]. rewrite IH. reflexivity.
Qed.

Lemma get_put (p : list string) (v : FS.node) :
  forall n, is_Some (FS.get p n) -> FS.get p (FS.tree_put p v n) = Some v.
Proof.
  induction p as [|x p IH]; intros n [sub G]; [reflexivity|].
  destruct n as [c|es]; cbn in G; [discriminate|].
  cbn. destruct (FS.lookup x es) as [ch|] eqn:L; [|discriminate].
  cbn. rewrite lookup_set_child, String.eqb_refl. apply IH. eauto.
Qed.

Lemma put_put (p : list string) (a b : FS.node) :
  forall n, is_Some (FS.get p n) ->
            FS.tree_put p b (FS.tree_put p a n) = FS.tree_put p b n.
Proof.
  induction p as [|x p IH]; intros n [sub G]; [reflexivity|].
  destruct n as [c|es]; cbn in G; [discriminate|].
  cbn. destruct (FS.lookup x es) as [ch|] eqn:L; [|discriminate].
  cbn. rewrite lookup_set_child, String.eqb_refl, set_child_twice.
  rewrite IH by eauto. reflexivity.
Qed.

(** Writing below a node that exists is writing in that node. *)
Lemma tree_write_below (p rel : list string) (content : string) :
  forall n sub,
    FS.get p n = Some sub -> rel <> [] ->
    FS.tree_write (p ++ rel) content n
    = option_map (fun sub' => FS.tree_put p sub' n) (FS.tree_write rel content sub).
Proof.
  induction p as [|x p IH]; intros n sub G R.
  - cbn in G. injection G as ->. cbn. destruct (FS.tree_write rel content sub); reflexivity.
  - destruct n as [c|es]; cbn in G; [discriminate|].
    destruct (FS.lookup x es) as [ch|] eqn:L; [|discriminate].
    cbn [app FS.tree_write FS.tree_put]. rewrite L.
    destruct (p ++ rel) as [|y tl] eqn:E.
    + apply app_eq_nil in E as [_ ->]. congruence.
    + rewrite (IH ch sub G R).
      destruct (FS.tree_write rel content sub); reflexivity.
Qed.

Lemma tree_mkdirp_below (p rel : list string) :
  forall n sub,
    FS.get p n = Some sub ->
    FS.tree_mkdirp (p ++ rel) n
    = option_map (fun sub' => FS.tree_put p sub' n) (FS.tree_mkdirp rel sub).
Proof.
  induction p as [|x p IH]; intros n sub G.
  - cbn in G. injection G as ->. cbn. destruct (FS.tree_mkdirp rel sub); reflexivity.
  - destruct n as [c|es]; cbn in G; [discriminate|].
    destruct (FS.lookup x es) as [ch|] eqn:L; [|discriminate].
    cbn [app FS.tree_mkdirp FS.tree_put]. rewrite L. cbn [default].
    rewrite (IH ch sub G).
    destruct (FS.tree_mkdirp rel sub); reflexivity.
Qed.

Lemma tree_rimraf_deep (x y : string) (p : list string) (es : FS.entries_t) :
  FS.tree_rimraf (x :: y :: p) (FS.Dir es)
  = match FS.lookup x es with
    | Some c => FS.Dir (FS.set_child x (FS.tree_rimraf (y :: p) c) es)
    | None => FS.Dir es
    end.
Proof. reflexivity. Qed.

Lemma tree_mkdirp_cons (x : string) (p : list string) (es : FS.entries_t) :
  FS.tree_mkdirp (x :: p) (FS.Dir es)
  = match FS.tree_mkdirp p (match FS.lookup x es with Some c => c | None => FS.Dir [] end) with
    | Some c => Some (FS.Dir (FS.set_child x c es))
    | None => None
    end.
Proof. reflexivity. Qed.

(** Removing a node that exists and making the directory again leaves an
    empty directory in its place. *)
Lemma mkdirp_after_rimraf (p : list string) :
  forall n, is_Some (FS.get p n) ->
            exists n', FS.tree_mkdirp p (FS.tree_rimraf p n) = Some n'
                       /\ FS.get p n' = Some (FS.Dir []).
Proof.
  induction p as [|x p IH]; intros n [sub G].
  - exists (FS.Dir []). split; reflexivity.
  - destruct n as [c|es]; cbn in G; [discriminate|].
    destruct (FS.lookup x es) as [ch|] eqn:L; [|discriminate].
    destruct p as [|y p].
    + cbn [FS.tree_rimraf]. rewrite tree_mkdirp_cons, lookup_remove_child. cbn.
      eexists. split; [reflexivity|]. cbn. rewrite lookup_set_child, String.eqb_refl.
      reflexivity.
    + rewrite tree_rimraf_deep, L, tree_mkdirp_cons, lookup_set_child, String.eqb_refl.
      destruct (IH ch (ex_intro _ sub G)) as (c2 & M & G2).
      rewrite M. eexists. split; [reflexivity|].
      cbn [FS.get]. rewrite lookup_set_child, String.eqb_refl. exact G2.
Qed.

End TreeSurgery.

Section Reinitialization.

Lemma join_from_relative (fs : FS.t) (p : Path.t) (args rel : list string) :
  Workspace.relative_segments args = Some rel ->
  FS.resolve fs (Path.join_from p args) = FS.resolve fs p ++ rel
  /\ Path.trailing (Path.join_from p args) = false
  /\ rel <> [].
Proof.
  unfold Workspace.relative_segments, Path.join_from.
  destruct (filter _ args) as [|part parts]; [discriminate|].
  destruct (forallb _ _ && negb _) eqn:C; [|discriminate].
  intros [= <-].
  apply andb_true_iff in C as [Pl Tr]. apply negb_true_iff in Tr.
  split; [|split; [exact Tr|apply split_slash_nonempty]].
  apply resolve_extend.
  - apply Forall_forall. intros seg I. rewrite forallb_forall in Pl.
    apply Pl. apply list_elem_of_In. exact I.
  - reflexivity.
  - cbn [Path.segments]. rewrite (push_all_plain _ _ (rev (Path.segments p))).
    + rewrite rev_app_distr, !rev_involutive. reflexivity.
    + apply Forall_forall. intros seg I. rewrite forallb_forall in Pl.
      apply Pl. apply list_elem_of_In. exact I.
Qed.

Lemma replaced_holds (proj : list string) (projectPath : Path.t) (sub sub' : FS.node)
    (fs : FS.t) :
  Workspace.holds proj projectPath sub fs ->
  Workspace.holds proj projectPath sub' (FS.replaced proj sub' fs).
Proof.
  intros [R G]. split; [exact R|].
  unfold FS.replaced. cbn [FS.root FS.with_root]. apply get_put. eauto.
Qed.

Lemma replaced_twice (proj : list string) (projectPath : Path.t) (sub a b : FS.node)
    (fs : FS.t) :
  Workspace.holds proj projectPath sub fs ->
  FS.replaced proj b (FS.replaced proj a fs) = FS.replaced proj b fs.
Proof.
  intros [R G]. unfold FS.replaced, FS.with_root. cbn [FS.root FS.cwd].
  rewrite put_put by eauto. reflexivity.
Qed.

(** A write below the project directory is a write in the node it holds. *)
Lemma writeFile_in_project {A} (proj : list string) (projectPath : Path.t)
    (sub sub' : FS.node) (args rel : list string) (content : string)
    (k : unit -> M FS.t A) (fs : FS.t) :
  Workspace.holds proj projectPath sub fs ->
  Workspace.relative_segments args = Some rel ->
  FS.tree_write rel content sub = Some sub' ->
  JS.bind (FS.writeFile (Path.join_from projectPath args) content) k fs
  = k tt (FS.replaced proj sub' fs).
Proof.
  intros [R G] Rel W.
  destruct (join_from_relative fs projectPath args rel Rel) as (Res & Tr & Ne).
  unfold JS.bind, FS.writeFile. rewrite Tr, Res, R.
  rewrite (tree_write_below proj rel content _ sub G Ne), W. reflexivity.
Qed.

Lemma mkdirp_in_project {A} (proj : list string) (projectPath : Path.t)
    (sub sub' : FS.node) (args rel : list string)
    (k : unit -> M FS.t A) (fs : FS.t) :
  Workspace.holds proj projectPath sub fs ->
  Workspace.relative_segments args = Some rel ->
  FS.tree_mkdirp rel sub = Some sub' ->
  JS.bind (FS.mkdirp (Path.join_from projectPath args)) k fs
  = k tt (FS.replaced proj sub' fs).
Proof.
  intros [R G] Rel W.
  destruct (join_from_relative fs projectPath args rel Rel) as (Res & Tr & Ne).
  unfold JS.bind, FS.mkdirp. rewrite Res, R.
  rewrite (tree_mkdirp_below proj rel _ sub G), W. reflexivity.
Qed.

Lemma bind_ret_r {S A} (m : M S A) (s : S) : JS.bind m JS.ret s = m s.
Proof. unfold JS.bind, JS.ret. destruct (m s) as [[a|e] s']; reflexivity. Qed.

Ltac in_project I :=
  first
    [ erewrite (writeFile_in_project _ _ _ _ _ _ _ _ _ I); [|reflexivity|reflexivity]
    | erewrite (mkdirp_in_project _ _ _ _ _ _ _ _ I); [|reflexivity|reflexivity] ].

Ltac next_in_project I0 :=
  lazymatch goal with
  | |- JS.bind _ _ (FS.replaced _ ?s _) = _ =>
      let I := fresh "I" in
      pose proof (replaced_holds _ _ _ s _ I0) as I;
      in_project I; rewrite (replaced_twice _ _ _ _ _ _ I0); clear I
  | |- JS.bind _ _ _ = _ => in_project I0
  | |- ?m (FS.replaced ?p ?s ?f) = _ =>
      rewrite <- (bind_ret_r m (FS.replaced p s f))
  end.

(** Each template, run in an empty project directory, leaves its
    boilerplate there and changes nothing else. *)
Lemma template_in_empty_directory (template : ProjectTemplate) (proj : list string)
    (projectPath : Path.t) (fs : FS.t) :
  Workspace.holds proj projectPath (FS.Dir []) fs ->
  match template with
  | html => Sandbox.initHTMLProject projectPath
  | vite_react => Sandbox.initViteReactProject projectPath
  | vite_vue => Sandbox.initViteVueProject projectPath
  | node => Sandbox.initNodeProject projectPath
  | python => Sandbox.initPythonProject projectPath
  end fs
  = (Normal tt, FS.replaced proj (Sandbox.boilerplate template projectPath) fs).
Proof.
  intros I0.
  destruct template;
    unfold Sandbox.initHTMLProject, Sandbox.initViteReactProject, Sandbox.initViteVueProject,
      Sandbox.initNodeProject, Sandbox.initPythonProject;
    repeat next_in_project I0; reflexivity.
Qed.

End Reinitialization.

Section InitProject.

Lemma read_below (p rel : list string) :
  forall n sub, FS.get p n = Some sub -> FS.read (p ++ rel) n = FS.read rel sub.
Proof.
  induction p as [|x p IH]; intros n sub G.
  - cbn in G. injection G as ->. reflexivity.
  - destruct n as [c|es]; cbn in G; [discriminate|].
    destruct (FS.lookup x es) as [ch|] eqn:L; [|discriminate].
    cbn [app]. rewrite read_cons_dir, L. apply (IH ch sub G).
Qed.

(** Making a directory that was not there leaves it empty. *)
Lemma mkdirp_fresh (p : list string) :
  forall n n',
    FS.get p n = None -> FS.tree_mkdirp p n = Some n' -> FS.get p n' = Some (FS.Dir []).
Proof.
  induction p as [|x p IH]; intros n n' G M.
  - discriminate.
  - destruct n as [c|es]; [discriminate|].
    rewrite tree_mkdirp_cons in M.
    destruct (FS.tree_mkdirp p _) as [c'|] eqn:M'; [|discriminate].
    injection M as <-. cbn [FS.get] in G |- *.
    rewrite lookup_set_child, String.eqb_refl.
    destruct (FS.lookup x es) as [ch|].
    + apply (IH ch c' G M').
    + destruct p as [|y p].
      * cbn in M'. injection M' as <-. reflexivity.
      * apply (IH (FS.Dir []) c'); [reflexivity|exact M'].
Qed.

Lemma boilerplate_is_dir (template : ProjectTemplate) (projectPath : Path.t) :
  exists es, Sandbox.boilerplate template projectPath = FS.Dir es.
Proof. destruct template; eexists; reflexivity. Qed.

(** What [initProject] does from the point where the project directory is
    there and empty. *)
Lemma initProject_from_empty (self : Sandbox.SandboxTool) (name : string)
    (template : ProjectTemplate) (proj : list string) (fs : FS.t) :
  let projectPath := Path.join [Sandbox.workspaceDir self; name] in
  Workspace.holds proj projectPath (FS.Dir []) fs ->
  JS.bind
    match template with
    | html => Sandbox.initHTMLProject projectPath
    | vite_react => Sandbox.initViteReactProject projectPath
    | vite_vue => Sandbox.initViteVueProject projectPath
    | node => Sandbox.initNodeProject projectPath
    | python => Sandbox.initPythonProject projectPath
    end
    (fun _ =>
       JS.bind (Sandbox.listFiles self name "")
         (fun files =>
            JS.ret (Sandbox.mkProjectInfo name (Path.to_string projectPath) files)))
    fs
  = (Normal (Sandbox.mkProjectInfo name (Path.to_string projectPath)
               (Sandbox.listNode (FS.readdir_rank fs) ""
                  (Sandbox.boilerplate template projectPath))),
     FS.replaced proj (Sandbox.boilerplate template projectPath) fs).
Proof.
  intros projectPath I0.
  rewrite bind_run, (template_in_empty_directory template proj projectPath fs I0).
  destruct (replaced_holds _ _ _ (Sandbox.boilerplate template projectPath) _ I0) as [R G].
  unfold JS.bind, Sandbox.listFiles. rewrite join_empty_last. fold projectPath.
  rewrite R, G.
  destruct (boilerplate_is_dir template projectPath) as [es ->]. reflexivity.
Qed.

(** Whenever [initProject] returns, the project directory holds the
    boilerplate of the template and nothing else, and the listing returned
    is that of the boilerplate. *)
Lemma initProject_result (self : Sandbox.SandboxTool) (name : string)
    (template : ProjectTemplate) (fs fs' : FS.t) (info : Sandbox.ProjectInfo) :
  let projectPath := Path.join [Sandbox.workspaceDir self; name] in
  Sandbox.initProject self name template fs = (Normal info, fs') ->
  info = Sandbox.mkProjectInfo name (Path.to_string projectPath)
           (Sandbox.listNode (FS.readdir_rank fs) ""
              (Sandbox.boilerplate template projectPath))
  /\ FS.get (FS.resolve fs projectPath) (FS.root fs')
     = Some (Sandbox.boilerplate template projectPath)
  /\ FS.cwd fs' = FS.cwd fs.
Proof.
  intros projectPath. unfold Sandbox.initProject. fold projectPath.
  rewrite bind_run. unfold FS.exists_ at 1, JS.gets at 1.
  set (proj := FS.resolve fs projectPath).
  destruct (bool_decide (is_Some (FS.get proj (FS.root fs)))) eqn:E.
  - apply bool_decide_eq_true in E.
    rewrite bind_run. unfold FS.rimraf at 1, JS.modify at 1.
    rewrite bind_run. unfold FS.mkdirp at 1.
    change (FS.resolve (FS.with_root _ fs) projectPath) with proj.
    cbn [FS.root FS.with_root].
    destruct (mkdirp_after_rimraf proj (FS.root fs) E) as (root2 & M & G2).
    fold proj. rewrite M.
    rewrite (initProject_from_empty self name template proj).
    + intros [= <- <-]. split; [reflexivity|]. split; [|reflexivity].
      apply get_put. cbn [FS.root FS.with_root]. eauto.
    + split; [reflexivity|exact G2].
  - apply bool_decide_eq_false in E.
    rewrite bind_run. unfold JS.ret at 1.
    rewrite bind_run. unfold FS.mkdirp at 1. fold proj.
    destruct (FS.tree_mkdirp proj (FS.root fs)) as [root2|] eqn:M; [|discriminate].
    assert (G : FS.get proj (FS.root fs) = None).
    { destruct (FS.get proj (FS.root fs)); [exfalso; apply E; eauto|reflexivity]. }
    rewrite (initProject_from_empty self name template proj).
    + intros [= <- <-]. split; [reflexivity|]. split; [|reflexivity].
      apply get_put. cbn [FS.root FS.with_root].
      rewrite (mkdirp_fresh _ _ _ G M). eauto.
    + split; [reflexivity|]. apply (mkdirp_fresh _ _ _ G M).
Qed.

(** When the project directory exists, [initProject] returns. *)
Lemma initProject_returns (self : Sandbox.SandboxTool) (name : string)
    (template : ProjectTemplate) (fs : FS.t) :
  is_Some (FS.get (FS.resolve fs (Path.join [Sandbox.workspaceDir self; name])) (FS.root fs)) ->
  exists info fs', Sandbox.initProject self name template fs = (Normal info, fs').
Proof.
  intros E. unfold Sandbox.initProject.
  set (projectPath := Path.join [Sandbox.workspaceDir self; name]) in *.
  set (proj := FS.resolve fs projectPath) in *.
  rewrite bind_run. unfold FS.exists_ at 1, JS.gets at 1. fold proj.
  rewrite (bool_decide_eq_true_2 _ E).
  rewrite bind_run. unfold FS.rimraf at 1, JS.modify at 1.
  rewrite bind_run. unfold FS.mkdirp at 1.
  change (FS.resolve (FS.with_root _ fs) projectPath) with proj.
  cbn [FS.root FS.with_root].
  destruct (mkdirp_after_rimraf proj (FS.root fs) E) as (root2 & M & G2).
  fold proj. rewrite M.
  rewrite (initProject_from_empty self name template proj).
  - eexists _, _. reflexivity.
  - split; [reflexivity|exact G2].
Qed.

End InitProject.

(** ** [join] on the text of a normal path

    The workspace keeps a project path as a normal form and extends it with
    [Path.join_from]; the source keeps its text and calls [join] again.
    Both give the same path. *)

Section JoinAdequacy.

Lemma split_slash_name (seg : string) :
  Workspace.no_slash seg = true -> Path.split_slash seg = [seg].
Proof.
  induction seg as [|c seg IH]; [reflexivity|].
  cbn [Workspace.no_slash Path.split_slash]. intros [Hc Hs]%andb_true_iff.
  apply negb_true_iff in Hc. rewrite Hc, (IH Hs). reflexivity.
Qed.

Lemma split_slash_pieces (s : string) :
  Forall (fun piece => Workspace.no_slash piece = true) (Path.split_slash s).
Proof.
  induction s as [|c s IH]; cbn [Path.split_slash].
  - repeat constructor.
  - destruct (Ascii.eqb c "/") eqn:E.
    + constructor; [reflexivity|exact IH].
    + destruct (Path.split_slash s) as [|piece pieces].
      * repeat constructor. cbn. rewrite E. reflexivity.
      * apply Forall_cons in IH as [Hp Hps]. constructor; [|exact Hps].
        cbn. rewrite E, Hp. reflexivity.
Qed.

Lemma concat_cons2 (sep a b : string) (l : list string) :
  String.concat sep (a :: b :: l) = a +:+ sep +:+ String.concat sep (b :: l).
Proof. reflexivity. Qed.

(** The text of a list of names splits back into the names. *)
Lemma split_slash_concat (segs : list string) :
  segs <> [] ->
  Forall (fun seg => Workspace.no_slash seg = true) segs ->
  Path.split_slash (String.concat "/" segs) = segs.
Proof.
  induction segs as [|a segs IH]; intros N A; [congruence|].
  apply Forall_cons in A as [Ha A].
  destruct segs as [|b segs].
  - cbn [String.concat]. apply split_slash_name, Ha.
  - rewrite concat_cons2, split_slash_glue, (split_slash_name a Ha), IH by (discriminate || exact A).
    reflexivity.
Qed.

Lemma push_empty (isAbsolute : bool) (stack : list string) :
  Path.push isAbsolute stack "" = stack.
Proof. reflexivity. Qed.

Lemma name_is_plain (seg : string) :
  Workspace.is_name seg = true -> Workspace.is_plain seg = true.
Proof. unfold Workspace.is_name. intros [P _]%andb_true_iff. exact P. Qed.

Lemma name_no_slash (seg : string) :
  Workspace.is_name seg = true -> Workspace.no_slash seg = true.
Proof. unfold Workspace.is_name. intros [_ P]%andb_true_iff. exact P. Qed.

(** Pushing the segments of a normal path on an empty stack keeps them. *)
Lemma push_all_ups (ups : list string) :
  Forall (fun seg => seg = "..") ups ->
  forall stack,
    Forall (fun seg => seg = "..") stack ->
    Path.push_all false stack ups = rev ups ++ stack.
Proof.
  induction 1 as [|seg ups -> _ IH]; intros stack S; [reflexivity|].
  cbn [Path.push_all fold_left rev].
  change (fold_left (Path.push false) ups ?st) with (Path.push_all false st ups).
  assert (P : Path.push false stack ".." = ".." :: stack).
  { destruct S as [|top below -> _]; reflexivity. }
  rewrite P, IH by (constructor; [reflexivity|exact S]).
  rewrite <- app_assoc. reflexivity.
Qed.

Lemma push_all_normal (p : Path.t) :
  Workspace.normal p ->
  Path.push_all (Path.absolute p) [] (Path.segments p) = rev (Path.segments p).
Proof.
  intros (ups & names & -> & U & A & N).
  rewrite push_all_app.
  assert (E : Path.push_all (Path.absolute p) [] ups = rev ups).
  { destruct (Path.absolute p).
    - rewrite (A eq_refl). reflexivity.
    - rewrite (push_all_ups ups U [] (Forall_nil_2 _)), app_nil_r. reflexivity. }
  rewrite E, push_all_plain, rev_app_distr; [reflexivity|].
  eapply Forall_impl; [exact N|]. intros seg. apply name_is_plain.
Qed.

Lemma normal_no_slash (p : Path.t) :
  Workspace.normal p ->
  Forall (fun seg => Workspace.no_slash seg = true) (Path.segments p).
Proof.
  intros (ups & names & -> & U & _ & N). apply Forall_app. split.
  - eapply Forall_impl; [exact U|]. intros seg ->. reflexivity.
  - eapply Forall_impl; [exact N|]. intros seg. apply name_no_slash.
Qed.

(** Normalizing the text of a normal path gives its segments back. *)
Lemma push_all_to_string (p : Path.t) :
  Workspace.normal p ->
  Path.push_all (Path.absolute p) [] (Path.split_slash (Path.to_string p))
  = rev (Path.segments p).
Proof.
  intros Np. pose proof (push_all_normal p Np) as PN.
  pose proof (normal_no_slash p Np) as NS.
  unfold Path.to_string.
  destruct (Path.segments p) as [|seg segs] eqn:Es.
  - destruct (Path.absolute p), (Path.trailing p); reflexivity.
  - assert (S : Path.split_slash (JS.join_with "/" (seg :: segs)) = seg :: segs).
    { apply split_slash_concat; [discriminate|exact NS]. }
    assert (T : forall x, Path.split_slash (x +:+ (if Path.trailing p then "/" else ""))
                          = Path.split_slash x ++ (if Path.trailing p then [""] else [])).
    { intros x. destruct (Path.trailing p).
      - change "/" with ("/" +:+ ""). apply split_slash_glue.
      - rewrite append_empty_r, app_nil_r. reflexivity. }
    assert (Tl : forall st, Path.push_all (Path.absolute p) st
                              (if Path.trailing p then [""] else []) = st).
    { intros st. destruct (Path.trailing p); reflexivity. }
    destruct (Path.absolute p).
    + change ("/" +:+ JS.join_with "/" (seg :: segs) +:+ (if Path.trailing p then "/" else ""))
        with ("" +:+ "/" +:+ (JS.join_with "/" (seg :: segs)
                              +:+ (if Path.trailing p then "/" else ""))).
      rewrite split_slash_glue, T, S.
      change (Path.split_slash "") with [""].
      rewrite push_all_app.
      change (Path.push_all true [] [""]) with (@nil string).
      rewrite push_all_app, Tl. exact PN.
    + change ("" +:+ ?x) with x.
      rewrite T, S, push_all_app, Tl. exact PN.
Qed.

Lemma normal_first_segment (p : Path.t) (seg : string) (segs : list string) :
  Workspace.normal p ->
  Path.segments p = seg :: segs ->
  exists c rest, seg = String c rest /\ Ascii.eqb c "/" = false.
Proof.
  intros (ups & names & E & U & _ & N) Es. rewrite Es in E.
  destruct ups as [|up ups].
  - destruct names as [|name names]; [discriminate|].
    injection E as -> _. apply Forall_cons in N as [N _].
    unfold Workspace.is_name in N. apply andb_true_iff in N as [P S].
    destruct name as [|c rest]; [discriminate|].
    exists c, rest. split; [reflexivity|].
    cbn in S. apply andb_true_iff in S as [S _]. apply negb_true_iff in S. exact S.
  - injection E as -> _. apply Forall_cons in U as [-> _].
    eexists _, _. split; reflexivity.
Qed.

Lemma concat_first (c : ascii) (rest : string) (segs : list string) :
  exists tail, JS.join_with "/" (String c rest :: segs) = String c tail.
Proof. destruct segs; eexists; reflexivity. Qed.

Lemma to_string_first (p : Path.t) :
  Workspace.normal p ->
  JS.truthy (Path.to_string p) = true
  /\ JS.startsWith "/" (Path.to_string p) = Path.absolute p.
Proof.
  intros Np. unfold Path.to_string.
  destruct (Path.segments p) as [|seg segs] eqn:Es.
  - destruct (Path.absolute p); [split; reflexivity|].
    destruct (Path.trailing p); split; reflexivity.
  - destruct (normal_first_segment p seg segs Np Es) as (c & rest & -> & Hc).
    destruct (concat_first c rest segs) as [tail ->].
    destruct (Path.absolute p).
    + split; reflexivity.
    + change ("" +:+ ?x) with x. rewrite append_cons. split; [reflexivity|].
      unfold JS.startsWith. cbn [String.prefix].
      destruct (ascii_dec "/" c) as [<-|D]; [discriminate Hc|reflexivity].
Qed.

Lemma ends_with_slash_glue (x s : string) :
  s <> "" -> Path.ends_with_slash (x +:+ "/" +:+ s) = Path.ends_with_slash s.
Proof.
  intros N. unfold Path.ends_with_slash.
  rewrite split_slash_glue, last_app.
  pose proof (split_slash_nonempty s) as Ns.
  destruct (last (Path.split_slash s)) as [piece|] eqn:L.
  - destruct piece; [|reflexivity].
    destruct s as [|c s]; [congruence|].
    destruct x; reflexivity.
  - apply last_None in L. congruence.
Qed.

(** Extending a normal path: [join] on its text and the arguments gives
    what [join_from] gives on the path itself. *)
Lemma join_from_is_join (p : Path.t) (args : list string) :
  Workspace.normal p ->
  filter (fun a => JS.truthy a = true) args <> [] ->
  Path.join (Path.to_string p :: args) = Path.join_from p args.
Proof.
  intros Np Na.
  destruct (to_string_first p Np) as [Tt Ts].
  unfold Path.join, Path.join_from.
  rewrite filter_cons_True by exact Tt.
  destruct (filter _ args) as [|a l] eqn:F; [congruence|].
  unfold JS.join_with. rewrite concat_cons2.
  assert (Ne : String.concat "/" (a :: l) <> "").
  { assert (Ta : JS.truthy a = true).
    { assert (I : a ∈ filter (fun a => JS.truthy a = true) args)
        by (rewrite F; apply list_elem_of_here).
      apply list_elem_of_filter in I as [I _]. exact I. }
    destruct a as [|c a]; [discriminate|]. destruct l; discriminate. }
  unfold Path.normalize.
  rewrite startsWith_glue by (destruct (Path.to_string p); [discriminate|discriminate]).
  rewrite Ts, split_slash_glue, push_all_app, (push_all_to_string p Np).
  rewrite (ends_with_slash_glue _ _ Ne). reflexivity.
Qed.

(** Every path [normalize] returns is normal, so every path of the
    workspace is. *)
Lemma push_keeps_normal (isAbsolute : bool) (names ups : list string) (seg : string) :
  Forall (fun s => Workspace.is_name s = true) names ->
  Forall (fun s => s = "..") ups ->
  (isAbsolute = true -> ups = []) ->
  Workspace.no_slash seg = true ->
  exists names' ups',
    Path.push isAbsolute (names ++ ups) seg = names' ++ ups'
    /\ Forall (fun s => Workspace.is_name s = true) names'
    /\ Forall (fun s => s = "..") ups'
    /\ (isAbsolute = true -> ups' = []).
Proof.
  intros N U A S. unfold Path.push.
  destruct (String.eqb seg "" || String.eqb seg ".") eqn:Edot.
  - exists names, ups. repeat split; assumption.
  - destruct (String.eqb seg "..") eqn:Eup.
    + apply String.eqb_eq in Eup as ->.
      destruct names as [|top below].
      * cbn [app]. destruct ups as [|up ups].
        -- destruct isAbsolute.
           ++ exists [], []. repeat split; auto.
           ++ exists [], [".."]. repeat split; auto. discriminate.
        -- apply Forall_cons in U as [-> U]. cbn.
           exists [], (".." :: ".." :: ups). repeat split; auto.
           intros Ab. specialize (A Ab). discriminate.
      * apply Forall_cons in N as [Nt N]. cbn [app].
        assert (T : String.eqb top ".." = false).
        { apply name_is_plain in Nt. unfold Workspace.is_plain in Nt.
          apply negb_true_iff in Nt. apply orb_false_iff in Nt as [_ Nt]. exact Nt. }
        rewrite T. exists below, ups. repeat split; assumption.
    + exists (seg :: names), ups. repeat split; try assumption.
      constructor; [|exact N].
      unfold Workspace.is_name, Workspace.is_plain. rewrite Edot, Eup, S. reflexivity.
Qed.

Lemma push_all_keeps_normal (isAbsolute : bool) (segs : list string) :
  Forall (fun s => Workspace.no_slash s = true) segs ->
  forall names ups,
    Forall (fun s => Workspace.is_name s = true) names ->
    Forall (fun s => s = "..") ups ->
    (isAbsolute = true -> ups = []) ->
    exists names' ups',
      Path.push_all isAbsolute (names ++ ups) segs = names' ++ ups'
      /\ Forall (fun s => Workspace.is_name s = true) names'
      /\ Forall (fun s => s = "..") ups'
      /\ (isAbsolute = true -> ups' = []).
Proof.
  induction 1 as [|seg segs S _ IH]; intros names ups N U A.
  - exists names, ups. repeat split; assumption.
  - cbn [Path.push_all fold_left].
    change (fold_left (Path.push isAbsolute) segs ?st) with (Path.push_all isAbsolute st segs).
    destruct (push_keeps_normal isAbsolute names ups seg N U A S)
      as (names1 & ups1 & -> & N1 & U1 & A1).
    apply IH; assumption.
Qed.

Lemma stack_is_normal (isAbsolute trailing : bool) (names ups : list string) :
  Forall (fun s => Workspace.is_name s = true) names ->
  Forall (fun s => s = "..") ups ->
  (isAbsolute = true -> ups = []) ->
  Workspace.normal (Path.mk isAbsolute (rev (names ++ ups)) trailing).
Proof.
  intros N U A. exists (rev ups), (rev names). cbn [Path.segments Path.absolute].
  split; [apply rev_app_distr|]. split; [apply Forall_rev, U|]. split.
  - intros Ab. rewrite (A Ab). reflexivity.
  - apply Forall_rev, N.
Qed.

Lemma normalize_normal (s : string) : Workspace.normal (Path.normalize s).
Proof.
  unfold Path.normalize.
  destruct (push_all_keeps_normal (JS.startsWith "/" s) (Path.split_slash s)
              (split_slash_pieces s) [] [] (Forall_nil_2 _) (Forall_nil_2 _) (fun _ => eq_refl))
    as (names & ups & E & N & U & A).
  cbn [app] in E. rewrite E. apply stack_is_normal; assumption.
Qed.

Lemma join_normal (args : list string) : Workspace.normal (Path.join args).
Proof. unfold Path.join. destruct (filter _ args); apply normalize_normal. Qed.

Lemma join_from_normal (p : Path.t) (args : list string) :
  Workspace.normal p -> Workspace.normal (Path.join_from p args).
Proof.
  intros Np. unfold Path.join_from.
  destruct (filter _ args) as [|a l]; [exact Np|].
  destruct Np as (ups & names & E & U & A & N).
  destruct (push_all_keeps_normal (Path.absolute p)
              (Path.split_slash (JS.join_with "/" (a :: l)))
              (split_slash_pieces _) (rev names) (rev ups)
              (Forall_rev N) (Forall_rev U))
    as (names' & ups' & E' & N' & U' & A').
  { intros Ab. rewrite (A Ab). reflexivity. }
  rewrite E, rev_app_distr, E'. apply stack_is_normal; assumption.
Qed.

(** The project path of the workspace, extended as the source does it. *)
Theorem project_join_is_join (self : Sandbox.SandboxTool) (name : string)
    (args : list string) :
  filter (fun a => JS.truthy a = true) args <> [] ->
  Path.join (Path.to_string (Path.join [Sandbox.workspaceDir self; name]) :: args)
  = Path.join_from (Path.join [Sandbox.workspaceDir self; name]) args.
Proof. intros Na. apply join_from_is_join; [apply join_normal|exact Na]. Qed.

End JoinAdequacy.

(** ** Further properties of the specification *)

Section FurtherProperties.
Context `{Runtime}.

Lemma score_of_lowercase_keywords (keywords : list string) (goalLower : string) :
  Forall (fun kw => toLowerCase kw = kw) keywords ->
  Planner.score keywords goalLower
  = length (List.filter (fun kw => JS.includes kw goalLower) keywords).
Proof.
  unfold Planner.score. induction 1 as [|kw keywords E _ IH]; [reflexivity|].
  rewrite filter_cons, E. cbn [List.filter].
  destruct (JS.includes kw goalLower); cbn [length].
  - rewrite decide_True by reflexivity. cbn [length]. rewrite IH. reflexivity.
  - rewrite decide_False by discriminate. exact IH.
Qed.

(** The goal [make a snake game] is a code task for the plain HTML
    template, whenever lower-casing leaves the goal and the keywords, which
    are in lower case, as they are. *)
Theorem snake_game_is_html_code (self : Planner.Planner) (w : World) :
  toLowerCase "make a snake game" = "make a snake game" ->
  Forall (fun kw => toLowerCase kw = kw) (Planner.codeKeywords ++ Planner.researchKeywords) ->
  exists c,
    Planner.classifyTask self "make a snake game" w = (Normal c, w)
    /\ type c = code
    /\ template c = Some html
    /\ confidence c = (2 / 3)%float.
Proof.
  intros G K. apply Forall_app in K as [Kc Kr].
  unfold Planner.classifyTask. rewrite G.
  rewrite (score_of_lowercase_keywords _ _ Kc), (score_of_lowercase_keywords _ _ Kr).
  eexists. split; [vm_compute; reflexivity|]. repeat split.
Qed.

(** The goal [what is GraphQL] is a research task, whenever lower-casing
    gives [what is graphql] and leaves the keywords as they are. *)
Theorem what_is_graphql_is_research (self : Planner.Planner) (w : World) :
  toLowerCase "what is GraphQL" = "what is graphql" ->
  Forall (fun kw => toLowerCase kw = kw) (Planner.codeKeywords ++ Planner.researchKeywords) ->
  exists c,
    Planner.classifyTask self "what is GraphQL" w = (Normal c, w)
    /\ type c = research
    /\ template c = None.
Proof.
  intros G K. apply Forall_app in K as [Kc Kr].
  unfold Planner.classifyTask. rewrite G.
  rewrite (score_of_lowercase_keywords _ _ Kc), (score_of_lowercase_keywords _ _ Kr).
  eexists. split; [vm_compute; reflexivity|]. repeat split.
Qed.

(** X3. The classifier never fails outward: it always returns a
    classification, and when no keyword matches and the call to the model
    or the parsing of its answer fails, that classification is [research]
    with confidence 0.5. *)
Theorem classifyTask_never_throws (self : Planner.Planner) (goal : string) (w : World) :
  exists c w',
    Planner.classifyTask self goal w = (Normal c, w')
    /\ (Planner.score Planner.codeKeywords (toLowerCase goal) = 0 ->
        Planner.score Planner.researchKeywords (toLowerCase goal) = 0 ->
        (forall answer,
           fst (LLM.chatJSON JSON_parse_classification (Planner.llm self)
                  [mkMessage user (Planner.classify_prompt goal)] w) <> Normal (Some answer)) ->
        c = mkClassification research None 0.5%float
              "Default to research (LLM classification failed)").
Proof.
  unfold Planner.classifyTask.
  destruct (Planner.score Planner.codeKeywords (toLowerCase goal)) as [|k] eqn:Ec;
    destruct (Planner.score Planner.researchKeywords (toLowerCase goal)) as [|j] eqn:Er;
    cbn [Nat.eqb andb].
  - unfold Planner.llmClassifyTask, JS.try_catch, JS.bind, LLM.chatJSON, LLM.chat, JS.bind.
    destruct (completions_create _ _) as [content|e]; cbn.
    + destruct (JSON_parse_classification _) as [[r|]|e]; cbn.
      * eexists _, _. split; [reflexivity|]. intros _ _ F. exfalso. exact (F r eq_refl).
      * eexists _, _. split; [reflexivity|]. reflexivity.
      * eexists _, _. split; [reflexivity|]. reflexivity.
    + eexists _, _. split; [reflexivity|]. reflexivity.
  - destruct (Nat.ltb _ _); eexists _, _; (split; [reflexivity|discriminate]).
  - destruct (Nat.ltb _ _); eexists _, _; (split; [reflexivity|discriminate]).
  - destruct (Nat.ltb _ _); eexists _, _; (split; [reflexivity|discriminate]).
Qed.

(** X13. The history of the Coder reflects committed results only: a
    generation that ends normally adds its prompt and the full response,
    one that is cut by an error adds nothing. *)
Theorem generateFile_history (coder : Coder.Coder) (options : Coder.GenerateOptions)
    (p : string) (w : World) :
  let result := Coder.generateFile coder options (Server.on_chunk p) "" w in
  conversationHistory (snd result)
  = match fst result with
    | Normal content =>
        conversationHistory w
        ++ [mkMessage user (Coder.userPrompt options); mkMessage assistant content]
    | Throw _ => conversationHistory w
    end.
Proof.
  unfold Coder.generateFile, JS.bind, JS.gets, LLM.chatStream.
  destruct (completions_stream _ _) as [deltas ending].
  unfold JS.bind. rewrite each_delta_on_chunk.
  destruct ending as [e|]; reflexivity.
Qed.

End FurtherProperties.

Lemma snake_game_is_html_code_witness :
  exists c,
    Planner.classifyTask (H:=Demo.scripted) (Planner.new_Planner (Server.agent_options None "k"))
      "make a snake game" (Demo.fresh_world (Some "k"))
    = (Normal c, Demo.fresh_world (Some "k"))
    /\ type c = code
    /\ template c = Some html
    /\ confidence c = (2 / 3)%float.
Proof.
  apply (snake_game_is_html_code (H:=Demo.scripted)).
  - reflexivity.
  - repeat constructor.
Defined.

Lemma what_is_graphql_is_research_witness :
  exists c,
    Planner.classifyTask (H:=Demo.scripted) (Planner.new_Planner (Server.agent_options None "k"))
      "what is GraphQL" (Demo.fresh_world (Some "k"))
    = (Normal c, Demo.fresh_world (Some "k"))
    /\ type c = research
    /\ template c = None.
Proof.
  apply (what_is_graphql_is_research (H:=Demo.scripted)).
  - reflexivity.
  - repeat constructor.
Defined.

(** ** Reading back, deleting, cleaning up *)

Section WorkspaceFiles.

Lemma tree_write_reads_back (p : list string) (content : string) :
  forall n n', FS.tree_write p content n = Some n' -> FS.read p n' = Some content.
Proof.
  induction p as [|x p IH]; intros n n' E; [discriminate|].
  destruct n as [c|es]; cbn in E; [discriminate|].
  destruct p as [|y p].
  - destruct (FS.lookup x es) as [[old|sub]|]; try discriminate;
      injection E as <-; rewrite read_cons_dir, lookup_set_child, String.eqb_refl;
      reflexivity.
  - destruct (FS.lookup x es) as [child|]; [|discriminate].
    destruct (FS.tree_write (y :: p) content child) as [child'|] eqn:W; [|discriminate].
    injection E as <-. rewrite read_cons_dir, lookup_set_child, String.eqb_refl.
    apply (IH _ _ W).
Qed.

Lemma lookup_remove_other (x y : string) (es : FS.entries_t) :
  x <> y -> FS.lookup y (FS.remove_child x es) = FS.lookup y es.
Proof.
  intros N. induction es as [|[n c] es IH]; [reflexivity|]. cbn.
  destruct (String.eqb n x) eqn:Ex.
  - apply String.eqb_eq in Ex as ->.
    destruct (String.eqb x y) eqn:Exy; [apply String.eqb_eq in Exy; congruence|exact IH].
  - cbn. rewrite IH. reflexivity.
Qed.

(** Nothing is left at a path that was removed. *)
Lemma get_after_rimraf (p : list string) :
  forall n, p <> [] -> FS.get p (FS.tree_rimraf p n) = None.
Proof.
  induction p as [|x p IH]; intros n N; [congruence|].
  destruct n as [c|es]; [reflexivity|].
  destruct p as [|y p].
  - cbn. rewrite lookup_remove_child. reflexivity.
  - rewrite tree_rimraf_deep.
    destruct (FS.lookup x es) as [c|] eqn:L.
    + cbn [FS.get]. rewrite lookup_set_child, String.eqb_refl. apply IH. discriminate.
    + cbn [FS.get]. rewrite L. reflexivity.
Qed.

Lemma read_after_rimraf (p : list string) (n : FS.node) :
  FS.read p (FS.tree_rimraf p n) = None.
Proof.
  destruct p as [|x p]; [reflexivity|].
  unfold FS.read. rewrite get_after_rimraf by discriminate. reflexivity.
Qed.

(** Removal changes no regular file outside the path removed. *)
Lemma rimraf_frame (p : list string) :
  forall n q, ~ p `prefix_of` q -> FS.read q (FS.tree_rimraf p n) = FS.read q n.
Proof.
  induction p as [|x p IH]; intros n q N.
  - exfalso. apply N. apply prefix_nil.
  - destruct n as [c|es]; [reflexivity|].
    destruct q as [|y q]; [destruct p; cbn; [reflexivity|destruct (FS.lookup x es); reflexivity]|].
    destruct p as [|z p].
    + cbn [FS.tree_rimraf]. rewrite !read_cons_dir.
      rewrite lookup_remove_other; [reflexivity|].
      intros ->. apply N. apply prefix_cons, prefix_nil.
    + rewrite tree_rimraf_deep.
      destruct (FS.lookup x es) as [c|] eqn:L; [|reflexivity].
      rewrite !read_cons_dir, lookup_set_child.
      destruct (String.eqb x y) eqn:Exy; [|reflexivity].
      apply String.eqb_eq in Exy as <-. rewrite L.
      apply IH. intros P. apply N. apply prefix_cons, P.
Qed.

Lemma get_below (p rel : list string) :
  forall n sub, FS.get p n = Some sub -> FS.get (p ++ rel) n = FS.get rel sub.
Proof.
  induction p as [|x p IH]; intros n sub G.
  - cbn in G. injection G as ->. reflexivity.
  - destruct n as [c|es]; cbn in G; [discriminate|].
    destruct (FS.lookup x es) as [ch|] eqn:L; [|discriminate].
    cbn [app FS.get]. rewrite L. apply (IH ch sub G).
Qed.

Lemma get_below_nothing (p rel : list string) :
  forall n, FS.get p n = None -> FS.get (p ++ rel) n = None.
Proof.
  induction p as [|x p IH]; intros n G; [discriminate|].
  destruct n as [c|es]; [reflexivity|].
  cbn [app FS.get] in G |- *.
  destruct (FS.lookup x es) as [ch|]; [apply (IH ch G)|reflexivity].
Qed.

Lemma writeProjectFile_reads_back (self : Sandbox.SandboxTool)
    (projectName filePath content : string) (fs fs' : FS.t) :
  Sandbox.writeProjectFile self projectName filePath content fs = (Normal tt, fs') ->
  FS.read (Workspace.target self projectName filePath fs) (FS.root fs') = Some content
  /\ FS.cwd fs' = FS.cwd fs.
Proof.
  unfold Sandbox.writeProjectFile, Workspace.target.
  set (fullPath := Path.join [Sandbox.workspaceDir self; projectName; filePath]).
  rewrite bind_run. unfold FS.mkdirp.
  destruct (FS.tree_mkdirp _ (FS.root fs)) as [r1|]; [|discriminate].
  unfold FS.writeFile. destruct (Path.trailing fullPath); [discriminate|].
  destruct (FS.tree_write _ content _) as [r2|] eqn:W; [|discriminate].
  intros [= <-]. split; [|reflexivity].
  change (FS.resolve (FS.with_root r1 fs) fullPath) with (FS.resolve fs fullPath) in W.
  cbn [FS.root FS.with_root] in W |- *.
  apply (tree_write_reads_back _ _ _ _ W).
Qed.

(** X17. What [writeProjectFile] has written, [readProjectFile] reads back: when
    the write returns, reading the same path of the same project gives the
    content written, and every other regular file is as it was before the
    write. *)
Theorem write_then_read (self : Sandbox.SandboxTool) (projectName filePath content : string)
    (fs fs' : FS.t) :
  Sandbox.writeProjectFile self projectName filePath content fs = (Normal tt, fs') ->
  Sandbox.readProjectFile self projectName filePath fs' = (Normal content, fs')
  /\ (forall q, q <> Workspace.target self projectName filePath fs ->
                FS.read q (FS.root fs') = FS.read q (FS.root fs)).
Proof.
  intros E. split.
  - destruct (writeProjectFile_reads_back _ _ _ _ _ _ E) as [R C].
    unfold Sandbox.readProjectFile, FS.readFile.
    replace (FS.resolve fs' (Path.join [Sandbox.workspaceDir self; projectName; filePath]))
      with (Workspace.target self projectName filePath fs)
      by (unfold Workspace.target, FS.resolve; rewrite C; reflexivity).
    rewrite R. reflexivity.
  - intros q Hq.
    pose proof (writeProjectFile_touches_target self projectName filePath content fs q Hq) as T.
    rewrite E in T. exact T.
Qed.

(** X19. A deleted file cannot be read. Whenever [deleteProjectFile] returns,
    [readProjectFile] on the same path throws, and no regular file outside
    the deleted path has changed. For a file path that does not climb,
    nothing outside the project directory has changed. *)
Theorem delete_then_read (self : Sandbox.SandboxTool) (projectName filePath : string)
    (fs fs' : FS.t) :
  Sandbox.deleteProjectFile self projectName filePath fs = (Normal tt, fs') ->
  (exists e, Sandbox.readProjectFile self projectName filePath fs' = (Throw e, fs'))
  /\ (forall q, ~ Workspace.target self projectName filePath fs `prefix_of` q ->
                FS.read q (FS.root fs') = FS.read q (FS.root fs))
  /\ (JS.startsWith "/" filePath = false
      \/ JS.truthy (Sandbox.workspaceDir self) || JS.truthy projectName = true ->
      Workspace.no_climb filePath = true ->
      forall q, ~ Workspace.project_dir self projectName fs `prefix_of` q ->
                FS.read q (FS.root fs') = FS.read q (FS.root fs)).
Proof.
  unfold Sandbox.deleteProjectFile, Sandbox.readProjectFile, FS.rimraf, JS.modify.
  intros [= <-].
  assert (F : forall q, ~ Workspace.target self projectName filePath fs `prefix_of` q ->
                        FS.read q (FS.tree_rimraf (Workspace.target self projectName filePath fs)
                                     (FS.root fs))
                        = FS.read q (FS.root fs)).
  { intros q N. apply rimraf_frame, N. }
  split; [|split].
  - unfold FS.readFile.
    change (FS.resolve (FS.with_root _ fs) ?p) with (FS.resolve fs p).
    cbn [FS.root FS.with_root]. rewrite read_after_rimraf. eexists. reflexivity.
  - exact F.
  - intros W C q N. apply F. intros P. apply N.
    etrans; [apply (target_under_project self projectName filePath fs W C)|exact P].
Qed.

(** X20. After [cleanup] the project is gone: its directory does not exist, its
    listing is empty, a command in it is refused with [Project not found]
    and nothing is executed, and [installDeps] has nothing to install. *)
Theorem cleanup_removes_project `{Runtime} (self : Sandbox.SandboxTool) (projectName : string)
    (fs : FS.t) :
  Workspace.project_dir self projectName fs <> [] ->
  let fs' := snd (Sandbox.cleanup self projectName fs) in
  Sandbox.cleanup self projectName fs = (Normal tt, fs')
  /\ FS.exists_ (Path.join [Sandbox.workspaceDir self; projectName]) fs' = (Normal false, fs')
  /\ Sandbox.listFiles self projectName "" fs' = (Normal [], fs')
  /\ (forall command timeout,
        Sandbox.runCommand self projectName command timeout fs'
        = (Normal (Sandbox.mkCommandResult false "" "Project not found" (CodeNum 1)), fs'))
  /\ (forall q, ~ Workspace.project_dir self projectName fs `prefix_of` q ->
                FS.read q (FS.root fs') = FS.read q (FS.root fs)).
Proof.
  intros N. cbn zeta. unfold Sandbox.cleanup, FS.rimraf, JS.modify. cbn [snd].
  set (projectPath := Path.join [Sandbox.workspaceDir self; projectName]).
  set (fs' := FS.with_root _ fs).
  assert (G : FS.get (FS.resolve fs' projectPath) (FS.root fs') = None).
  { apply get_after_rimraf. exact N. }
  assert (X : FS.exists_ projectPath fs' = (Normal false, fs')).
  { unfold FS.exists_, JS.gets. rewrite G.
    rewrite bool_decide_eq_false_2; [reflexivity|]. intros [? ?]. discriminate. }
  split; [reflexivity|]. split; [exact X|]. split; [|split].
  - unfold Sandbox.listFiles. rewrite join_empty_last. fold projectPath. rewrite G. reflexivity.
  - intros command timeout. unfold Sandbox.runCommand. fold projectPath.
    rewrite bind_run, X. reflexivity.
  - intros q Nq. apply rimraf_frame, Nq.
Qed.

(** X22. [installDeps] for a project that does not exist reports success:
    neither manifest is found, nothing is executed and the result is
    [No dependencies to install]. *)
Theorem installDeps_without_project `{Runtime} (self : Sandbox.SandboxTool)
    (projectName : string) (fs : FS.t) :
  FS.exists_ (Path.join [Sandbox.workspaceDir self; projectName]) fs = (Normal false, fs) ->
  Sandbox.installDeps self projectName fs
  = (Normal (Sandbox.mkCommandResult true "No dependencies to install" "" (CodeNum 0)), fs).
Proof.
  unfold FS.exists_, JS.gets.
  set (projectPath := Path.join [Sandbox.workspaceDir self; projectName]).
  intros [= E]. apply bool_decide_eq_false in E.
  assert (G : FS.get (FS.resolve fs projectPath) (FS.root fs) = None).
  { destruct (FS.get _ _); [exfalso; apply E; eauto|reflexivity]. }
  assert (X : forall file,
             Workspace.relative_segments [file] = Some [file] ->
             FS.exists_ (Path.join_from projectPath [file]) fs = (Normal false, fs)).
  { intros file R. unfold FS.exists_, JS.gets.
    destruct (join_from_relative fs projectPath [file] [file] R) as (-> & _ & _).
    rewrite (get_below_nothing _ _ _ G).
    rewrite bool_decide_eq_false_2; [reflexivity|]. intros [? ?]. discriminate. }
  unfold Sandbox.installDeps. fold projectPath.
  rewrite bind_run, (X "package.json") by reflexivity.
  rewrite bind_run, (X "requirements.txt") by reflexivity.
  reflexivity.
Qed.

(** X21. After [initProject], [installDeps] runs the installer of the template:
    [npm install] for the templates that have a [package.json],
    [pip install -r requirements.txt] for the Python template, and nothing
    for the plain HTML template, each with a timeout of 120000 ms. *)
Theorem installDeps_after_initProject `{Runtime} (self : Sandbox.SandboxTool) (name : string)
    (template : ProjectTemplate) (fs fs' : FS.t) (info : Sandbox.ProjectInfo) :
  Sandbox.initProject self name template fs = (Normal info, fs') ->
  Sandbox.installDeps self name fs'
  = match template with
    | html =>
        (Normal (Sandbox.mkCommandResult true "No dependencies to install" "" (CodeNum 0)), fs')
    | python => Sandbox.runCommand self name "pip install -r requirements.txt" 120000 fs'
    | vite_react | vite_vue | node => Sandbox.runCommand self name "npm install" 120000 fs'
    end.
Proof.
  intros I.
  destruct (initProject_result self name template fs fs' info I) as (_ & G & C).
  set (projectPath := Path.join [Sandbox.workspaceDir self; name]) in *.
  assert (R : FS.resolve fs' projectPath = FS.resolve fs projectPath).
  { unfold FS.resolve. rewrite C. reflexivity. }
  rewrite <- R in G.
  assert (X : forall file,
             Workspace.relative_segments [file] = Some [file] ->
             FS.exists_ (Path.join_from projectPath [file]) fs'
             = (Normal (bool_decide (is_Some (FS.get [file]
                                                (Sandbox.boilerplate template projectPath)))),
                fs')).
  { intros file Rel. unfold FS.exists_, JS.gets.
    destruct (join_from_relative fs' projectPath [file] [file] Rel) as (-> & _ & _).
    rewrite (get_below _ _ _ _ G). reflexivity. }
  unfold Sandbox.installDeps. fold projectPath.
  rewrite bind_run, (X "package.json") by reflexivity.
  destruct template; cbn [Sandbox.boilerplate FS.get FS.lookup String.eqb Ascii.eqb Bool.eqb].
  all: try (rewrite bool_decide_eq_true_2 by eauto; reflexivity).
  all: rewrite bool_decide_eq_false_2 by (intros [? ?]; discriminate).
  all: rewrite bind_run, (X "requirements.txt") by reflexivity.
  all: cbn [Sandbox.boilerplate FS.get FS.lookup String.eqb Ascii.eqb Bool.eqb].
  - rewrite bool_decide_eq_false_2 by (intros [? ?]; discriminate). reflexivity.
  - rewrite bool_decide_eq_true_2 by eauto. reflexivity.
Qed.

End WorkspaceFiles.

Lemma write_then_read_witness :
  let fs' := snd (Sandbox.writeProjectFile Demo.sandbox "proj" "src/app.js" "let x = 1;"
                    Demo.empty_disk) in
  Sandbox.readProjectFile Demo.sandbox "proj" "src/app.js" fs' = (Normal "let x = 1;", fs')
  /\ (forall q, q <> Workspace.target Demo.sandbox "proj" "src/app.js" Demo.empty_disk ->
                FS.read q (FS.root fs') = FS.read q (FS.root Demo.empty_disk)).
Proof.
  intros fs'.
  apply (write_then_read Demo.sandbox "proj" "src/app.js" "let x = 1;" Demo.empty_disk fs').
  reflexivity.
Defined.

Lemma delete_then_read_witness :
  let fs := snd (Sandbox.writeProjectFile Demo.sandbox "proj" "src/app.js" "let x = 1;"
                   Demo.empty_disk) in
  let fs' := snd (Sandbox.deleteProjectFile Demo.sandbox "proj" "src/app.js" fs) in
  (exists e, Sandbox.readProjectFile Demo.sandbox "proj" "src/app.js" fs' = (Throw e, fs'))
  /\ (forall q, ~ Workspace.target Demo.sandbox "proj" "src/app.js" fs `prefix_of` q ->
                FS.read q (FS.root fs') = FS.read q (FS.root fs))
  /\ (JS.startsWith "/" "src/app.js" = false
      \/ JS.truthy (Sandbox.workspaceDir Demo.sandbox) || JS.truthy "proj" = true ->
      Workspace.no_climb "src/app.js" = true ->
      forall q, ~ Workspace.project_dir Demo.sandbox "proj" fs `prefix_of` q ->
                FS.read q (FS.root fs') = FS.read q (FS.root fs)).
Proof.
  intros fs fs'.
  apply (delete_then_read Demo.sandbox "proj" "src/app.js" fs fs').
  reflexivity.
Defined.

Lemma cleanup_removes_project_witness :
  let fs := snd (Sandbox.initProject Demo.sandbox "proj" html Demo.empty_disk) in
  let fs' := snd (Sandbox.cleanup Demo.sandbox "proj" fs) in
  Sandbox.cleanup Demo.sandbox "proj" fs = (Normal tt, fs')
  /\ FS.exists_ (Path.join [Sandbox.workspaceDir Demo.sandbox; "proj"]) fs' = (Normal false, fs')
  /\ Sandbox.listFiles Demo.sandbox "proj" "" fs' = (Normal [], fs')
  /\ (forall command timeout,
        Sandbox.runCommand (H:=Demo.scripted) Demo.sandbox "proj" command timeout fs'
        = (Normal (Sandbox.mkCommandResult false "" "Project not found" (CodeNum 1)), fs'))
  /\ (forall q, ~ Workspace.project_dir Demo.sandbox "proj" fs `prefix_of` q ->
                FS.read q (FS.root fs') = FS.read q (FS.root fs)).
Proof.
  intros fs.
  apply (cleanup_removes_project (H:=Demo.scripted) Demo.sandbox "proj" fs).
  discriminate.
Defined.

Lemma installDeps_without_project_witness :
  Sandbox.installDeps (H:=Demo.scripted) Demo.sandbox "nowhere" Demo.empty_disk
  = (Normal (Sandbox.mkCommandResult true "No dependencies to install" "" (CodeNum 0)),
     Demo.empty_disk).
Proof.
  apply (installDeps_without_project (H:=Demo.scripted) Demo.sandbox "nowhere" Demo.empty_disk).
  reflexivity.
Defined.

Lemma installDeps_after_initProject_witness :
  let fs' := snd (Sandbox.initProject Demo.sandbox "proj" python Demo.empty_disk) in
  Sandbox.installDeps (H:=Demo.scripted) Demo.sandbox "proj" fs'
  = Sandbox.runCommand (H:=Demo.scripted) Demo.sandbox "proj" "pip install -r requirements.txt"
      120000 fs'.
Proof.
  intros fs'.
  apply (installDeps_after_initProject (H:=Demo.scripted) Demo.sandbox "proj" python
           Demo.empty_disk fs'
           (Sandbox.mkProjectInfo "proj" "/ws/proj"
              (Sandbox.listNode (FS.readdir_rank Demo.empty_disk) ""
                 (Sandbox.boilerplate python (Path.join ["/ws"; "proj"]))))).
  reflexivity.
Defined.

(** ** Listings *)

Section Listings.

Lemma node_induction (P : FS.node -> Prop) :
  (forall content, P (FS.File content)) ->
  (forall es, Forall (fun entry => P (snd entry)) es -> P (FS.Dir es)) ->
  forall n, P n.
Proof.
  intros Pf Pd. fix IH 1. intros [content|es]; [apply Pf|].
  apply Pd. induction es as [|[entry child] es IHes]; constructor; [apply IH|exact IHes].
Qed.

Lemma listNode_cons (subPath entry : string) (child : FS.node) (rest : FS.entries_t) :
  Workspace.listing_as_made subPath (FS.Dir ((entry, child) :: rest))
  = if JS.startsWith "." entry || String.eqb entry "node_modules"
    then Workspace.listing_as_made subPath (FS.Dir rest)
    else
      let relativePath := if JS.truthy subPath then subPath +:+ "/" +:+ entry else entry in
      match child with
      | FS.Dir _ =>
          mkFileInfo relativePath directory_t None
          :: Workspace.listing_as_made relativePath child
             ++ Workspace.listing_as_made subPath (FS.Dir rest)
      | FS.File content =>
          mkFileInfo relativePath file_t (Some (String.length content))
          :: Workspace.listing_as_made subPath (FS.Dir rest)
      end.
Proof. reflexivity. Qed.

Lemma insert_ranked_perm {A} (rank : string -> nat) (x : string * A) (l : list (string * A)) :
  FS.insert_ranked rank x l ≡ₚ x :: l.
Proof.
  induction l as [|y l IH]; [reflexivity|]. cbn.
  destruct (Nat.leb _ _); [reflexivity|]. rewrite IH. apply perm_swap.
Qed.

Lemma in_readdir_order_perm {A} (rank : string -> nat) (l : list (string * A)) :
  FS.in_readdir_order rank l ≡ₚ l.
Proof.
  induction l as [|x l IH]; [reflexivity|].
  cbn. rewrite insert_ranked_perm, IH. reflexivity.
Qed.

(** Whatever the order of [readdir], a listing has the entries of the
    listing in the order of making. *)
Lemma listNode_perm (rank : list string -> string -> nat) :
  forall n subPath,
    Sandbox.listNode rank subPath n ≡ₚ Workspace.listing_as_made subPath n.
Proof.
  induction n as [c|es IH] using node_induction; intros subPath; [reflexivity|].
  cbn [Sandbox.listNode]. cbv zeta.
  rewrite (Permutation_flat_map snd (in_readdir_order_perm (rank (map fst es)) _)).
  induction IH as [|[entry child] rest IHc _ IHr]; [reflexivity|].
  rewrite listNode_cons. cbn [snd] in IHc.
  destruct (JS.startsWith "." entry || String.eqb entry "node_modules"); [exact IHr|].
  cbv zeta. destruct child as [content|sub].
  - cbn [flat_map snd app]. apply perm_skip, IHr.
  - cbn [flat_map snd app]. apply perm_skip, Permutation_app; [apply IHc|exact IHr].
Qed.

Lemma well_named_cons (entry : string) (child : FS.node) (rest : FS.entries_t) :
  Workspace.well_named (FS.Dir ((entry, child) :: rest))
  = Workspace.is_name entry && negb (existsb (String.eqb entry) (map fst rest))
    && Workspace.well_named child && Workspace.well_named (FS.Dir rest).
Proof. reflexivity. Qed.

Lemma lookup_is_entry (x : string) (es : FS.entries_t) (c : FS.node) :
  FS.lookup x es = Some c -> existsb (String.eqb x) (map fst es) = true.
Proof.
  induction es as [|[n v] es IH]; [discriminate|]. cbn.
  rewrite (String.eqb_sym x n).
  destruct (String.eqb n x); [reflexivity|]. exact IH.
Qed.

Lemma get_in_rest (entry : string) (child : FS.node) (rest : FS.entries_t)
    (rel : list string) (found : FS.node) :
  existsb (String.eqb entry) (map fst rest) = false ->
  rel <> [] ->
  FS.get rel (FS.Dir rest) = Some found ->
  FS.get rel (FS.Dir ((entry, child) :: rest)) = Some found.
Proof.
  intros D N G. destruct rel as [|x rel]; [congruence|].
  cbn [FS.get FS.lookup] in G |- *.
  destruct (FS.lookup x rest) as [c|] eqn:L; [|discriminate].
  destruct (String.eqb entry x) eqn:E; [|exact G].
  apply String.eqb_eq in E as ->. apply lookup_is_entry in L. congruence.
Qed.

Lemma names_text_truthy (segs : list string) :
  Forall (fun seg => Workspace.is_name seg = true) segs ->
  JS.truthy (JS.join_with "/" segs) = negb (bool_decide (segs = [])).
Proof.
  intros N. destruct segs as [|seg segs]; [reflexivity|].
  apply Forall_cons in N as [N _].
  destruct seg as [|c seg]; [discriminate|].
  destruct (concat_first c seg segs) as [tail ->]. reflexivity.
Qed.

Lemma names_text_snoc (segs : list string) (entry : string) :
  segs <> [] ->
  JS.join_with "/" (segs ++ [entry]) = JS.join_with "/" segs +:+ "/" +:+ entry.
Proof.
  unfold JS.join_with. induction segs as [|seg segs IH]; intros N; [congruence|].
  destruct segs as [|seg' segs].
  - reflexivity.
  - cbn [app] in IH |- *. rewrite !concat_cons2, IH by discriminate.
    rewrite !append_assoc'. reflexivity.
Qed.

Lemma entry_path (segs : list string) (entry : string) :
  Forall (fun seg => Workspace.is_name seg = true) segs ->
  (if JS.truthy (JS.join_with "/" segs)
   then JS.join_with "/" segs +:+ "/" +:+ entry else entry)
  = JS.join_with "/" (segs ++ [entry]).
Proof.
  intros Ns. rewrite (names_text_truthy segs Ns). destruct segs as [|seg segs]; [reflexivity|].
  rewrite bool_decide_eq_false_2 by discriminate. cbn [negb].
  symmetry. apply names_text_snoc. discriminate.
Qed.

(** What a listing holds: each entry is a visible node of the tree, under
    its path from the directory listed. *)
Lemma listNode_entries (n : FS.node) :
  Workspace.well_named n = true ->
  forall (segs : list string) (info : FileInfo),
    Forall (fun seg => Workspace.is_name seg = true) segs ->
    In info (Workspace.listing_as_made (JS.join_with "/" segs) n) ->
    exists rel,
      rel <> []
      /\ Forall (fun seg => Workspace.is_name seg = true) rel
      /\ Forall (fun seg => Workspace.is_visible seg = true) rel
      /\ info_path info = JS.join_with "/" (segs ++ rel)
      /\ match info_type info with
         | file_t =>
             exists content,
               FS.get rel n = Some (FS.File content)
               /\ size info = Some (String.length content)
         | directory_t => (exists es, FS.get rel n = Some (FS.Dir es)) /\ size info = None
         end.
Proof.
  induction n as [content|es IH] using node_induction; intros W segs info Ns I.
  - destruct I.
  - induction es as [|[entry child] rest IHrest]; [destruct I|].
    apply Forall_cons in IH as [IHchild IH]. cbn [snd] in IHchild.
    rewrite well_named_cons in W.
    apply andb_true_iff in W as [W Wrest]. apply andb_true_iff in W as [W Wchild].
    apply andb_true_iff in W as [Wname Wfresh]. apply negb_true_iff in Wfresh.
    assert (Rest : In info (Workspace.listing_as_made (JS.join_with "/" segs) (FS.Dir rest)) ->
                   exists rel,
                     rel <> []
                     /\ Forall (fun seg => Workspace.is_name seg = true) rel
                     /\ Forall (fun seg => Workspace.is_visible seg = true) rel
                     /\ info_path info = JS.join_with "/" (segs ++ rel)
                     /\ match info_type info with
                        | file_t =>
                            exists content,
                              FS.get rel (FS.Dir ((entry, child) :: rest))
                              = Some (FS.File content)
                              /\ size info = Some (String.length content)
                        | directory_t =>
                            (exists es, FS.get rel (FS.Dir ((entry, child) :: rest))
                                        = Some (FS.Dir es))
                            /\ size info = None
                        end).
    { intros Ir. destruct (IHrest IH Wrest Ir) as (rel & Nr & Nn & Nv & Ep & K).
      exists rel. repeat (split; [assumption|]).
      destruct (info_type info).
      - destruct K as (content & G & Sz). exists content. split; [|exact Sz].
        apply get_in_rest; assumption.
      - destruct K as [[es G] Sz]. split; [|exact Sz]. exists es.
        apply get_in_rest; assumption. }
    rewrite listNode_cons in I.
    destruct (JS.startsWith "." entry || String.eqb entry "node_modules") eqn:Hidden;
      [apply Rest, I|].
    pose proof (entry_path segs entry Ns) as Path.
    cbn zeta in I. rewrite Path in I.
    assert (Here : FS.get [entry] (FS.Dir ((entry, child) :: rest)) = Some child).
    { cbn. rewrite String.eqb_refl. reflexivity. }
    assert (Vis : Workspace.is_visible entry = true).
    { unfold Workspace.is_visible. rewrite Hidden. reflexivity. }
    destruct child as [content|sub].
    + destruct I as [<-|I]; [|apply Rest, I].
      exists [entry]. split; [discriminate|]. split; [repeat constructor; exact Wname|].
      split; [repeat constructor; exact Vis|]. split; [reflexivity|].
      exists content. split; [exact Here|reflexivity].
    + destruct I as [<-|I].
      * exists [entry]. split; [discriminate|]. split; [repeat constructor; exact Wname|].
        split; [repeat constructor; exact Vis|]. split; [reflexivity|].
        split; [exists sub; exact Here|reflexivity].
      * apply in_app_or in I as [I|I]; [|apply Rest, I].
        assert (Ns' : Forall (fun seg => Workspace.is_name seg = true) (segs ++ [entry])).
        { apply Forall_app. split; [exact Ns|repeat constructor; exact Wname]. }
        destruct (IHchild Wchild (segs ++ [entry]) info Ns' I) as (rel & Nr & Nn & Nv & Ep & K).
        exists (entry :: rel). split; [discriminate|].
        split; [constructor; assumption|]. split; [constructor; assumption|].
        split; [rewrite Ep, <- app_assoc; reflexivity|].
        assert (G : forall found, FS.get rel (FS.Dir sub) = Some found ->
                                  FS.get (entry :: rel) (FS.Dir ((entry, FS.Dir sub) :: rest))
                                  = Some found).
        { intros found G. cbn [FS.get FS.lookup]. rewrite String.eqb_refl. exact G. }
        destruct (info_type info).
        -- destruct K as (content & Gc & Sz). exists content. split; [apply G, Gc|exact Sz].
        -- destruct K as [[es Gc] Sz]. split; [exists es; apply G, Gc|exact Sz].
Qed.

Lemma last_names_text (rel : list string) :
  rel <> [] ->
  Forall (fun seg => Workspace.is_name seg = true) rel ->
  JS.join_with "/" rel <> ""
  /\ Path.split_slash (JS.join_with "/" rel) = rel
  /\ Path.ends_with_slash (JS.join_with "/" rel) = false
  /\ JS.startsWith "/" (JS.join_with "/" rel) = false.
Proof.
  intros N Nn.
  assert (S : Path.split_slash (JS.join_with "/" rel) = rel).
  { apply split_slash_concat; [exact N|].
    eapply Forall_impl; [exact Nn|]. intros seg. apply name_no_slash. }
  assert (T : JS.truthy (JS.join_with "/" rel) = true).
  { rewrite (names_text_truthy rel Nn), bool_decide_eq_false_2 by exact N. reflexivity. }
  split; [intros E; rewrite E in T; discriminate|]. split; [exact S|]. split.
  - unfold Path.ends_with_slash. rewrite S.
    destruct (last rel) as [seg|] eqn:L; [|reflexivity].
    assert (I : seg ∈ rel).
    { apply last_Some in L as [l' ->]. apply elem_of_app. right. apply list_elem_of_here. }
    rewrite Forall_forall in Nn. specialize (Nn seg I).
    destruct seg; [discriminate|reflexivity].
  - destruct rel as [|seg rel]; [congruence|].
    apply Forall_cons in Nn as [Nn _].
    unfold Workspace.is_name in Nn. apply andb_true_iff in Nn as [Pl Sl].
    destruct seg as [|c seg]; [discriminate|].
    destruct (concat_first c seg rel) as [tail ->].
    cbn in Sl. apply andb_true_iff in Sl as [Sl _]. apply negb_true_iff in Sl.
    unfold JS.startsWith. cbn [String.prefix].
    destruct (ascii_dec "/" c) as [<-|D]; [discriminate Sl|reflexivity].
Qed.

(** A path made of names, read from the project directory, leads to the
    node those names lead to. *)
Lemma project_path_of_names (self : Sandbox.SandboxTool) (projectName : string) (fs : FS.t)
    (rel : list string) :
  rel <> [] ->
  Forall (fun seg => Workspace.is_name seg = true) rel ->
  let path := Path.join [Sandbox.workspaceDir self; projectName; JS.join_with "/" rel] in
  FS.resolve fs path = Workspace.project_dir self projectName fs ++ rel
  /\ Path.trailing path = false.
Proof.
  intros N Nn path.
  destruct (last_names_text rel N Nn) as (Ne & S & Tr & St).
  assert (Pl : Forall (fun seg => Workspace.is_plain seg = true) rel).
  { eapply Forall_impl; [exact Nn|]. intros seg. apply name_is_plain. }
  unfold Workspace.project_dir. subst path.
  destruct (JS.truthy (Sandbox.workspaceDir self) || JS.truthy projectName) eqn:Some1.
  - destruct (join_project _ _ Some1) as (x & Nx & -> & T). rewrite (T _ Ne).
    split.
    + apply resolve_extend; [exact Pl| |].
      * cbn [Path.normalize Path.absolute]. apply startsWith_glue, Nx.
      * cbn [Path.normalize Path.segments Path.absolute].
        rewrite (startsWith_glue x _ Nx), split_slash_glue, push_all_app, S.
        rewrite (push_all_plain _ _ _ Pl), rev_app_distr, rev_involutive. reflexivity.
    + cbn [Path.normalize Path.trailing]. rewrite ends_with_slash_glue by exact Ne. exact Tr.
  - apply orb_false_iff in Some1 as [Nw Np].
    destruct (Sandbox.workspaceDir self); [|discriminate Nw].
    destruct projectName; [|discriminate Np].
    assert (J : Path.join [""; ""; JS.join_with "/" rel] = Path.normalize (JS.join_with "/" rel)).
    { unfold Path.join. cbn [filter list_filter JS.truthy].
      destruct (JS.join_with "/" rel) as [|c text] eqn:E; [congruence|]. reflexivity. }
    rewrite J. split.
    + apply resolve_extend; [exact Pl| |].
      * cbn [Path.normalize Path.absolute]. exact St.
      * cbn [Path.normalize Path.segments]. rewrite St, S.
        rewrite (push_all_plain _ _ _ Pl), app_nil_r, rev_involutive. reflexivity.
    + cbn [Path.normalize Path.trailing]. exact Tr.
Qed.

(** X23. Listing and reading agree. In a project directory whose entries are
    properly named, [listFiles] returns, and each entry of its listing is
    there to be used: no segment of its path starts with a dot or is
    [node_modules]; a [file] entry can be read with [readProjectFile] under
    the path listed, and its size is the length of what is read; a
    [directory] entry has no size. *)
Theorem listed_files_can_be_read (self : Sandbox.SandboxTool) (projectName : string)
    (fs : FS.t) (es : FS.entries_t) :
  FS.get (Workspace.project_dir self projectName fs) (FS.root fs) = Some (FS.Dir es) ->
  Workspace.well_named (FS.Dir es) = true ->
  exists listing,
    Sandbox.listFiles self projectName "" fs = (Normal listing, fs)
    /\ forall info,
         In info listing ->
         Forall (fun seg => Workspace.is_visible seg = true)
           (Path.split_slash (info_path info))
         /\ match info_type info with
            | file_t =>
                exists content,
                  Sandbox.readProjectFile self projectName (info_path info) fs
                  = (Normal content, fs)
                  /\ size info = Some (String.length content)
            | directory_t => size info = None
            end.
Proof.
  intros G W. exists (Sandbox.listNode (FS.readdir_rank fs) "" (FS.Dir es)). split.
  - unfold Sandbox.listFiles. rewrite join_empty_last.
    unfold Workspace.project_dir in G. rewrite G. reflexivity.
  - intros info I. apply (Permutation_in _ (listNode_perm _ _ _)) in I.
    destruct (listNode_entries (FS.Dir es) W [] info (Forall_nil_2 _) I)
      as (rel & N & Nn & Nv & Ep & K).
    cbn [app] in Ep.
    destruct (last_names_text rel N Nn) as (_ & S & _ & _).
    split; [rewrite Ep, S; exact Nv|].
    destruct (info_type info); [|apply K].
    destruct K as (content & Gc & Sz). exists content. split; [|exact Sz].
    unfold Sandbox.readProjectFile, FS.readFile. rewrite Ep.
    destruct (project_path_of_names self projectName fs rel N Nn) as [R _].
    rewrite R. unfold FS.read. rewrite (get_below _ _ _ _ G), Gc. reflexivity.
Qed.

End Listings.

Lemma listed_files_can_be_read_witness :
  let fs := snd (Sandbox.initProject Demo.sandbox "proj" node Demo.empty_disk) in
  exists listing,
    Sandbox.listFiles Demo.sandbox "proj" "" fs = (Normal listing, fs)
    /\ forall info,
         In info listing ->
         Forall (fun seg => Workspace.is_visible seg = true)
           (Path.split_slash (info_path info))
         /\ match info_type info with
            | file_t =>
                exists content,
                  Sandbox.readProjectFile Demo.sandbox "proj" (info_path info) fs
                  = (Normal content, fs)
                  /\ size info = Some (String.length content)
            | directory_t => size info = None
            end.
Proof.
  intros fs.
  apply (listed_files_can_be_read Demo.sandbox "proj" fs
           [("src", FS.Dir [("index.js", FS.File Sandbox.node_indexJs)]);
            ("package.json",
             FS.File (Sandbox.JSON_stringify 0
                        (Sandbox.node_packageJson (Path.join ["/ws"; "proj"]))))]).
  - reflexivity.
  - reflexivity.
Defined.

Section ListingsComplete.

(** Every visible node of the tree is in the listing. *)
Lemma listNode_complete (n : FS.node) :
  forall (segs rel : list string) (found : FS.node),
    Forall (fun seg => Workspace.is_name seg = true) segs ->
    rel <> [] ->
    Forall (fun seg => Workspace.is_name seg = true) rel ->
    Forall (fun seg => Workspace.is_visible seg = true) rel ->
    FS.get rel n = Some found ->
    In (mkFileInfo (JS.join_with "/" (segs ++ rel))
          match found with FS.File _ => file_t | FS.Dir _ => directory_t end
          match found with FS.File content => Some (String.length content) | FS.Dir _ => None end)
       (Workspace.listing_as_made (JS.join_with "/" segs) n).
Proof.
  induction n as [content|es IH] using node_induction; intros segs rel found Ns N Nn Nv G.
  - destruct rel; [congruence|discriminate].
  - destruct rel as [|x rel]; [congruence|].
    apply Forall_cons in Nn as [Nx Nn]. apply Forall_cons in Nv as [Vx Nv].
    induction es as [|[entry child] rest IHrest]; [discriminate|].
    apply Forall_cons in IH as [IHchild IH]. cbn [snd] in IHchild.
    rewrite listNode_cons. cbn zeta. rewrite (entry_path segs entry Ns).
    cbn [FS.get FS.lookup] in G.
    destruct (String.eqb entry x) eqn:E.
    + apply String.eqb_eq in E as ->.
      unfold Workspace.is_visible in Vx. apply negb_true_iff in Vx. rewrite Vx.
      destruct rel as [|y rel].
      * cbn [FS.get] in G. injection G as ->.
        destruct found; left; reflexivity.
      * destruct child as [content|sub]; [discriminate|].
        right. apply in_or_app. left.
        replace (segs ++ x :: y :: rel) with ((segs ++ [x]) ++ y :: rel)
          by (rewrite <- app_assoc; reflexivity).
        apply IHchild; try assumption; [|discriminate].
        apply Forall_app. split; [exact Ns|repeat constructor; exact Nx].
    + assert (I : In (mkFileInfo (JS.join_with "/" (segs ++ x :: rel))
                        match found with FS.File _ => file_t | FS.Dir _ => directory_t end
                        match found with
                        | FS.File content => Some (String.length content)
                        | FS.Dir _ => None
                        end)
                     (Workspace.listing_as_made (JS.join_with "/" segs) (FS.Dir rest))).
      { apply IHrest; [exact IH|]. exact G. }
      destruct (JS.startsWith "." entry || String.eqb entry "node_modules"); [exact I|].
      destruct child; right; [exact I|apply in_or_app; right; exact I].
Qed.

Lemma get_above (p rel : list string) :
  forall n found,
    FS.get (p ++ rel) n = Some found ->
    exists sub, FS.get p n = Some sub /\ FS.get rel sub = Some found.
Proof.
  induction p as [|x p IH]; intros n found G.
  - exists n. split; [reflexivity|exact G].
  - destruct n as [c|es]; [discriminate|].
    cbn [app FS.get] in G |- *.
    destruct (FS.lookup x es) as [ch|]; [|discriminate]. apply (IH ch found G).
Qed.

(** X24. Listing is complete. A regular file of a project that can be read
    under a path made of names none of which starts with a dot or is
    [node_modules] is in the listing of the project, under that path and
    with the length of its content as size. With the theorem before, a
    listing shows exactly the visible files. *)
Theorem visible_files_are_listed (self : Sandbox.SandboxTool) (projectName : string)
    (fs : FS.t) (rel : list string) (content : string) :
  rel <> [] ->
  Forall (fun seg => Workspace.is_name seg = true) rel ->
  Forall (fun seg => Workspace.is_visible seg = true) rel ->
  Sandbox.readProjectFile self projectName (JS.join_with "/" rel) fs = (Normal content, fs) ->
  exists listing,
    Sandbox.listFiles self projectName "" fs = (Normal listing, fs)
    /\ In (mkFileInfo (JS.join_with "/" rel) file_t (Some (String.length content))) listing.
Proof.
  intros N Nn Nv R.
  destruct (project_path_of_names self projectName fs rel N Nn) as [Res _].
  unfold Sandbox.readProjectFile, FS.readFile in R. rewrite Res in R.
  unfold FS.read in R.
  destruct (FS.get _ (FS.root fs)) as [[c|es']|] eqn:G; try discriminate R.
  injection R as ->.
  apply get_above in G as (sub & Gp & Gr).
  destruct sub as [c|es]; [destruct rel; [congruence|discriminate]|].
  exists (Sandbox.listNode (FS.readdir_rank fs) "" (FS.Dir es)). split.
  - unfold Sandbox.listFiles. rewrite join_empty_last.
    unfold Workspace.project_dir in Gp. rewrite Gp. reflexivity.
  - apply (Permutation_in _ (Permutation_sym (listNode_perm _ _ _))).
    apply (listNode_complete (FS.Dir es) [] rel (FS.File content) (Forall_nil_2 _) N Nn Nv Gr).
Qed.

End ListingsComplete.

(** ** Initializing a project again *)

Section Recreation.

Lemma read_files_of :
  forall n rel content, FS.read rel n = Some content -> In (rel, content) (Workspace.files_of n).
Proof.
  induction n as [c|es IH] using node_induction; intros rel content R.
  - destruct rel as [|x rel]; [|discriminate R].
    injection R as ->. left. reflexivity.
  - destruct rel as [|x rel]; [discriminate R|].
    rewrite read_cons_dir in R.
    induction IH as [|[entry child] rest IHc _ IHr].
    + discriminate R.
    + change (Workspace.files_of (FS.Dir ((entry, child) :: rest)))
        with (map (fun found => (entry :: fst found, snd found)) (Workspace.files_of child)
              ++ Workspace.files_of (FS.Dir rest)).
      apply in_or_app. cbn [FS.lookup] in R.
      destruct (String.eqb entry x) eqn:E.
      * apply String.eqb_eq in E as ->. left.
        apply (in_map (fun found => (x :: fst found, snd found)) _ (rel, content)).
        apply (IHc rel content R).
      * right. apply IHr, R.
Qed.

(** The regular files of the boilerplate are the files of the template. *)
Lemma boilerplate_files (template : ProjectTemplate) (projectPath : Path.t)
    (rel : list string) (content : string) :
  FS.read rel (Sandbox.boilerplate template projectPath) = Some content
  <-> In (rel, Some content) (Workspace.template_entries template projectPath).
Proof.
  split.
  - intros R. apply read_files_of in R.
    destruct template;
      cbn [Workspace.files_of Sandbox.boilerplate map app fst snd In] in R;
      repeat (destruct R as [R|R]; [injection R as <- <-; cbn; tauto|]);
      destruct R.
  - intros I.
    destruct template; cbn [Workspace.template_entries In] in I;
      repeat (destruct I as [I|I]; [first [discriminate I|injection I as <- <-; reflexivity]|]);
      destruct I.
Qed.

(** The paths of a template are made of proper names. *)
Lemma template_entries_named (template : ProjectTemplate) (projectPath : Path.t)
    (rel : list string) (content : option string) :
  In (rel, content) (Workspace.template_entries template projectPath) ->
  rel <> [] /\ Forall (fun seg => Workspace.is_name seg = true) rel.
Proof.
  intros I.
  destruct template; cbn [Workspace.template_entries In] in I;
    repeat (destruct I as [I|I];
            [injection I as <- _; split; [discriminate|repeat constructor]|]);
    destruct I.
Qed.

Ltac find_in_list x r k :=
  lazymatch r with
  | x :: ?after => k (@nil FileInfo) after
  | ?y :: ?r' => find_in_list x r' ltac:(fun before after => k (y :: before) after)
  end.

Ltac same_entries :=
  repeat lazymatch goal with
    | |- Permutation [] [] => apply perm_nil
    | |- Permutation (?x :: ?l) ?r =>
        find_in_list x r
          ltac:(fun before after => apply (Permutation_cons_app before after x));
        cbn [app]
    end.

(** The listing of the boilerplate shows the entries of the template. *)
Lemma boilerplate_listing (rank : list string -> string -> nat)
    (template : ProjectTemplate) (projectPath : Path.t) :
  Permutation (Sandbox.listNode rank "" (Sandbox.boilerplate template projectPath))
    (map Workspace.listed (Workspace.template_entries template projectPath)).
Proof.
  rewrite listNode_perm.
  destruct template;
    match goal with |- Permutation ?l ?r =>
      let l' := eval vm_compute in l in
      let r' := eval vm_compute in r in
      change (Permutation l' r')
    end;
    same_entries.
Qed.

(** C7. When the project directory exists, [initProject] returns the name
    and the path of the project with a listing, and afterwards the project
    directory holds the files of the template and nothing else, whatever
    was there before:
    - the listing shows, in some order, the directories and the files that
      the template makes, each file with the length of its content;
    - a regular file is found below the project directory exactly when the
      template writes it, and it has the content the template gives it;
    - each file of the template can be read with [readProjectFile].
    So a second call with the same name and template, made in any state in
    which the directory still exists, returns the same entries and leaves
    the same files: what was written in between is gone. *)
Theorem initProject_recreates (self : Sandbox.SandboxTool) (name : string)
    (template : ProjectTemplate) (fs : FS.t) :
  let projectPath := Path.join [Sandbox.workspaceDir self; name] in
  let proj := FS.resolve fs projectPath in
  let entries := Workspace.template_entries template projectPath in
  is_Some (FS.get proj (FS.root fs)) ->
  exists info fs',
    Sandbox.initProject self name template fs = (Normal info, fs')
    /\ Sandbox.name info = name
    /\ Sandbox.project_path info = Path.to_string projectPath
    /\ Permutation (Sandbox.project_files info) (map Workspace.listed entries)
    /\ (forall rel content,
          FS.read (proj ++ rel) (FS.root fs') = Some content <-> In (rel, Some content) entries)
    /\ (forall rel content,
          In (rel, Some content) entries ->
          Sandbox.readProjectFile self name (JS.join_with "/" rel) fs' = (Normal content, fs'))
    /\ (forall between,
          FS.cwd between = FS.cwd fs ->
          is_Some (FS.get proj (FS.root between)) ->
          exists info2 fs'',
            Sandbox.initProject self name template between = (Normal info2, fs'')
            /\ Permutation (Sandbox.project_files info2) (Sandbox.project_files info)
            /\ (forall rel, FS.read (proj ++ rel) (FS.root fs'')
                            = FS.read (proj ++ rel) (FS.root fs'))).
Proof.
  intros projectPath proj entries E.
  destruct (initProject_returns self name template fs E) as (info & fs' & I).
  destruct (initProject_result self name template fs fs' info I) as (-> & G & C).
  fold projectPath proj in G.
  assert (R : forall rel, FS.read (proj ++ rel) (FS.root fs')
                          = FS.read rel (Sandbox.boilerplate template projectPath)).
  { intros rel. apply read_below. exact G. }
  eexists _, fs'. split; [exact I|].
  cbn [Sandbox.name Sandbox.project_path Sandbox.project_files].
  split; [reflexivity|]. split; [reflexivity|].
  split; [apply boilerplate_listing|]. split; [|split].
  - intros rel content. rewrite R. apply boilerplate_files.
  - intros rel content In_e.
    destruct (template_entries_named template projectPath rel _ In_e) as [Ne Nn].
    destruct (project_path_of_names self name fs' rel Ne Nn) as [Res _].
    unfold Sandbox.readProjectFile, FS.readFile. rewrite Res.
    replace (Workspace.project_dir self name fs') with proj
      by (unfold proj, Workspace.project_dir, FS.resolve; rewrite C; reflexivity).
    rewrite R. apply boilerplate_files in In_e. rewrite In_e. reflexivity.
  - intros between Cb Eb.
    assert (P : FS.resolve between projectPath = proj).
    { unfold proj, FS.resolve. rewrite Cb. reflexivity. }
    rewrite <- P in Eb.
    destruct (initProject_returns self name template between Eb) as (info2 & fs2 & I2).
    destruct (initProject_result self name template between fs2 info2 I2) as (-> & G2 & _).
    fold projectPath in G2. rewrite P in G2.
    eexists _, fs2. split; [exact I2|].
    cbn [Sandbox.project_files]. split.
    + fold projectPath. rewrite !boilerplate_listing. reflexivity.
    + intros rel. rewrite R. apply read_below. exact G2.
Qed.

End Recreation.

(** C7 in the workspace [/ws]: the project [proj] is initialized, a file
    [notes.txt] is written into it, and the project is initialized again. *)
Lemma initProject_recreates_witness :
  let fs :=
    snd (Sandbox.writeProjectFile Demo.sandbox "proj" "notes.txt" "remember the milk"
           (snd (Sandbox.initProject Demo.sandbox "proj" html Demo.empty_disk))) in
  let projectPath := Path.join ["/ws"; "proj"] in
  let proj := ["ws"; "proj"] in
  let entries := Workspace.template_entries html projectPath in
  exists info fs',
    Sandbox.initProject Demo.sandbox "proj" html fs = (Normal info, fs')
    /\ Sandbox.name info = "proj"
    /\ Sandbox.project_path info = "/ws/proj"
    /\ Permutation (Sandbox.project_files info) (map Workspace.listed entries)
    /\ (forall rel content,
          FS.read (proj ++ rel) (FS.root fs') = Some content <-> In (rel, Some content) entries)
    /\ (forall rel content,
          In (rel, Some content) entries ->
          Sandbox.readProjectFile Demo.sandbox "proj" (JS.join_with "/" rel) fs'
          = (Normal content, fs'))
    /\ (forall between,
          FS.cwd between = FS.cwd fs ->
          is_Some (FS.get proj (FS.root between)) ->
          exists info2 fs'',
            Sandbox.initProject Demo.sandbox "proj" html between = (Normal info2, fs'')
            /\ Permutation (Sandbox.project_files info2) (Sandbox.project_files info)
            /\ (forall rel, FS.read (proj ++ rel) (FS.root fs'')
                            = FS.read (proj ++ rel) (FS.root fs'))).
Proof.
  intros fs projectPath proj entries.
  apply (initProject_recreates Demo.sandbox "proj" html fs).
  vm_compute. eexists. reflexivity.
Defined.

(** The same run, computed: the note is there before the second call and
    gone after it, and the second call leaves the files of the first. *)
Example initProject_twice_example :
  let first := Sandbox.initProject Demo.sandbox "proj" html Demo.empty_disk in
  let written :=
    snd (Sandbox.writeProjectFile Demo.sandbox "proj" "notes.txt" "remember the milk"
           (snd first)) in
  let second := Sandbox.initProject Demo.sandbox "proj" html written in
  FS.read ["ws"; "proj"; "notes.txt"] (FS.root written) = Some "remember the milk"
  /\ FS.read ["ws"; "proj"; "notes.txt"] (FS.root (snd second)) = None
  /\ FS.read ["ws"; "proj"; "index.html"] (FS.root (snd second))
     = FS.read ["ws"; "proj"; "index.html"] (FS.root (snd first)).
Proof. vm_compute. repeat split; reflexivity. Qed.

(** The listing follows the order of [readdir]: on a disk that lists names
    in the order they were made, and on one that lists [index.html] first
    and [script.js] second. *)
Example listing_follows_readdir :
  let sorted (names : list string) (name : string) : nat :=
    if String.eqb name "index.html" then 0 else if String.eqb name "script.js" then 1 else 2 in
  let paths (disk : FS.t) : list string :=
    match fst (Sandbox.initProject Demo.sandbox "proj" html disk) with
    | Normal info => map info_path (Sandbox.project_files info)
    | Throw _ => []
    end in
  paths Demo.empty_disk = ["index.html"; "style.css"; "script.js"]
  /\ paths (FS.mk (FS.Dir []) [] sorted) = ["index.html"; "script.js"; "style.css"].
Proof. vm_compute. split; reflexivity. Qed.

Lemma visible_files_are_listed_witness :
  let fs := snd (Sandbox.writeProjectFile Demo.sandbox "proj" "src/app.js" "let x = 1;"
                   Demo.empty_disk) in
  exists listing,
    Sandbox.listFiles Demo.sandbox "proj" "" fs = (Normal listing, fs)
    /\ In (mkFileInfo (JS.join_with "/" ["src"; "app.js"]) file_t
             (Some (String.length "let x = 1;"))) listing.
Proof.
  intros fs.
  apply (visible_files_are_listed Demo.sandbox "proj" fs ["src"; "app.js"] "let x = 1;").
  - discriminate.
  - repeat constructor.
  - repeat constructor.
  - reflexivity.
Defined.

(** ** What [chatJSON] parses *)

Section Fences.
Context `{Runtime}.

Lemma prefix_append (sep rest : string) : String.prefix sep (sep +:+ rest) = true.
Proof.
  induction sep as [|c sep IH]; [apply prefix_empty|].
  rewrite append_cons. cbn [String.prefix].
  destruct (ascii_dec c c); [exact IH|congruence].
Qed.

Lemma rev_app_append (a b c : string) :
  String.rev_app (String.rev_app a b) c = String.rev_app b (a +:+ c).
Proof.
  revert b. induction a as [|x a IH]; intros b; [reflexivity|].
  cbn [String.rev_app]. rewrite IH. reflexivity.
Qed.

Lemma rev_rev_app (a cur : string) :
  String.rev (String.rev_app a cur) = String.rev cur +:+ a.
Proof.
  unfold String.rev. rewrite rev_app_append, append_empty_r.
  revert a. induction cur as [|x cur IH]; intros a; [reflexivity|].
  cbn [String.rev_app]. rewrite (IH (String x a)), (IH (String x "")).
  rewrite append_assoc'. reflexivity.
Qed.

Lemma rev_cons (c : ascii) (cur : string) :
  String.rev (String c cur) = String.rev cur +:+ String c "".
Proof. apply (rev_rev_app (String c "") cur). Qed.

Lemma no_tick_cons (x : ascii) (s : string) :
  JS.includes "`" (String x s) = false -> x <> "`"%char /\ JS.includes "`" s = false.
Proof.
  cbn [JS.includes String.prefix]. intros E.
  apply orb_false_iff in E as [P I]. split; [|exact I].
  intros ->. cbn in P. rewrite prefix_empty in P. discriminate.
Qed.

Lemma prefix_other (c x : ascii) (sep s : string) :
  x <> c -> String.prefix (String c sep) (String x s) = false.
Proof. intros N. cbn [String.prefix]. destruct (ascii_dec c x); [congruence|reflexivity]. Qed.

(** Splitting runs over a text that has no backtick without finding a
    separator that starts with one. *)
Lemma split_go_over (sep' pre s : string) :
  JS.includes "`" pre = false ->
  forall cur,
    JS.split_go (String "`" sep') (pre +:+ s) 0 cur
    = JS.split_go (String "`" sep') s 0 (String.rev_app pre cur).
Proof.
  induction pre as [|x pre IH]; intros N cur; [reflexivity|].
  apply no_tick_cons in N as [Nx N].
  rewrite append_cons. cbn [JS.split_go String.rev_app].
  rewrite (prefix_other _ _ _ _ Nx). apply (IH N).
Qed.

Lemma split_go_skip (sep t rest cur : string) :
  JS.split_go sep (t +:+ rest) (String.length t) cur = JS.split_go sep rest 0 cur.
Proof.
  induction t as [|c t IH]; [reflexivity|].
  rewrite append_cons. cbn [String.length JS.split_go]. exact IH.
Qed.

Lemma split_go_at (c : ascii) (sep' rest cur : string) :
  JS.split_go (String c sep') (String c sep' +:+ rest) 0 cur
  = String.rev cur :: JS.split_go (String c sep') rest 0 "".
Proof.
  rewrite append_cons. cbn [JS.split_go]. rewrite <- append_cons, prefix_append.
  cbn [String.length].
  replace (S (String.length sep') - 1) with (String.length sep') by lia.
  rewrite split_go_skip. reflexivity.
Qed.

(** The first piece starts with what was read so far. *)
Lemma split_go_head (sep s : string) :
  forall skip cur, exists h t, JS.split_go sep s skip cur = (String.rev cur +:+ h) :: t.
Proof.
  induction s as [|c s IH]; intros skip cur.
  - exists "", []. cbn. rewrite append_empty_r. reflexivity.
  - cbn [JS.split_go]. destruct skip as [|k]; [|apply IH].
    destruct (String.prefix sep (String c s)).
    + eexists "", _. rewrite append_empty_r. reflexivity.
    + destruct (IH 0 (String c cur)) as (h & t & ->).
      exists (String c h), t. rewrite rev_cons, append_assoc'. reflexivity.
Qed.

(** A text without a backtick, up to the end or to a fence, is the first
    piece of the split at the fence. *)
Lemma split_fence_first (body rest : string) :
  JS.includes "`" body = false ->
  rest = "" \/ (exists rest', rest = LLM.fence +:+ rest') ->
  exists t, JS.split LLM.fence (body +:+ rest) = body :: t.
Proof.
  intros N R. unfold JS.split, LLM.fence.
  rewrite (split_go_over _ _ _ N).
  destruct R as [->|[rest' ->]].
  - exists []. cbn [JS.split_go]. rewrite rev_rev_app. reflexivity.
  - unfold LLM.fence. rewrite split_go_at, rev_rev_app. eexists. reflexivity.
Qed.

Lemma includes_at (sep pre rest : string) :
  JS.includes sep (pre +:+ sep +:+ rest) = true.
Proof.
  induction pre as [|x pre IH].
  - change ("" +:+ sep +:+ rest) with (sep +:+ rest).
    destruct (sep +:+ rest) eqn:E; cbn [JS.includes]; rewrite <- E, prefix_append; reflexivity.
  - rewrite append_cons. cbn [JS.includes]. rewrite IH. apply orb_true_r.
Qed.

(** The piece that follows a [json] fence, when the text after the fence
    has no backtick up to its end or to the closing fence. *)
Lemma split_json_fence_second (body tail : string) :
  JS.includes "`" body = false ->
  tail = "" \/ (exists post, tail = LLM.fence +:+ post /\ JS.startsWith "`" post = false) ->
  exists rest t,
    JS.split (LLM.fence +:+ "json") (body +:+ tail) = (body +:+ rest) :: t
    /\ (rest = "" \/ exists rest', rest = LLM.fence +:+ rest').
Proof.
  intros N R. unfold JS.split. change (LLM.fence +:+ "json") with (String "`" "``json").
  rewrite (split_go_over _ _ _ N).
  destruct R as [->|(post & -> & P)].
  - exists "", []. cbn [JS.split_go]. rewrite rev_rev_app, append_empty_r.
    split; [reflexivity|left; reflexivity].
  - change (LLM.fence +:+ post) with (String "`" (String "`" (String "`" post))).
    assert (P2 : String.prefix (String "`" "``json") (String "`" (String "`" post)) = false).
    { destruct post as [|b post]; [reflexivity|].
      unfold JS.startsWith in P. cbn [String.prefix] in P |- *.
      destruct (ascii_dec "`" "`"); [|congruence].
      destruct (ascii_dec "`" b); [rewrite prefix_empty in P; discriminate|reflexivity]. }
    assert (P3 : String.prefix (String "`" "``json") (String "`" post) = false).
    { destruct post as [|b post]; [reflexivity|].
      unfold JS.startsWith in P. cbn [String.prefix] in P |- *.
      destruct (ascii_dec "`" "`"); [|congruence].
      destruct (ascii_dec "`" b); [rewrite prefix_empty in P; discriminate|reflexivity]. }
    cbn [JS.split_go].
    destruct (String.prefix (String "`" "``json") (String "`" (String "`" (String "`" post)))).
    + eexists "", _. rewrite rev_rev_app, append_empty_r.
      split; [reflexivity|left; reflexivity].
    + cbn [JS.split_go]. rewrite P2. cbn [JS.split_go]. rewrite P3.
      destruct (split_go_head (String "`" "``json") post 0
                  (String "`" (String "`" (String "`" (String.rev_app body "")))))
        as (h & t & ->).
      exists (LLM.fence +:+ h), t. split; [|right; eexists; reflexivity].
      rewrite !rev_cons, rev_rev_app, !append_assoc'. reflexivity.
Qed.

(** X1. A [json] fence in the answer. When the model's answer holds a text
    without backtick, then a [json] fence, then a body without backtick up
    to the end of the answer or to a closing fence (not followed by a
    further backtick), [chatJSON] parses the body, trimmed: what comes
    before the fence and after the closing one is dropped. *)
Theorem chatJSON_reads_json_fence {T} (parse : string -> Completion T)
    (self : LLM.LLMClient) (messages : list Message) (w : World) (pre body tail : string) :
  JS.includes "`" pre = false ->
  JS.includes "`" body = false ->
  tail = "" \/ (exists post, tail = LLM.fence +:+ post /\ JS.startsWith "`" post = false) ->
  fst (LLM.chat self messages w)
  = Normal (pre +:+ LLM.fence +:+ "json" +:+ body +:+ tail) ->
  LLM.chatJSON parse self messages w
  = (parse (trim body), with_llm_calls (S (llm_calls w)) w).
Proof.
  intros Np Nb R C.
  unfold LLM.chatJSON. rewrite bind_run.
  revert C. unfold LLM.chat.
  destruct (completions_create _ _) as [content|e]; cbn [fst]; [|discriminate].
  intros [= ->]. f_equal. f_equal. unfold LLM.extract_json. f_equal.
  change (pre +:+ LLM.fence +:+ "json" +:+ body +:+ tail)
    with (pre +:+ (LLM.fence +:+ "json") +:+ body +:+ tail).
  rewrite includes_at. unfold LLM.between_fences.
  unfold JS.split at 1. change (LLM.fence +:+ "json") with (String "`" "``json").
  rewrite (split_go_over _ _ _ Np), split_go_at.
  destruct (split_json_fence_second body tail Nb R) as (rest & t & S2 & Rr).
  unfold JS.split in S2. change (LLM.fence +:+ "json") with (String "`" "``json") in S2.
  rewrite S2.
  destruct (split_fence_first body rest Nb Rr) as (t' & ->). reflexivity.
Qed.

(** X2. A plain fence in the answer. When the answer has no [json] fence and
    holds a text without backtick, then a fence, then a body without
    backtick up to the end of the answer or to a closing fence,
    [chatJSON] parses the body, trimmed. *)
Theorem chatJSON_reads_plain_fence {T} (parse : string -> Completion T)
    (self : LLM.LLMClient) (messages : list Message) (w : World) (pre body tail : string) :
  JS.includes (LLM.fence +:+ "json") (pre +:+ LLM.fence +:+ body +:+ tail) = false ->
  JS.includes "`" pre = false ->
  JS.includes "`" body = false ->
  tail = "" \/ (exists post, tail = LLM.fence +:+ post) ->
  fst (LLM.chat self messages w) = Normal (pre +:+ LLM.fence +:+ body +:+ tail) ->
  LLM.chatJSON parse self messages w
  = (parse (trim body), with_llm_calls (S (llm_calls w)) w).
Proof.
  intros Nj Np Nb R C.
  unfold LLM.chatJSON. rewrite bind_run.
  revert C. unfold LLM.chat.
  destruct (completions_create _ _) as [content|e]; cbn [fst]; [|discriminate].
  intros [= ->]. f_equal. f_equal. unfold LLM.extract_json. f_equal.
  rewrite Nj, includes_at. unfold LLM.between_fences.
  unfold JS.split at 1. unfold LLM.fence at 1 2.
  rewrite (split_go_over _ _ _ Np), split_go_at.
  destruct (split_fence_first body tail Nb R) as (t & S2).
  unfold JS.split, LLM.fence in S2. rewrite S2.
  destruct (split_fence_first body "" Nb (or_introl eq_refl)) as (t' & S3).
  rewrite append_empty_r in S3. rewrite S3. reflexivity.
Qed.

End Fences.

Lemma chatJSON_reads_json_fence_witness :
  LLM.chatJSON (H:=Demo.fenced) (JSON_parse_steps (Runtime:=Demo.fenced)) (Coder.llm Demo.coder)
    [mkMessage user "plan"] (Demo.fresh_world (Some "k"))
  = (JSON_parse_steps (Runtime:=Demo.fenced) (trim (Runtime:=Demo.fenced) "{ }"), with_llm_calls 1 (Demo.fresh_world (Some "k"))).
Proof.
  apply (chatJSON_reads_json_fence (H:=Demo.fenced) (JSON_parse_steps (Runtime:=Demo.fenced)) (Coder.llm Demo.coder)
           [mkMessage user "plan"] (Demo.fresh_world (Some "k"))
           "Here is the plan:" "{ }" (LLM.fence +:+ " Anything else?")).
  - reflexivity.
  - reflexivity.
  - right. exists " Anything else?". split; reflexivity.
  - reflexivity.
Defined.

Lemma chatJSON_reads_plain_fence_witness :
  LLM.chatJSON (H:=Demo.fenced) (JSON_parse_steps (Runtime:=Demo.fenced)) (Coder.llm Demo.coder)
    [mkMessage user "plan"] (with_llm_calls 1 (Demo.fresh_world (Some "k")))
  = (JSON_parse_steps (Runtime:=Demo.fenced) (trim (Runtime:=Demo.fenced) "[ ]"), with_llm_calls 2 (Demo.fresh_world (Some "k"))).
Proof.
  apply (chatJSON_reads_plain_fence (H:=Demo.fenced) (JSON_parse_steps (Runtime:=Demo.fenced)) (Coder.llm Demo.coder)
           [mkMessage user "plan"] (with_llm_calls 1 (Demo.fresh_world (Some "k")))
           "Here is the plan:" "[ ]" (LLM.fence +:+ " Anything else?")).
  - reflexivity.
  - reflexivity.
  - reflexivity.
  - right. exists " Anything else?". reflexivity.
  - reflexivity.
Defined.

(** ** The research path *)

Section ResearchProperties.
Context `{Runtime}.

Lemma with_nanoid_calls_twice (a b : nat) (w : World) :
  with_nanoid_calls a (with_nanoid_calls b w) = with_nanoid_calls a w.
Proof. reflexivity. Qed.

(** One identifier is drawn for each step, in order. *)
Lemma map_steps_run (steps : list StepJSON) :
  forall w,
    exists plan,
      Planner.map_steps steps w
      = (Normal plan, with_nanoid_calls (nanoid_calls w + length steps) w)
      /\ length plan = length steps
      /\ map id plan = map nanoid (seq (nanoid_calls w) (length steps))
      /\ Forall (fun s => status s = pending) plan
      /\ map (fun s => (title s, tool s, input s)) plan
         = map (fun s => (sj_title s, sj_tool s, sj_input s)) steps.
Proof.
  induction steps as [|st steps IH]; intros w.
  - exists []. cbn. rewrite Nat.add_0_r. destruct w. repeat split. constructor.
  - cbn [Planner.map_steps]. rewrite bind_run. unfold Planner.fresh_id at 1.
    destruct (IH (with_nanoid_calls (S (nanoid_calls w)) w)) as (plan & E & L & I & P & T).
    rewrite bind_run, E. cbn [nanoid_calls with_nanoid_calls] in *.
    eexists. split; [|split; [|split; [|split]]].
    + unfold JS.ret. f_equal. cbn [length].
      replace (nanoid_calls w + S (length steps)) with (S (nanoid_calls w + length steps)) by lia.
      reflexivity.
    + cbn [length]. rewrite L. reflexivity.
    + cbn [map length seq id]. rewrite I. reflexivity.
    + constructor; [reflexivity|exact P].
    + cbn [map title tool input]. rewrite T. reflexivity.
Qed.

(** The three steps of the fallback plan, with the identifiers drawn for
    them. *)
Lemma fallback_steps_run (goal : string) (w : World) :
  exists plan,
    JS.bind Planner.fresh_id (fun id1 =>
      JS.bind Planner.fresh_id (fun id2 =>
        JS.bind Planner.fresh_id (fun id3 =>
          JS.ret [mkPlanStep id1 "搜尋相關資料" "browser.search" goal pending;
                  mkPlanStep id2 "分析搜尋結果" "browser.extract"
                    "Extract main content" pending;
                  mkPlanStep id3 "生成報告" "generate_report" goal pending]))) w
    = (Normal plan, with_nanoid_calls (nanoid_calls w + length plan) w)
    /\ map id plan = map nanoid (seq (nanoid_calls w) (length plan))
    /\ Forall (fun s => status s = pending) plan
    /\ map (fun s => (title s, tool s, input s)) plan
       = [("搜尋相關資料", "browser.search", goal);
          ("分析搜尋結果", "browser.extract", "Extract main content");
          ("生成報告", "generate_report", goal)].
Proof.
  exists [mkPlanStep (nanoid (nanoid_calls w)) "搜尋相關資料" "browser.search" goal pending;
          mkPlanStep (nanoid (S (nanoid_calls w))) "分析搜尋結果" "browser.extract"
            "Extract main content" pending;
          mkPlanStep (nanoid (S (S (nanoid_calls w)))) "生成報告" "generate_report"
            goal pending].
  split; [|split; [|split]].
  - unfold JS.bind, Planner.fresh_id, JS.ret.
    cbn [nanoid_calls with_nanoid_calls length].
    replace (nanoid_calls w + 3) with (S (S (S (nanoid_calls w)))) by lia. reflexivity.
  - reflexivity.
  - repeat constructor.
  - reflexivity.
Qed.


(** X5. [analyzeContentType] never throws, asks the model once and always
    returns one of the six report types. It returns the model's answer,
    lower-cased and trimmed, when that is one of them. When the request
    fails or the answer is anything else, the type comes from the words of
    the goal in lower case: [tutorial], [comparison], [reference], [list]
    or [overview] for the first of their lists of keywords that has a word
    occurring in the goal, and [report] when none has. *)
Theorem analyzeContentType_valid (self : Planner.Planner) (goal : string)
    (contents : list string) (w : World) :
  let preview := JS.slice0 2000 (JS.join_with newline (take 3 contents)) in
  let answer :=
    fst (LLM.chat (Planner.llm self)
           [mkMessage user (Planner.content_type_prompt goal preview)] w) in
  let goal_has (keywords : list string) : bool :=
    existsb (fun k => JS.includes k (toLowerCase goal)) keywords in
  let from_goal : string :=
    if goal_has ["教學"; "教程"; "how to"; "步驟"; "tutorial"] then "tutorial"
    else if goal_has ["比較"; "對比"; "vs"; "差異"] then "comparison"
    else if goal_has ["api"; "參考"; "reference"; "文件"] then "reference"
    else if goal_has ["推薦"; "列表"; "top"; "最佳"] then "list"
    else if goal_has ["什麼是"; "介紹"; "概述"; "入門"] then "overview"
    else "report" in
  exists type,
    Planner.analyzeContentType self goal contents w
    = (Normal type, with_llm_calls (S (llm_calls w)) w)
    /\ In type ["tutorial"; "comparison"; "report"; "reference"; "list"; "overview"]
    /\ (forall result,
          answer = Normal result ->
          In (trim (toLowerCase result))
            ["tutorial"; "comparison"; "report"; "reference"; "list"; "overview"] ->
          type = trim (toLowerCase result))
    /\ ((forall result,
           answer = Normal result ->
           ~ In (trim (toLowerCase result))
               ["tutorial"; "comparison"; "report"; "reference"; "list"; "overview"]) ->
        type = from_goal).
Proof.
  intros preview answer goal_has from_goal. subst answer.
  change ["tutorial"; "comparison"; "report"; "reference"; "list"; "overview"]
    with Planner.validTypes.
  assert (Fallback : forall w',
             exists type,
               ((if Planner.some_included ["教學"; "教程"; "how to"; "步驟"; "tutorial"]
                      (toLowerCase goal) then JS.ret "tutorial"
                else if Planner.some_included ["比較"; "對比"; "vs"; "差異"] (toLowerCase goal)
                     then JS.ret "comparison"
                else if Planner.some_included ["api"; "參考"; "reference"; "文件"]
                          (toLowerCase goal) then JS.ret "reference"
                else if Planner.some_included ["推薦"; "列表"; "top"; "最佳"] (toLowerCase goal)
                     then JS.ret "list"
                else if Planner.some_included ["什麼是"; "介紹"; "概述"; "入門"]
                          (toLowerCase goal) then JS.ret "overview"
                else JS.ret "report") : M World string) w' = (Normal type, w')
               /\ In type Planner.validTypes
               /\ type = from_goal).
  { intros w'. subst from_goal goal_has. unfold Planner.some_included. cbv beta.
    repeat match goal with
           | |- context [if existsb ?f ?l then _ else _] => destruct (existsb f l)
           end;
      (eexists; split; [reflexivity|]; split;
       [unfold Planner.validTypes; cbn [In]; auto 10|reflexivity]). }
  unfold Planner.analyzeContentType. fold preview.
  rewrite bind_run. unfold JS.try_catch. rewrite bind_run.
  unfold LLM.chat.
  destruct (completions_create _ _) as [content|e]; cbn [fst].
  - destruct (existsb _ Planner.validTypes) eqn:V.
    + assert (I : In (trim (toLowerCase (JS.nullish content ""))) Planner.validTypes).
      { apply existsb_exists in V as (t & I & E). apply String.eqb_eq in E as ->. exact I. }
      eexists. split; [reflexivity|]. split; [exact I|]. split.
      * intros result [= <-] _. reflexivity.
      * intros No. destruct (No _ eq_refl I).
    + assert (N : forall result,
                 Normal (JS.nullish content "") = Normal result ->
                 In (trim (toLowerCase result)) Planner.validTypes -> False).
      { intros result [= <-] I.
        assert (V' : existsb (String.eqb (trim (toLowerCase (JS.nullish content ""))))
                       Planner.validTypes = true).
        { apply existsb_exists. eexists. split; [exact I|]. apply String.eqb_refl. }
        congruence. }
      cbn zeta.
      destruct (Fallback (with_llm_calls (S (llm_calls w)) w)) as (type & E & I & F).
      exists type. split; [exact E|]. split; [exact I|]. split.
      * intros r Er Ir. destruct (N r Er Ir).
      * intros _. exact F.
  - cbn zeta.
    destruct (Fallback (with_llm_calls (S (llm_calls w)) w)) as (type & E & I & F).
    exists type. split; [exact E|]. split; [exact I|]. split.
    + discriminate.
    + intros _. exact F.
Qed.

(** [createPlan] always returns, having asked the model once and drawn one
    identifier for each step. *)
Lemma createPlan_world (self : Planner.Planner) (goal : string) (w : World) :
  exists plan,
    Planner.createPlan self goal w
    = (Normal plan,
       with_nanoid_calls (nanoid_calls w + length plan) (with_llm_calls (S (llm_calls w)) w)).
Proof.
  unfold Planner.createPlan, JS.try_catch. rewrite bind_run.
  unfold LLM.chatJSON, LLM.chat. rewrite bind_run.
  destruct (fallback_steps_run goal (with_llm_calls (S (llm_calls w)) w)) as (fallback & F & _).
  cbn [nanoid_calls with_llm_calls] in F.
  destruct (completions_create _ _) as [content|e].
  - destruct (JSON_parse_steps _) as [[steps|]|e].
    + destruct (map_steps_run steps (with_llm_calls (S (llm_calls w)) w))
        as (plan & E & L & _).
      rewrite E, <- L. eexists. reflexivity.
    + exists fallback. exact F.
    + exists fallback. exact F.
  - exists fallback. exact F.
Qed.

(** With a report type given, [generateReport] is one request to the
    model, and what that request throws is thrown. *)
Lemma generateReport_of_type (self : Planner.Planner) (goal : string)
    (sources : list (string * string)) (contents : list string) (type : string) (w : World) :
  JS.truthy type = true ->
  Planner.generateReport self goal sources contents (Some type) w
  = LLM.chat (Planner.llm self)
      [mkMessage user
         (Planner.report_prompt goal type
            (JS.join_with newline (map (fun s => "- " +:+ fst s +:+ ": " +:+ snd s) sources))
            (JS.slice0 8000
               (JS.join_with (newline +:+ newline +:+ "---" +:+ newline +:+ newline)
                  (take 5 contents))))] w.
Proof. intros T. unfold Planner.generateReport. rewrite T. reflexivity. Qed.

(** X6. [runResearch] asks the model twice, once for the plan and once for the
    report, and touches no file. It sends the planning phase, progress 10,
    the number of steps of the plan, the writing phase and progress 50;
    then, when the request of the report is answered, progress 100, the
    complete phase and [done] with the report. When that request fails its
    error is thrown after progress 50. The report type is always
    [overview]; the plan is not used any further. *)
Theorem runResearch_events (taskId goal : string) (planner : Planner.Planner) (w : World) :
  let w0 := with_sent (sent w ++ [Protocol.phase Protocol.planning; Protocol.progress 10]) w in
  exists plan,
    fst (Planner.createPlan planner goal w0) = Normal plan
    /\ let result := Server.runResearch taskId goal planner w in
       fs (snd result) = fs w
       /\ llm_calls (snd result) = llm_calls w + 2
       /\ match completions_create (S (llm_calls w))
                  (LLM.request (Planner.llm planner)
                     [mkMessage user (Planner.report_prompt goal "overview" "" "")] false) with
          | Normal content =>
              fst result = Normal tt
              /\ sent (snd result)
                 = sent w ++ Stream.research_opening (length plan)
                   ++ Stream.research_closing taskId (JS.nullish content "")
          | Throw e =>
              fst result = Throw e
              /\ sent (snd result) = sent w ++ Stream.research_opening (length plan)
          end.
Proof.
  intros w0.
  destruct (createPlan_world planner goal w0) as (plan & P).
  exists plan. split; [rewrite P; reflexivity|].
  cbn zeta. unfold Server.runResearch.
  rewrite !bind_ws_send. cbn [sent with_sent]. rewrite with_sent_twice.
  rewrite <- app_assoc. cbn [app]. fold w0.
  rewrite bind_run, P.
  rewrite !bind_ws_send. cbn [sent with_sent with_nanoid_calls with_llm_calls].
  rewrite !with_sent_twice.
  rewrite bind_run, generateReport_of_type by reflexivity.
  unfold LLM.chat.
  change (JS.join_with newline (map _ [])) with "".
  change (JS.slice0 8000 _) with "".
  unfold w0. cbn [llm_calls with_sent with_nanoid_calls with_llm_calls sent fs].
  destruct (completions_create _ _) as [content|e].
  - rewrite !bind_ws_send. unfold ws_send, JS.modify.
    cbn [fst snd sent fs llm_calls with_sent with_llm_calls with_nanoid_calls].
    split; [reflexivity|]. split; [lia|]. split; [reflexivity|].
    unfold Stream.research_opening, Stream.research_closing.
    rewrite <- !app_assoc. reflexivity.
  - cbn [fst snd sent fs llm_calls with_sent with_llm_calls with_nanoid_calls].
    split; [reflexivity|]. split; [lia|]. split; [reflexivity|].
    unfold Stream.research_opening. rewrite <- !app_assoc. reflexivity.
Qed.

End ResearchProperties.

(** X5 on a goal that asks how to do something, with a model that answers
    with a word that is no report type. *)
Lemma analyzeContentType_valid_witness :
  fst (Planner.analyzeContentType (H:=Demo.five_files)
         (Planner.new_Planner (Server.agent_options None "k")) "How to bake bread" []
         (Demo.fresh_world (Some "k")))
  = Normal "tutorial".
Proof.
  destruct (analyzeContentType_valid (H:=Demo.five_files)
              (Planner.new_Planner (Server.agent_options None "k")) "How to bake bread" []
              (Demo.fresh_world (Some "k"))) as (type & E & _ & _ & F).
  rewrite E. cbn [fst]. f_equal. rewrite F; [reflexivity|].
  intros result [= <-] I.
  repeat (destruct I as [I|I]; [discriminate I|]). destruct I.
Defined.

(** ** The shape of a session *)

Section SessionShape.
Context `{Runtime}.

Lemma classifyTask_returns (self : Planner.Planner) (goal : string) (w : World) :
  exists c w', Planner.classifyTask self goal w = (Normal c, w').
Proof.
  unfold Planner.classifyTask.
  destruct (Nat.eqb _ 0 && Nat.eqb _ 0).
  - unfold Planner.llmClassifyTask, JS.try_catch. rewrite bind_run.
    destruct (LLM.chatJSON _ _ _ w) as [[[r|]|e] w1]; eexists _, _; reflexivity.
  - destruct (Nat.ltb _ _); eexists _, _; reflexivity.
Qed.

(** A session that passed the validation: the classification, its event,
    then the code path or the research path under the handler's [catch]. *)
Lemma onMessage_session (sandbox : Sandbox.SandboxTool) (taskId data : string)
    (message : StartMessage) (w w2 : World) (c : TaskClassification) :
  JSON_parse_start data = Normal (Some message) ->
  Server.present (sm_goal message) = true ->
  Server.present (DEEPSEEK_API_KEY w) = true ->
  let goal := default "" (sm_goal message) in
  let options := Server.agent_options (sm_model message) (default "" (DEEPSEEK_API_KEY w)) in
  Planner.classifyTask (Planner.new_Planner options) goal (with_history [] w) = (Normal c, w2) ->
  Server.onMessage sandbox taskId data w
  = JS.try_catch
      match type c with
      | code =>
          Server.runCodeGeneration taskId goal (default html (template c))
            (Coder.mkCoder (LLM.new_LLMClient options)) sandbox
      | research => Server.runResearch taskId goal (Planner.new_Planner options)
      end
      (fun error => ws_send (Protocol.error (JS.message error)))
      (with_sent (sent w2 ++ [Protocol.classification (type c) (template c) (confidence c)
                                (reason c)]) w2).
Proof.
  intros P G K goal options C.
  unfold Server.onMessage, JS.try_catch. rewrite bind_run, P, G. cbn [negb].
  rewrite bind_run. unfold JS.gets at 1. rewrite K. cbn [negb].
  rewrite bind_run. unfold Coder.new_Coder at 1. rewrite bind_run.
  unfold JS.modify at 1, JS.ret at 1.
  fold goal options. rewrite bind_run, C. rewrite bind_ws_send.
  destruct (type c); reflexivity.
Qed.

Lemma forallb_chunks (P : Protocol.Event -> bool) (p : string) (chunks : list string) :
  (forall chunk, P (Protocol.file_chunk p chunk) = true) ->
  forallb P (map (Protocol.file_chunk p) chunks) = true.
Proof.
  intros A. induction chunks as [|c chunks IH]; [reflexivity|].
  cbn. rewrite A, IH. reflexivity.
Qed.

Lemma loop_trace_work (total i : nat) (rest : list FileSpec) (events : list Protocol.Event)
    (finished : bool) :
  Stream.loop_trace total i rest events finished ->
  forallb Stream.is_work events = true.
Proof.
  induction 1 as [i|i f rest events finished T _ IH|i f rest chunks events finished T _ IH
                 |i f rest chunks T].
  - reflexivity.
  - exact IH.
  - unfold Stream.file_block, Stream.file_opening.
    rewrite !forallb_app, IH, forallb_chunks by reflexivity. reflexivity.
  - unfold Stream.file_opening.
    rewrite forallb_app, forallb_chunks by reflexivity. reflexivity.
Qed.

(** The events of the code path: the planning phase first, then working
    events, then [done] when the path ran to its end. *)
Lemma code_trace_shape (taskId : string) (plan : ProjectPlan)
    (events : list Protocol.Event) (finished : bool) :
  Stream.code_trace taskId plan events finished ->
  exists work,
    forallb Stream.is_work work = true
    /\ if finished
       then exists result,
              events = Protocol.phase Protocol.planning :: work
                       ++ [Protocol.done taskId code result]
       else events = Protocol.phase Protocol.planning :: work.
Proof.
  destruct 1 as [|listing body L|listing body names L].
  - eexists. split; [|reflexivity]. reflexivity.
  - apply loop_trace_work in L.
    exists ([Protocol.progress 5; Protocol.progress 10;
             Protocol.step ("Creating project: " +:+ projectName plan) Protocol.step_running]
            ++ Stream.writing_events (projectName plan) listing ++ body).
    split; [|reflexivity].
    rewrite !forallb_app, L. reflexivity.
  - apply loop_trace_work in L.
    exists ([Protocol.progress 5; Protocol.progress 10;
             Protocol.step ("Creating project: " +:+ projectName plan) Protocol.step_running]
            ++ Stream.writing_events (projectName plan) listing ++ body
            ++ [Protocol.progress 100; Protocol.phase Protocol.complete]).
    split.
    + rewrite !forallb_app, L. reflexivity.
    + eexists. unfold Stream.planning_events, Stream.closing_events.
      cbn [app]. rewrite <- !app_assoc. reflexivity.
Qed.

(** The events of the research path, in the same terms. *)
Lemma runResearch_shape (taskId goal : string) (planner : Planner.Planner)
    (w w' : World) (r : Completion unit) :
  Server.runResearch taskId goal planner w = (r, w') ->
  exists work,
    forallb Stream.is_work work = true
    /\ if JS.is_normal r
       then exists result,
              sent w' = sent w ++ Protocol.phase Protocol.planning :: work
                        ++ [Protocol.done taskId research result]
       else sent w' = sent w ++ Protocol.phase Protocol.planning :: work.
Proof.
  unfold Server.runResearch. intros E.
  rewrite !bind_ws_send in E. cbn [sent with_sent] in E. rewrite with_sent_twice in E.
  rewrite bind_run in E.
  match type of E with context [Planner.createPlan planner goal ?w0] =>
    destruct (createPlan_world planner goal w0) as (plan & P) end.
  rewrite P in E.
  rewrite !bind_ws_send in E. cbn [sent with_sent with_nanoid_calls with_llm_calls] in E.
  rewrite !with_sent_twice in E.
  rewrite bind_run, generateReport_of_type in E by reflexivity.
  unfold LLM.chat in E.
  destruct (completions_create _ _) as [content|e].
  - rewrite !bind_ws_send in E. unfold ws_send, JS.modify in E.
    injection E as <- <-. cbn [sent with_sent with_llm_calls JS.is_normal].
    exists [Protocol.progress 10;
            Protocol.step ("Created " +:+ JS.show_nat (length plan) +:+ " steps")
              Protocol.step_done;
            Protocol.phase Protocol.writing; Protocol.progress 50;
            Protocol.progress 100; Protocol.phase Protocol.complete].
    split; [reflexivity|]. eexists. rewrite <- !app_assoc. reflexivity.
  - injection E as <- <-. cbn [sent with_sent with_llm_calls JS.is_normal].
    exists [Protocol.progress 10;
            Protocol.step ("Created " +:+ JS.show_nat (length plan) +:+ " steps")
              Protocol.step_done;
            Protocol.phase Protocol.writing; Protocol.progress 50].
    split; [reflexivity|]. rewrite <- !app_assoc. reflexivity.
Qed.

(** Both paths at once, as the handler runs them. *)
Lemma path_shape (sandbox : Sandbox.SandboxTool) (taskId goal : string)
    (options : LLMOptions) (c : TaskClassification) (w w' : World) (r : Completion unit) :
  match type c with
  | code =>
      Server.runCodeGeneration taskId goal (default html (template c))
        (Coder.mkCoder (LLM.new_LLMClient options)) sandbox
  | research => Server.runResearch taskId goal (Planner.new_Planner options)
  end w = (r, w') ->
  exists work,
    forallb Stream.is_work work = true
    /\ if JS.is_normal r
       then exists result,
              sent w' = sent w ++ Protocol.phase Protocol.planning :: work
                        ++ [Protocol.done taskId (type c) result]
       else sent w' = sent w ++ Protocol.phase Protocol.planning :: work.
Proof.
  destruct (type c); intros E.
  - apply (runResearch_shape _ _ _ _ _ _ E).
  - apply runCodeGeneration_trace in E as (plan & events & _ & Es & T).
    apply code_trace_shape in T as (work & W & S).
    exists work. split; [exact W|].
    destruct (JS.is_normal r).
    + destruct S as [result ->]. exists result. exact Es.
    + subst events. exact Es.
Qed.

(** The run of the handler in this model, where every request to the
    model API settles: it returns, and what it sent is a run of events that
    are neither [done] nor [error], followed by one event that is [done] or
    [error]; a [done] carries the task identifier of the connection. *)
Lemma onMessage_shape (sandbox : Sandbox.SandboxTool)
    (taskId data : string) (w : World) :
  exists events final,
    fst (Server.onMessage sandbox taskId data w) = Normal tt
    /\ sent (snd (Server.onMessage sandbox taskId data w)) = sent w ++ events ++ [final]
    /\ forallb (fun e => negb (Stream.is_terminal e)) events = true
    /\ Stream.is_terminal final = true
    /\ (forall id mode result, final = Protocol.done id mode result -> id = taskId).
Proof.
  assert (One : forall text,
             exists events final,
               fst (Normal tt, with_sent (sent w ++ [Protocol.error text]) w) = Normal tt
               /\ sent (snd (Normal tt, with_sent (sent w ++ [Protocol.error text]) w))
                  = sent w ++ events ++ [final]
               /\ forallb (fun e => negb (Stream.is_terminal e)) events = true
               /\ Stream.is_terminal final = true
               /\ (forall id mode result, final = Protocol.done id mode result -> id = taskId)).
  { intros text. exists [], (Protocol.error text). repeat split. discriminate. }
  destruct (JSON_parse_start data) as [[message|]|e] eqn:P.
  - destruct (Server.present (sm_goal message)) eqn:G.
    + destruct (Server.present (DEEPSEEK_API_KEY w)) eqn:K.
      * destruct (classifyTask_returns
                    (Planner.new_Planner
                       (Server.agent_options (sm_model message) (default "" (DEEPSEEK_API_KEY w))))
                    (default "" (sm_goal message)) (with_history [] w)) as (c & w2 & C).
        rewrite (onMessage_session sandbox taskId data message w w2 c P G K C).
        apply (silent_run _ _ _ _ (silent_classifyTask _ _)) in C. cbn [sent with_history] in C.
        unfold JS.try_catch.
        match goal with |- context [match ?m ?w3 with _ => _ end] =>
          destruct (m w3) as [r w4] eqn:E end.
        apply path_shape in E as (work & W & S). cbn [sent with_sent] in S.
        assert (NT : forall l, forallb Stream.is_work l = true ->
                               forallb (fun e => negb (Stream.is_terminal e)) l = true).
        { intros l A. rewrite forallb_forall in A |- *. intros e I.
          specialize (A e I). unfold Stream.is_work in A.
          apply andb_true_iff in A as [A _]. exact A. }
        destruct r as [[]|e]; cbn [JS.is_normal] in S.
        -- destruct S as [result S].
           eexists (_ :: _ :: work), _. cbn [fst snd].
           split; [reflexivity|]. split.
           { rewrite S, C. rewrite <- !app_assoc. reflexivity. }
           split; [cbn [forallb Stream.is_terminal negb andb]; apply NT, W|].
           split; [reflexivity|]. intros id mode res [= -> _ _]. reflexivity.
        -- unfold ws_send, JS.modify. cbn [fst snd sent with_sent].
           eexists (_ :: _ :: work), _.
           split; [reflexivity|]. split.
           { rewrite S, C. rewrite <- !app_assoc. reflexivity. }
           split; [cbn [forallb Stream.is_terminal negb andb]; apply NT, W|].
           split; [reflexivity|]. discriminate.
      * replace (Server.onMessage sandbox taskId data w)
          with (@Normal unit tt,
                with_sent (sent w ++ [Protocol.error "DEEPSEEK_API_KEY not configured"]) w);
          [apply One|].
        unfold Server.onMessage, JS.try_catch. rewrite bind_run, P, G. cbn [negb].
        rewrite bind_run. unfold JS.gets at 1. rewrite K. reflexivity.
    + replace (Server.onMessage sandbox taskId data w)
        with (@Normal unit tt, with_sent (sent w ++ [Protocol.error "Goal is required"]) w);
        [apply One|].
      unfold Server.onMessage, JS.try_catch. rewrite bind_run, P, G. reflexivity.
  - replace (Server.onMessage sandbox taskId data w)
      with (@Normal unit tt,
            with_sent (sent w ++ [Protocol.error
                                    "Cannot destructure property 'goal' of 'data' as it is null."])
              w);
      [apply One|].
    unfold Server.onMessage, JS.try_catch. rewrite bind_run, P. reflexivity.
  - replace (Server.onMessage sandbox taskId data w)
      with (@Normal unit tt, with_sent (sent w ++ [Protocol.error (JS.message e)]) w);
      [apply One|].
    unfold Server.onMessage, JS.try_catch. rewrite bind_run, P. reflexivity.
Qed.

(** X7. Nothing follows a terminal event. Whatever the message, the model
    and the disk do, a [done] or [error] event, once sent, is the last event
    of the session: no event comes after it, so that no part of what a
    session sends holds more than one of them; and a [done] carries the
    task identifier of the connection. Being a statement about every event
    sent and what follows it, this holds as well of a session observed
    before its end. (Sending on the socket is taken not to fail, as
    everywhere in this development.) *)
Theorem nothing_follows_a_terminal_event (sandbox : Sandbox.SandboxTool)
    (taskId data : string) (w : World) :
  let events :=
    drop (length (sent w)) (sent (snd (Server.onMessage sandbox taskId data w))) in
  sent (snd (Server.onMessage sandbox taskId data w)) = sent w ++ events
  /\ (forall before e after,
        events = before ++ e :: after -> Stream.is_terminal e = true -> after = [])
  /\ (forall before after,
        events = before ++ after -> length (List.filter Stream.is_terminal before) <= 1)
  /\ (forall id mode result, In (Protocol.done id mode result) events -> id = taskId).
Proof.
  intros events.
  destruct (onMessage_shape sandbox taskId data w) as (work & final & _ & Es & W & _ & D).
  assert (Ev : events = work ++ [final]).
  { subst events. rewrite Es. apply drop_app_length. }
  rewrite Ev. clear Ev events.
  assert (Quiet : forall l, forallb (fun e => negb (Stream.is_terminal e)) l = true ->
                            List.filter Stream.is_terminal l = []).
  { induction l as [|e l IH]; [reflexivity|]. cbn [forallb List.filter].
    intros A. apply andb_true_iff in A as [Ne A].
    destruct (Stream.is_terminal e); [discriminate Ne|apply IH, A]. }
  assert (Last : forall before e after,
             work ++ [final] = before ++ e :: after -> Stream.is_terminal e = true ->
             after = []).
  { intros before e after E T.
    destruct after as [|x after] using rev_ind; [reflexivity|]. clear IHafter.
    exfalso.
    change (before ++ e :: after ++ [x]) with (before ++ (e :: after) ++ [x]) in E.
    rewrite app_assoc in E. apply app_inj_tail in E as [-> _].
    rewrite forallb_app in W. apply andb_true_iff in W as [_ W].
    cbn [forallb] in W. rewrite T in W. discriminate W. }
  split; [exact Es|]. split; [exact Last|]. split.
  - intros before after E.
    destruct after as [|x after] using rev_ind.
    + rewrite app_nil_r in E. subst before.
      rewrite List.filter_app, (Quiet work W), length_app. cbn [app List.filter].
      destruct (Stream.is_terminal final); cbn; lia.
    + clear IHafter. rewrite app_assoc in E. apply app_inj_tail in E as [-> _].
      rewrite forallb_app in W. apply andb_true_iff in W as [W _].
      rewrite (Quiet before W). cbn. lia.
  - intros id mode result I. apply in_app_or in I as [I|I].
    + rewrite forallb_forall in W. specialize (W _ I). discriminate W.
    + destruct I as [I|[]]. apply (D id mode result I).
Qed.

(** X8. A session that passes the validation starts with the classification:
    when the message parses to an object whose goal is a non-empty text and
    the key of the model API is set, the first event sent is the
    classification that [classifyTask] returned, the second is the planning
    phase, and no other classification event follows. *)
Theorem classification_comes_first (sandbox : Sandbox.SandboxTool) (taskId data : string)
    (message : StartMessage) (w : World) :
  JSON_parse_start data = Normal (Some message) ->
  Server.present (sm_goal message) = true ->
  Server.present (DEEPSEEK_API_KEY w) = true ->
  let planner :=
    Planner.new_Planner
      (Server.agent_options (sm_model message) (default "" (DEEPSEEK_API_KEY w))) in
  exists c rest,
    fst (Planner.classifyTask planner (default "" (sm_goal message)) (with_history [] w))
    = Normal c
    /\ sent (snd (Server.onMessage sandbox taskId data w))
       = sent w
         ++ Protocol.classification (type c) (template c) (confidence c) (reason c)
            :: Protocol.phase Protocol.planning :: rest
    /\ forallb (fun e => negb (Stream.is_classification e)) rest = true.
Proof.
  intros P G K planner.
  destruct (classifyTask_returns planner (default "" (sm_goal message)) (with_history [] w))
    as (c & w2 & C).
  exists c. rewrite C. cbn [fst].
  rewrite (onMessage_session sandbox taskId data message w w2 c P G K C).
  apply (silent_run _ _ _ _ (silent_classifyTask _ _)) in C. cbn [sent with_history] in C.
  unfold JS.try_catch.
  match goal with |- context [match ?m ?w3 with _ => _ end] =>
    destruct (m w3) as [r w4] eqn:E end.
  apply path_shape in E as (work & W & S). cbn [sent with_sent] in S.
  assert (NC : forallb (fun e => negb (Stream.is_classification e)) work = true).
  { rewrite forallb_forall in W |- *. intros e I.
    specialize (W e I). unfold Stream.is_work in W.
    apply andb_true_iff in W as [_ W]. exact W. }
  destruct r as [[]|e]; cbn [JS.is_normal] in S.
  - destruct S as [result S]. eexists. split; [reflexivity|]. cbn [snd]. split.
    + rewrite S, C. rewrite <- !app_assoc. reflexivity.
    + rewrite forallb_app, NC. reflexivity.
  - unfold ws_send, JS.modify. cbn [snd sent with_sent].
    exists (work ++ [Protocol.error (JS.message e)]). split; [reflexivity|]. split.
    + rewrite S, C. rewrite <- !app_assoc. reflexivity.
    + rewrite forallb_app, NC. reflexivity.
Qed.

End SessionShape.

Lemma classification_comes_first_witness :
  let w := Demo.fresh_world (Some "k") in
  let planner := Planner.new_Planner (Server.agent_options None "k") in
  exists c rest,
    fst (Planner.classifyTask (H:=Demo.scripted) planner "what is GraphQL" (with_history [] w))
    = Normal c
    /\ sent (snd (Server.onMessage (H:=Demo.scripted) Demo.sandbox "t1" "what is GraphQL" w))
       = sent w
         ++ Protocol.classification (type c) (template c) (confidence c) (reason c)
            :: Protocol.phase Protocol.planning :: rest
    /\ forallb (fun e => negb (Stream.is_classification e)) rest = true.
Proof.
  intros w planner.
  apply (classification_comes_first (H:=Demo.scripted) Demo.sandbox "t1" "what is GraphQL"
           (mkStartMessage (Some "what is GraphQL") None None None) w); reflexivity.
Defined.

(** ** What a completed file holds *)

Section Contents.
Context `{Runtime}.

(** The events of a session, whatever happens: one [error], or the
    classification, the events of the path taken, and an [error] when the
    path failed. *)
Lemma onMessage_trace (sandbox : Sandbox.SandboxTool) (taskId data : string) (w : World) :
  exists events,
    sent (snd (Server.onMessage sandbox taskId data w)) = sent w ++ events
    /\ ((exists text, events = [Protocol.error text])
        \/ (exists classified body tail,
              events = classified :: body ++ tail
              /\ Stream.is_classification classified = true
              /\ (tail = [] \/ exists text, tail = [Protocol.error text])
              /\ (Stream.quiet body = true
                  \/ exists plan finished, Stream.code_trace taskId plan body finished))).
Proof.
  assert (One : forall text,
             Server.onMessage sandbox taskId data w
             = (Normal tt, with_sent (sent w ++ [Protocol.error text]) w) ->
             exists events,
               sent (snd (Server.onMessage sandbox taskId data w)) = sent w ++ events
               /\ ((exists text, events = [Protocol.error text])
                   \/ (exists classified body tail,
                         events = classified :: body ++ tail
                         /\ Stream.is_classification classified = true
                         /\ (tail = [] \/ exists text, tail = [Protocol.error text])
                         /\ (Stream.quiet body = true
                             \/ exists plan finished,
                                  Stream.code_trace taskId plan body finished)))).
  { intros text ->. eexists. split; [reflexivity|]. left. eexists. reflexivity. }
  destruct (JSON_parse_start data) as [[message|]|e] eqn:P.
  - destruct (Server.present (sm_goal message)) eqn:G.
    + destruct (Server.present (DEEPSEEK_API_KEY w)) eqn:K.
      * destruct (classifyTask_returns
                    (Planner.new_Planner
                       (Server.agent_options (sm_model message) (default "" (DEEPSEEK_API_KEY w))))
                    (default "" (sm_goal message)) (with_history [] w)) as (c & w2 & C).
        rewrite (onMessage_session sandbox taskId data message w w2 c P G K C).
        apply (silent_run _ _ _ _ (silent_classifyTask _ _)) in C. cbn [sent with_history] in C.
        unfold JS.try_catch.
        match goal with |- context [match ?m ?w3 with _ => _ end] =>
          destruct (m w3) as [r w4] eqn:E end.
        assert (B : exists body,
                   sent w4 = (sent w ++ [Protocol.classification (type c) (template c)
                                           (confidence c) (reason c)]) ++ body
                   /\ (Stream.quiet body = true
                       \/ exists plan finished, Stream.code_trace taskId plan body finished)).
        { destruct (type c).
          - apply runResearch_quiet in E as (body & Es & Q). cbn [sent with_sent] in Es.
            exists body. rewrite Es, C. split; [reflexivity|left; exact Q].
          - apply runCodeGeneration_trace in E as (plan & body & _ & Es & T).
            cbn [sent with_sent] in Es.
            exists body. rewrite Es, C. split; [reflexivity|right; eauto]. }
        destruct B as (body & Es & Kind).
        destruct r as [[]|e].
        -- cbn [snd]. exists (Protocol.classification (type c) (template c) (confidence c)
                                (reason c) :: body ++ []).
           split; [rewrite Es, app_nil_r, <- app_assoc; reflexivity|].
           right. eexists _, body, []. split; [reflexivity|]. split; [reflexivity|].
           split; [left; reflexivity|exact Kind].
        -- unfold ws_send, JS.modify. cbn [snd sent with_sent].
           exists (Protocol.classification (type c) (template c) (confidence c) (reason c)
                   :: body ++ [Protocol.error (JS.message e)]).
           split; [rewrite Es, <- !app_assoc; reflexivity|].
           right. eexists _, body, _. split; [reflexivity|]. split; [reflexivity|].
           split; [right; eexists; reflexivity|exact Kind].
      * apply (One "DEEPSEEK_API_KEY not configured").
        unfold Server.onMessage, JS.try_catch. rewrite bind_run, P, G. cbn [negb].
        rewrite bind_run. unfold JS.gets at 1. rewrite K. reflexivity.
    + apply (One "Goal is required").
      unfold Server.onMessage, JS.try_catch. rewrite bind_run, P, G. reflexivity.
  - apply (One "Cannot destructure property 'goal' of 'data' as it is null.").
    unfold Server.onMessage, JS.try_catch. rewrite bind_run, P. reflexivity.
  - apply (One (JS.message e)).
    unfold Server.onMessage, JS.try_catch. rewrite bind_run, P. reflexivity.
Qed.

Lemma contents_match_quiet (received : string) (a b : list Protocol.Event) :
  Stream.quiet a = true ->
  Stream.contents_match received (a ++ b) = Stream.contents_match received b.
Proof.
  unfold Stream.quiet. induction a as [|e a IH]; [reflexivity|].
  cbn [forallb]. intros [Q Qs]%andb_true_iff.
  destruct e; try discriminate Q; cbn [app Stream.contents_match]; apply IH, Qs.
Qed.

Lemma contents_match_chunks (received p : string) (chunks : list string)
    (rest : list Protocol.Event) :
  Stream.contents_match received (map (Protocol.file_chunk p) chunks ++ rest)
  = Stream.contents_match (received +:+ String.concat "" chunks) rest.
Proof.
  revert received. induction chunks as [|c chunks IH]; intros received.
  - cbn. rewrite append_empty_r. reflexivity.
  - cbn [map app Stream.contents_match]. rewrite IH, concat_empty_cons, append_assoc'.
    reflexivity.
Qed.

Lemma contents_match_block (received : string) (total i : nat) (p : string)
    (chunks : list string) (rest : list Protocol.Event) :
  Stream.contents_match received (Stream.file_block total i p chunks ++ rest)
  = Stream.contents_match (String.concat "" chunks) rest.
Proof.
  unfold Stream.file_block, Stream.file_opening.
  rewrite <- !app_assoc. cbn [app Stream.contents_match].
  rewrite contents_match_chunks. cbn [app Stream.contents_match String.append].
  rewrite String.eqb_refl. reflexivity.
Qed.

Lemma loop_trace_contents (total i : nat) (rest : list FileSpec)
    (events : list Protocol.Event) (finished : bool) :
  Stream.loop_trace total i rest events finished ->
  forall received tail,
    Stream.quiet tail = true ->
    Stream.contents_match received (events ++ tail) = true.
Proof.
  induction 1 as [i|i f rest events finished T _ IH|i f rest chunks events finished T _ IH
                 |i f rest chunks T]; intros received tail Q.
  - rewrite <- (app_nil_r tail). rewrite app_nil_l. apply contents_match_quiet, Q.
  - apply IH, Q.
  - rewrite <- app_assoc, contents_match_block. apply IH, Q.
  - unfold Stream.file_opening. rewrite <- !app_assoc. cbn [app Stream.contents_match].
    rewrite contents_match_chunks. rewrite <- (app_nil_r tail).
    apply contents_match_quiet, Q.
Qed.

(** X9. A completed file holds what was streamed. In every session, the
    content of each [file_complete] event is the concatenation, in order, of
    the fragments sent in the [file_chunk] events since the [file_start] of
    that file: nothing is added, dropped or reordered between the stream
    and the completed file. *)
Theorem complete_files_hold_their_chunks (sandbox : Sandbox.SandboxTool)
    (taskId data : string) (w : World) :
  let events :=
    drop (length (sent w)) (sent (snd (Server.onMessage sandbox taskId data w))) in
  Stream.contents_match "" events = true.
Proof.
  intros events. subst events.
  destruct (onMessage_trace sandbox taskId data w) as (events & -> & Shape).
  rewrite drop_app_length.
  destruct Shape as [[text ->]|(classified & body & tail & -> & Cl & Tail & Kind)];
    [reflexivity|].
  assert (Q : Stream.quiet tail = true).
  { destruct Tail as [->|[text ->]]; reflexivity. }
  destruct classified; try discriminate Cl. cbn [Stream.contents_match].
  destruct Kind as [Qb|(plan & finished & T)].
  - rewrite contents_match_quiet by exact Qb.
    rewrite <- (app_nil_r tail). apply contents_match_quiet, Q.
  - destruct T as [|listing loop L|listing loop names L].
    + rewrite contents_match_quiet by reflexivity.
      rewrite <- (app_nil_r tail). apply contents_match_quiet, Q.
    + rewrite <- !app_assoc.
      rewrite contents_match_quiet by reflexivity.
      rewrite contents_match_quiet by reflexivity.
      apply (loop_trace_contents _ _ _ _ _ L), Q.
    + rewrite <- !app_assoc.
      rewrite contents_match_quiet by reflexivity.
      rewrite contents_match_quiet by reflexivity.
      apply (loop_trace_contents _ _ _ _ _ L).
      unfold Stream.quiet. rewrite forallb_app. fold (Stream.quiet tail). rewrite Q.
      reflexivity.
Qed.

End Contents.

(** ** The result of the code path *)

Section CodeResult.
Context `{Runtime}.

Lemma replace_file_keys (p content : string) (files : Coder.Files) :
  map fst (Coder.replace_file p content files) = map fst files.
Proof.
  induction files as [|[k v] files IH]; [reflexivity|]. cbn.
  destruct (String.eqb k p); cbn; [reflexivity|]. rewrite IH. reflexivity.
Qed.

Lemma insert_index_keys (n : N) (p content : string) (files : Coder.Files) :
  map fst (Coder.insert_index n p content files) ≡ₚ p :: map fst files.
Proof.
  induction files as [|[k v] files IH]; [reflexivity|]. cbn.
  destruct (JS.array_index k) as [m|]; [|reflexivity].
  destruct (m <? n)%N; [|reflexivity]. cbn. rewrite IH. apply perm_swap.
Qed.

(** Setting a key keeps the other keys, in some order, and adds the key
    when it was not there; [__proto__] is never added. *)
Lemma set_file_perm (p content : string) (files : Coder.Files) :
  map fst (Coder.set_file p content files)
  ≡ₚ if String.eqb p "__proto__" || existsb (String.eqb p) (map fst files)
     then map fst files else p :: map fst files.
Proof.
  unfold Coder.set_file. destruct (String.eqb p "__proto__"); [reflexivity|].
  cbn [orb]. destruct (existsb _ _).
  - rewrite replace_file_keys. reflexivity.
  - destruct (JS.array_index p) as [n|]; [apply insert_index_keys|].
    rewrite map_app. cbn. symmetry. apply Permutation_cons_append.
Qed.

Lemma existsb_key (p : string) (keys : list string) :
  existsb (String.eqb p) keys = true <-> p ∈ keys.
Proof.
  rewrite existsb_exists, list_elem_of_In. split.
  - intros (k & I & E). apply String.eqb_eq in E as ->. exact I.
  - intros I. exists p. split; [exact I|apply String.eqb_refl].
Qed.

Lemma set_file_keys (p content q : string) (files : Coder.Files) :
  p <> "__proto__" ->
  q ∈ map fst (Coder.set_file p content files) <-> q = p \/ q ∈ map fst files.
Proof.
  intros Np. rewrite set_file_perm.
  apply String.eqb_neq in Np. rewrite Np. cbn [orb].
  destruct (existsb _ _) eqn:E.
  - apply existsb_key in E. split; [tauto|]. intros [->|I]; assumption.
  - rewrite elem_of_cons. reflexivity.
Qed.

Lemma set_file_NoDup (p content : string) (files : Coder.Files) :
  NoDup (map fst files) -> NoDup (map fst (Coder.set_file p content files)).
Proof.
  intros N. rewrite set_file_perm.
  destruct (String.eqb p "__proto__"); [exact N|]. cbn [orb].
  destruct (existsb _ _) eqn:E; [exact N|].
  apply NoDup_cons. split; [|exact N].
  intros I. apply existsb_key in I. congruence.
Qed.

(** The keys of [existingFiles] when the loop ends: those it started
    with and the paths it wrote, each once. *)
Lemma writing_loop_files (coder : Coder.Coder) (sandbox : Sandbox.SandboxTool)
    (goal projectName : string) (total : nat) (rest : list FileSpec) :
  forall (i : nat) (existingFiles files' : Coder.Files) (w w' : World),
    Server.writing_loop coder sandbox goal projectName total i rest existingFiles w
    = (Normal files', w') ->
    Forall (fun f => path f <> "__proto__") rest ->
    NoDup (map fst existingFiles) ->
    NoDup (map fst files')
    /\ (forall p, p ∈ map fst files'
                  <-> p ∈ map fst existingFiles
                      \/ (JS.truthy p = true /\ p ∈ map path rest)).
Proof.
  induction rest as [|f rest IH]; intros i existingFiles files' w w' E Pr N.
  - cbn in E. injection E as <- <-. split; [exact N|]. intros p. cbn [map].
    rewrite elem_of_nil. tauto.
  - cbn [Server.writing_loop] in E.
    destruct (JS.truthy (path f)) eqn:T; cbn [negb] in E.
    + rewrite !bind_ws_send in E. rewrite bind_run in E.
      destruct (Coder.generateFile _ _ _ _ _) as [[content|e] wg]; [|discriminate].
      rewrite bind_run in E.
      destruct (on_fs _ wg) as [[[]|e] ww]; [|discriminate].
      rewrite !bind_ws_send in E.
      apply Forall_cons in Pr as [Pf Pr].
      apply IH in E as [N' K]; [|exact Pr|apply set_file_NoDup, N].
      split; [exact N'|]. intros p. rewrite K, (set_file_keys _ _ _ _ Pf). cbn [map].
      rewrite elem_of_cons. split.
      * intros [[->|I]|[Tp I]]; auto.
      * intros [I|[Tp [->|I]]]; auto.
    + apply Forall_cons in Pr as [_ Pr].
      apply IH in E as [N' K]; [|exact Pr|exact N].
      split; [exact N'|]. intros p. rewrite K. cbn [map].
      rewrite elem_of_cons. split.
      * intros [I|[Tp I]]; auto.
      * intros [I|[Tp [->|I]]]; auto. congruence.
Qed.

(** A code path that ran to its end: the plan, the run of the loop, and
    the three events sent after it. *)
Lemma runCodeGeneration_finished (taskId goal : string) (template : ProjectTemplate)
    (coder : Coder.Coder) (sandbox : Sandbox.SandboxTool) (w w' : World) :
  Server.runCodeGeneration taskId goal template coder sandbox w = (Normal tt, w') ->
  exists plan w2 files' w3,
    fst (Coder.analyzeTask coder goal template
           (with_sent ((sent w ++ [Protocol.phase Protocol.planning]) ++ [Protocol.progress 5]) w))
      = Normal plan
    /\ Server.writing_loop coder sandbox goal (projectName plan) (length (files plan)) 0
         (files plan) [] w2 = (Normal files', w3)
    /\ conversationHistory w2 = conversationHistory w
    /\ w' = with_sent (sent w3 ++ Stream.closing_events taskId (projectName plan)
                                     (map fst files')) w3.
Proof.
  unfold Server.runCodeGeneration. intros E.
  rewrite !bind_ws_send in E. cbn [sent with_sent] in E. rewrite with_sent_twice in E.
  rewrite bind_run in E.
  destruct (Coder.analyzeTask _ _ _ _) as [[plan|e] w1] eqn:A; [|discriminate].
  assert (H1 : conversationHistory w1 = conversationHistory w).
  { revert A. unfold Coder.analyzeTask, JS.try_catch. rewrite bind_run.
    unfold LLM.chatJSON, LLM.chat. rewrite bind_run.
    destruct (completions_create _ _) as [content|e].
    - destruct (JSON_parse_plan _) as [[parsed|]|e]; intros [= _ <-]; reflexivity.
    - intros [= _ <-]. reflexivity. }
  exists plan.
  rewrite !bind_ws_send in E. cbn [sent with_sent] in E. rewrite with_sent_twice in E.
  rewrite bind_run in E.
  destruct (on_fs _ _) as [[info|e] w2] eqn:I; [|discriminate].
  assert (H2 : conversationHistory w2 = conversationHistory w).
  { revert I. unfold on_fs. cbn [fs with_sent].
    destruct (Sandbox.initProject _ _ _ _) as [ri f]. intros [= _ <-]. exact H1. }
  rewrite !bind_ws_send in E. cbn [sent with_sent] in E. rewrite with_sent_twice in E.
  rewrite bind_run in E.
  destruct (Server.writing_loop _ _ _ _ _ _ _ _ _) as [[files'|e] w3] eqn:L; [|discriminate].
  eexists _, files', w3. split; [reflexivity|]. split; [exact L|]. split; [exact H2|].
  rewrite !bind_ws_send in E. unfold ws_send, JS.modify in E.
  injection E as <-. cbn [sent with_sent]. unfold Stream.closing_events.
  rewrite <- !app_assoc. reflexivity.
Qed.

(** X11. The [done] event of a code session lists each file once. When the
    code path runs to its end, the last event sent is [done] with
    [success], the name of the project, the preview address
    [/sandbox/<project>/index.html] and the paths of the files: every
    non-empty path of the plan is there, exactly once even when the plan
    names it several times, and nothing else is. (A plan with the path
    [__proto__], which assignment to a JavaScript object does not store as
    a key, is left aside: that path would be missing from the list.) *)
Theorem done_lists_each_file_once (taskId goal : string) (template : ProjectTemplate)
    (coder : Coder.Coder) (sandbox : Sandbox.SandboxTool) (w w' : World) (plan : ProjectPlan) :
  Server.runCodeGeneration taskId goal template coder sandbox w = (Normal tt, w') ->
  fst (Coder.analyzeTask coder goal template
         (with_sent ((sent w ++ [Protocol.phase Protocol.planning]) ++ [Protocol.progress 5]) w))
    = Normal plan ->
  Forall (fun f => path f <> "__proto__") (files plan) ->
  exists names,
    last (sent w')
    = Some (Protocol.done taskId code
              (Protocol.CodeResult true (projectName plan)
                 ("/sandbox/" +:+ projectName plan +:+ "/index.html") names))
    /\ NoDup names
    /\ (forall p, p ∈ names <-> JS.truthy p = true /\ p ∈ map path (files plan)).
Proof.
  intros E A Pr.
  apply runCodeGeneration_finished in E as (plan' & w2 & files' & w3 & A' & L & _ & ->).
  rewrite A in A'. injection A' as <-.
  apply writing_loop_files in L as [N K]; [|exact Pr|apply NoDup_nil_2].
  exists (map fst files'). split; [|split; [exact N|]].
  - cbn [sent with_sent]. unfold Stream.closing_events.
    change [?a; ?b; ?c] with ([a; b] ++ [c]). rewrite app_assoc. apply last_snoc.
  - intros p. rewrite K. cbn [map]. rewrite elem_of_nil. tauto.
Qed.

End CodeResult.

(** [length] and [slice] count UTF-16 units, on the bytes of the text. *)
Example utf16_units :
  JS.length16 "日本語" = 3
  /\ JS.length16 "a😀" = 3
  /\ JS.slice0 2 "日本語" = "日本"
  /\ JS.slice0 3 "a😀b" = "a😀"
  /\ JS.slice0 5 "abc" = "abc".
Proof. vm_compute. repeat split; reflexivity. Qed.

(** The keys of an object in the order JavaScript lists them: array
    indices first, in ascending order, then the other keys as they were
    set; setting a key again keeps its place, and [__proto__] is no key. *)
Example keys_of_existingFiles :
  map fst (Coder.set_file "style.css" "3"
             (Coder.set_file "__proto__" "x"
                (Coder.set_file "9" "c"
                   (Coder.set_file "10" "b"
                      (Coder.set_file "01" "a"
                         (Coder.set_file "style.css" "1" []))))))
  = ["9"; "10"; "style.css"; "01"]
  /\ JS.array_index "4294967294" = Some 4294967294%N
  /\ JS.array_index "4294967295" = None.
Proof. vm_compute. repeat split; reflexivity. Qed.

Lemma done_lists_each_file_once_witness :
  exists names,
    last (sent (snd (Server.runCodeGeneration (H:=Demo.with_gap) "t1" "a plan with a gap"
                       html Demo.coder Demo.sandbox (Demo.fresh_world (Some "k")))))
    = Some (Protocol.done "t1" code
              (Protocol.CodeResult true (projectName Demo.gap_plan)
                 ("/sandbox/" +:+ projectName Demo.gap_plan +:+ "/index.html") names))
    /\ NoDup names
    /\ (forall p, p ∈ names <-> JS.truthy p = true /\ p ∈ map path (files Demo.gap_plan)).
Proof.
  apply (done_lists_each_file_once (H:=Demo.with_gap) "t1" "a plan with a gap" html
           Demo.coder Demo.sandbox (Demo.fresh_world (Some "k")) _ Demo.gap_plan).
  - vm_compute. reflexivity.
  - reflexivity.
  - repeat constructor; discriminate.
Defined.

(** ** Progress never goes back *)

Section ProgressOrder.
Context `{Runtime}.

Lemma exact_progress_bounds (i total : nat) :
  i < total -> (10 <= Stream.exact_progress i total <= 90)%Z.
Proof.
  intros L. unfold Stream.exact_progress.
  assert (0 <= Z.of_nat (i + 1) * 80 / Z.of_nat total <= 80)%Z; [|lia].
  split.
  - apply Z.div_pos; lia.
  - apply Z.div_le_upper_bound; lia.
Qed.

Lemma exact_progress_mono (i j total : nat) :
  i <= j -> 0 < total ->
  (Stream.exact_progress i total <= Stream.exact_progress j total)%Z.
Proof.
  intros L T. unfold Stream.exact_progress.
  apply Zorder.Zplus_le_compat_l. apply Z.div_le_mono; lia.
Qed.

(** The progress values of the loop are those of the exact formula, and
    they do not decrease. *)
Lemma loop_trace_exact (total i : nat) (rest : list FileSpec)
    (events : list Protocol.Event) (finished : bool) :
  Stream.loop_trace total i rest events finished ->
  i + length rest <= total -> total <= 128 ->
  exists exact : list Z,
    Forall2 (fun v z => PrimFloat.eqb v (JS.of_Z z) = true)
      (Stream.progress_values events) exact
    /\ StronglySorted Z.le exact
    /\ Forall (fun z => (Stream.exact_progress i total <= z <= 90)%Z) exact.
Proof.
  induction 1 as [i|i f rest events finished T _ IH|i f rest chunks events finished T _ IH
                 |i f rest chunks T]; intros L B.
  - exists []. repeat constructor.
  - cbn [length] in L.
    destruct IH as (exact & A & Sd & F); [lia|exact B|].
    exists exact. split; [exact A|]. split; [exact Sd|].
    eapply Forall_impl; [exact F|]. intros z [Lo Hi]. split; [|exact Hi].
    etrans; [apply (exact_progress_mono i (S i) total); lia|exact Lo].
  - cbn [length] in L.
    destruct IH as (exact & A & Sd & F); [lia|exact B|].
    exists (Stream.exact_progress i total :: exact).
    rewrite progress_values_app, progress_values_block. cbn [app].
    split; [|split].
    + constructor; [apply progress_value_exact; lia|exact A].
    + constructor; [exact Sd|].
      eapply Forall_impl; [exact F|]. intros z [Lo _].
      etrans; [apply (exact_progress_mono i (S i) total); lia|exact Lo].
    + constructor.
      * split; [reflexivity|]. apply exact_progress_bounds. lia.
      * eapply Forall_impl; [exact F|]. intros z [Lo Hi]. split; [|exact Hi].
        etrans; [apply (exact_progress_mono i (S i) total); lia|exact Lo].
  - cbn [length] in L.
    exists [Stream.exact_progress i total].
    unfold Stream.file_opening. rewrite progress_values_app, progress_values_chunks.
    cbn [app Stream.progress_values].
    split; [|split].
    + constructor; [apply progress_value_exact; lia|constructor].
    + repeat constructor.
    + constructor; [|constructor]. split; [reflexivity|]. apply exact_progress_bounds. lia.
Qed.

(** X10. The progress of a code session never goes back. For a plan of at most
    128 files, the progress values sent are whole numbers between 5 and 100
    and none is smaller than the one before it, whether the session runs to
    its end or fails on the way; a session that runs to its end ends at
    100. *)
Theorem progress_never_goes_back (taskId goal : string) (template : ProjectTemplate)
    (coder : Coder.Coder) (sandbox : Sandbox.SandboxTool) (w : World) (plan : ProjectPlan) :
  fst (Coder.analyzeTask coder goal template
         (with_sent ((sent w ++ [Protocol.phase Protocol.planning]) ++ [Protocol.progress 5]) w))
    = Normal plan ->
  length (files plan) <= 128 ->
  let result := Server.runCodeGeneration taskId goal template coder sandbox w in
  let values := Stream.progress_values (drop (length (sent w)) (sent (snd result))) in
  exists exact : list Z,
    Forall2 (fun v z => PrimFloat.eqb v (JS.of_Z z) = true) values exact
    /\ StronglySorted Z.le exact
    /\ Forall (fun z => (5 <= z <= 100)%Z) exact
    /\ (fst result = Normal tt -> last exact = Some 100%Z).
Proof.
  intros P B result values. subst values result.
  destruct (Server.runCodeGeneration taskId goal template coder sandbox w) as [r w'] eqn:E.
  apply runCodeGeneration_trace in E as (plan' & events & P' & Es & T).
  rewrite P in P'. injection P' as <-.
  cbn [fst snd]. rewrite Es, drop_app_length.
  assert (Loop : forall body finished,
             Stream.loop_trace (length (files plan)) 0 (files plan) body finished ->
             exists exact : list Z,
               Forall2 (fun v z => PrimFloat.eqb v (JS.of_Z z) = true)
                 (Stream.progress_values body) exact
               /\ StronglySorted Z.le exact
               /\ Forall (fun z => (10 <= z <= 90)%Z) exact).
  { intros body finished L.
    destruct (loop_trace_exact _ _ _ _ _ L) as (exact & A & Sd & F); [lia|exact B|].
    exists exact. split; [exact A|]. split; [exact Sd|].
    destruct (files plan) as [|f fs] eqn:Fs.
    - inversion L; subst. inversion A; subst. constructor.
    - eapply Forall_impl; [exact F|]. intros z [Lo Hi]. split; [|exact Hi].
      etrans; [|exact Lo]. apply exact_progress_bounds. cbn. lia. }
  remember (JS.is_normal r) as finished eqn:Fin.
  destruct T as [|listing body L|listing body names L].
  - exists [5%Z; 10%Z]. split; [|split; [|split]].
    + repeat constructor.
    + repeat constructor; lia.
    + repeat constructor; lia.
    + intros ->. discriminate.
  - destruct (Loop body false L) as (exact & A & Sd & F).
    exists (5%Z :: 10%Z :: exact).
    rewrite !progress_values_app. cbn [Stream.planning_events Stream.writing_events
                                        Stream.progress_values app].
    split; [|split; [|split]].
    + repeat (constructor; [reflexivity|]). exact A.
    + constructor; [constructor; [exact Sd|]|].
      * eapply Forall_impl; [exact F|]. intros z [? ?]. lia.
      * constructor; [lia|]. eapply Forall_impl; [exact F|]. intros z [? ?]. lia.
    + constructor; [lia|]. constructor; [lia|].
      eapply Forall_impl; [exact F|]. intros z [? ?]. lia.
    + intros ->. discriminate.
  - destruct (Loop body true L) as (exact & A & Sd & F).
    exists (5%Z :: 10%Z :: exact ++ [100%Z]).
    rewrite !progress_values_app. cbn [Stream.planning_events Stream.writing_events
                                        Stream.closing_events Stream.progress_values app].
    split; [|split; [|split]].
    + repeat (constructor; [reflexivity|]). apply Forall2_app; [exact A|].
      repeat constructor.
    + assert (S' : StronglySorted Z.le (exact ++ [100%Z])).
      { clear A. induction Sd as [|z zs Sd IH Fz].
        - repeat constructor.
        - apply Forall_cons in F as [Fz' F]. cbn [app]. constructor; [apply IH, F|].
          apply Forall_app. split; [exact Fz|]. constructor; [lia|constructor]. }
      constructor; [constructor; [exact S'|]|].
      * apply Forall_app. split; [|repeat constructor; lia].
        eapply Forall_impl; [exact F|]. intros z [? ?]. lia.
      * constructor; [lia|]. apply Forall_app. split; [|repeat constructor; lia].
        eapply Forall_impl; [exact F|]. intros z [? ?]. lia.
    + constructor; [lia|]. constructor; [lia|].
      apply Forall_app. split; [|repeat constructor; lia].
      eapply Forall_impl; [exact F|]. intros z [? ?]. lia.
    + intros _. change (5%Z :: 10%Z :: exact ++ [100%Z])
        with ([5%Z; 10%Z] ++ exact ++ [100%Z]).
      rewrite app_assoc. apply last_snoc.
Qed.

End ProgressOrder.

Lemma progress_never_goes_back_witness :
  let result :=
    Server.runCodeGeneration (H:=Demo.with_gap) "t1" "a plan with a gap" html
      Demo.coder Demo.sandbox (Demo.fresh_world (Some "k")) in
  let values := Stream.progress_values (drop 0 (sent (snd result))) in
  exists exact : list Z,
    Forall2 (fun v z => PrimFloat.eqb v (JS.of_Z z) = true) values exact
    /\ StronglySorted Z.le exact
    /\ Forall (fun z => (5 <= z <= 100)%Z) exact
    /\ (fst result = Normal tt -> last exact = Some 100%Z).
Proof.
  apply (progress_never_goes_back (H:=Demo.with_gap) "t1" "a plan with a gap" html
           Demo.coder Demo.sandbox (Demo.fresh_world (Some "k")) Demo.gap_plan).
  - reflexivity.
  - cbn. lia.
Defined.

(** ** The Coder's conversation *)

Section Conversation.
Context `{Runtime}.

(** Under a loop that leaves the history alone, the stream of one
    generation leaves it alone too, and the full response is what the
    stream yielded. *)
Lemma each_delta_forward {A} (body : LLM.Consumer A) (deltas : list (option string)) :
  (forall acc chunk w, conversationHistory (snd (body acc chunk w)) = conversationHistory w) ->
  forall (full : string) (acc : A) (w w' : World) (r : Completion (string * A)),
    LLM.each_delta (Coder.forward body) deltas (full, acc) w = (r, w') ->
    conversationHistory w' = conversationHistory w
    /\ (forall full' acc',
          r = Normal (full', acc') ->
          full' = full +:+ String.concat "" (Stream.yielded deltas)).
Proof.
  intros Hb. induction deltas as [|d deltas IH]; intros full acc w w' r E.
  - cbn in E. injection E as <- <-. split; [reflexivity|].
    intros full' acc' [= <- _]. symmetry. apply append_empty_r.
  - destruct d as [c|]; cbn [LLM.each_delta Stream.yielded] in E |- *; [|apply (IH _ _ _ _ _ E)].
    destruct (JS.truthy c); [|apply (IH _ _ _ _ _ E)].
    rewrite bind_run in E. unfold Coder.forward at 1 in E. rewrite bind_run in E.
    cbn [fst snd] in E.
    pose proof (Hb acc c w) as Hw.
    destruct (body acc c w) as [[acc2|e] wb]; cbn [snd] in Hw.
    + unfold JS.ret at 1 in E.
      destruct (IH _ _ _ _ _ E) as [Hh Hf].
      split; [rewrite Hh; exact Hw|].
      intros full' acc' Er. rewrite (Hf full' acc' Er).
      rewrite concat_empty_cons, append_assoc'. reflexivity.
    + injection E as <- <-. split; [exact Hw|]. discriminate.
Qed.

(** X15. [chat] and the history. The request holds the system prompt with the
    context, the last six messages of the history and the message. When the
    stream ends normally the history grows by the message and the full
    response, which is the concatenation of the fragments yielded; when the
    stream fails, or the consumer's loop throws, the history is as it
    was. *)
Theorem chat_history {A} (self : Coder.Coder) (message : string)
    (context : option Coder.ChatContext) (body : LLM.Consumer A) (init : A) (w : World) :
  (forall acc chunk w0,
     conversationHistory (snd (body acc chunk w0)) = conversationHistory w0) ->
  let request :=
    LLM.request (Coder.llm self)
      ([mkMessage system (Coder.chat_systemPrompt +:+ Coder.contextStr context)]
       ++ JS.slice_last 6 (conversationHistory w)
       ++ [mkMessage user message]) true in
  let fullResponse :=
    String.concat "" (Stream.yielded (fst (completions_stream (llm_calls w) request))) in
  let result := Coder.chat self message context body init w in
  conversationHistory (snd result)
  = match fst result with
    | Normal _ =>
        conversationHistory w ++ [mkMessage user message; mkMessage assistant fullResponse]
    | Throw _ => conversationHistory w
    end.
Proof.
  intros Hb request fullResponse result. subst result fullResponse request.
  destruct (Coder.chat self message context body init w) as [r w'] eqn:E. cbn [fst snd].
  revert E. unfold Coder.chat, JS.gets, LLM.chatStream. rewrite bind_run. cbv beta.
  rewrite bind_run. cbv beta.
  destruct (completions_stream _ _) as [deltas ending]. cbn [fst].
  rewrite !bind_run.
  destruct (LLM.each_delta (Coder.forward body) deltas ("", init) _) as [r1 w1] eqn:D.
  destruct (each_delta_forward body deltas Hb _ _ _ _ _ D) as [Hh Hf].
  cbn [conversationHistory with_llm_calls] in Hh.
  destruct r1 as [[full acc]|e].
  - destruct ending as [e|]; cbn [JS.throw JS.ret].
    + intros [= <- <-]. exact Hh.
    + unfold JS.bind, JS.modify, JS.ret. intros [= <- <-].
      cbn [conversationHistory with_history].
      rewrite Hh, (Hf full acc eq_refl). reflexivity.
  - intros [= <- <-]. exact Hh.
Qed.

Lemma each_delta_plain (p : string) (deltas : list (option string)) :
  forall (content : string) (w : World),
    LLM.each_delta (Server.on_chunk p) deltas content w
    = (Normal (content +:+ String.concat "" (Stream.yielded deltas)),
       with_sent (sent w ++ map (Protocol.file_chunk p) (Stream.yielded deltas)) w).
Proof.
  induction deltas as [|d deltas IH]; intros content w.
  - cbn. rewrite append_empty_r, app_nil_r, with_sent_same. reflexivity.
  - destruct d as [c|]; cbn [LLM.each_delta Stream.yielded]; [|apply IH].
    destruct (JS.truthy c); [|apply IH].
    unfold JS.bind at 1. unfold Server.on_chunk at 1, JS.bind, ws_send, JS.modify, JS.ret.
    rewrite IH. cbn [sent with_sent map].
    rewrite concat_empty_cons, append_assoc', <- app_assoc. reflexivity.
Qed.

(** X16. [modifyFile] and [fixError] are stateless. Each makes one request
    that holds its two prompts and nothing of the history, yields the
    non-empty fragments of the stream in order, also when the stream then
    fails, and ends as the stream ends. Whatever the history holds, the
    outcome is the same and the history stays as it is. *)
Theorem modifyFile_fixError_stateless (self : Coder.Coder) (p : string)
    (history : list Message) (w : World) :
  let run (messages : list Message) :=
    let stream := completions_stream (llm_calls w) (LLM.request (Coder.llm self) messages true) in
    let chunks := Stream.yielded (fst stream) in
    (match snd stream with
     | Some e => Throw e
     | None => Normal (String.concat "" chunks)
     end,
     with_history history
       (with_sent (sent w ++ map (Protocol.file_chunk p) chunks)
          (with_llm_calls (S (llm_calls w)) w))) in
  (forall options,
     Coder.modifyFile self options (Server.on_chunk p) "" (with_history history w)
     = run [mkMessage system Coder.modify_systemPrompt;
            mkMessage user (Coder.modify_userPrompt options)])
  /\ (forall options,
        Coder.fixError self options (Server.on_chunk p) "" (with_history history w)
        = run [mkMessage system Coder.fix_systemPrompt;
               mkMessage user (Coder.fix_userPrompt options)]).
Proof.
  assert (Run : forall messages,
             LLM.chatStream (Coder.llm self) messages (Server.on_chunk p) ""
               (with_history history w)
             = (let stream :=
                  completions_stream (llm_calls w)
                    (LLM.request (Coder.llm self) messages true) in
                let chunks := Stream.yielded (fst stream) in
                (match snd stream with
                 | Some e => Throw e
                 | None => Normal (String.concat "" chunks)
                 end,
                 with_history history
                   (with_sent (sent w ++ map (Protocol.file_chunk p) chunks)
                      (with_llm_calls (S (llm_calls w)) w))))).
  { intros messages. cbn zeta. unfold LLM.chatStream. cbn [llm_calls with_history].
    destruct (completions_stream _ _) as [deltas ending]. cbn [fst snd].
    rewrite bind_run, each_delta_plain.
    destruct ending as [e|]; reflexivity. }
  cbn zeta. split; intros options; apply Run.
Qed.

(** X14. What [generateFile] asks depends on the conversation only through its
    last four messages: in two states that agree on them (and on the number
    of requests made so far), the same fragments are yielded and the call
    ends the same way. *)
Theorem generateFile_sees_last_four (coder : Coder.Coder) (options : Coder.GenerateOptions)
    (p : string) (w1 w2 : World) :
  JS.slice_last 4 (conversationHistory w1) = JS.slice_last 4 (conversationHistory w2) ->
  llm_calls w1 = llm_calls w2 ->
  let result1 := Coder.generateFile coder options (Server.on_chunk p) "" w1 in
  let result2 := Coder.generateFile coder options (Server.on_chunk p) "" w2 in
  fst result1 = fst result2
  /\ drop (length (sent w1)) (sent (snd result1)) = drop (length (sent w2)) (sent (snd result2)).
Proof.
  intros H4 HL. cbn zeta.
  unfold Coder.generateFile. rewrite !bind_run. unfold JS.gets. rewrite !bind_run.
  unfold LLM.chatStream. rewrite H4, HL.
  destruct (completions_stream _ _) as [deltas ending].
  rewrite !bind_run, !each_delta_on_chunk.
  destruct ending as [e|]; cbn [JS.throw JS.ret fst snd].
  - cbn [sent with_sent with_llm_calls]. rewrite !drop_app_length. split; reflexivity.
  - unfold JS.bind, JS.modify, JS.ret. cbn [fst snd sent with_sent with_llm_calls with_history].
    rewrite !drop_app_length. split; reflexivity.
Qed.

End Conversation.

Lemma chat_history_witness :
  let w := with_history [mkMessage user "hi"; mkMessage assistant "hello"]
             (Demo.fresh_world (Some "k")) in
  let result :=
    Coder.chat (H:=Demo.scripted) Demo.coder "which port?" (Some [("project", "snake")])
      (Server.on_chunk "answer") "" w in
  conversationHistory (snd result)
  = match fst result with
    | Normal _ =>
        conversationHistory w
        ++ [mkMessage user "which port?";
            mkMessage assistant
              (String.concat ""
                 (Stream.yielded
                    (fst (completions_stream (Runtime:=Demo.scripted) (llm_calls w)
                            (LLM.request (Coder.llm Demo.coder)
                               ([mkMessage system
                                   (Coder.chat_systemPrompt
                                    +:+ Coder.contextStr (Some [("project", "snake")]))]
                                ++ JS.slice_last 6 (conversationHistory w)
                                ++ [mkMessage user "which port?"]) true)))))]
    | Throw _ => conversationHistory w
    end.
Proof.
  intros w result.
  apply (chat_history (H:=Demo.scripted) Demo.coder "which port?" (Some [("project", "snake")])
           (Server.on_chunk "answer") "" w).
  intros acc chunk w0. reflexivity.
Defined.

Lemma generateFile_sees_last_four_witness :
  let recent := [mkMessage user "u2"; mkMessage assistant "a2";
                 mkMessage user "u3"; mkMessage assistant "a3"] in
  let w1 := with_history ([mkMessage user "u1"; mkMessage assistant "a1"] ++ recent)
              (Demo.fresh_world (Some "k")) in
  let w2 := with_history recent (Demo.fresh_world (Some "k")) in
  let options := Coder.mkGenerateOptions "a game" "index.html" "page" None None in
  let result1 :=
    Coder.generateFile (H:=Demo.scripted) Demo.coder options (Server.on_chunk "index.html") "" w1 in
  let result2 :=
    Coder.generateFile (H:=Demo.scripted) Demo.coder options (Server.on_chunk "index.html") "" w2 in
  fst result1 = fst result2
  /\ drop (length (sent w1)) (sent (snd result1)) = drop (length (sent w2)) (sent (snd result2)).
Proof.
  intros recent w1 w2 options.
  apply (generateFile_sees_last_four (H:=Demo.scripted) Demo.coder options "index.html" w1 w2);
    reflexivity.
Defined.

(** ** The files of a finished session *)

Section FilesOfSession.
Context `{Runtime}.

Lemma concat_split_slash (s : string) : JS.join_with "/" (Path.split_slash s) = s.
Proof.
  unfold JS.join_with. induction s as [|c s IH]; [reflexivity|].
  cbn [Path.split_slash].
  pose proof (split_slash_nonempty s) as N.
  destruct (Ascii.eqb c "/") eqn:E.
  - apply Ascii.eqb_eq in E as ->.
    destruct (Path.split_slash s) as [|piece pieces]; [congruence|].
    rewrite concat_cons2, IH. reflexivity.
  - destruct (Path.split_slash s) as [|piece pieces]; [congruence|].
    rewrite <- IH. destruct pieces; reflexivity.
Qed.

(** Where a plain path is written. *)
Lemma target_of_plain_path (self : Sandbox.SandboxTool) (projectName filePath : string)
    (fs : FS.t) :
  Workspace.plain_path filePath = true ->
  Workspace.target self projectName filePath fs
  = Workspace.project_dir self projectName fs ++ Path.split_slash filePath.
Proof.
  intros P. unfold Workspace.plain_path in P.
  assert (Nn : Forall (fun seg => Workspace.is_name seg = true) (Path.split_slash filePath)).
  { apply Forall_forall. intros seg I. rewrite forallb_forall in P.
    apply P. apply list_elem_of_In. exact I. }
  destruct (project_path_of_names self projectName fs (Path.split_slash filePath)
              (split_slash_nonempty filePath) Nn) as [R _].
  rewrite concat_split_slash in R. exact R.
Qed.

Lemma targets_differ (self : Sandbox.SandboxTool) (projectName f g : string) (fs : FS.t) :
  Workspace.plain_path f = true -> Workspace.plain_path g = true -> f <> g ->
  Workspace.target self projectName f fs <> Workspace.target self projectName g fs.
Proof.
  intros Pf Pg N E.
  rewrite (target_of_plain_path _ _ _ _ Pf), (target_of_plain_path _ _ _ _ Pg) in E.
  apply app_inv_head in E. apply N.
  rewrite <- (concat_split_slash f), <- (concat_split_slash g), E. reflexivity.
Qed.

Lemma target_cwd (self : Sandbox.SandboxTool) (projectName f : string) (fs1 fs2 : FS.t) :
  FS.cwd fs1 = FS.cwd fs2 ->
  Workspace.target self projectName f fs1 = Workspace.target self projectName f fs2.
Proof. intros C. unfold Workspace.target, FS.resolve. rewrite C. reflexivity. Qed.

Lemma generateFile_calls (coder : Coder.Coder) (options : Coder.GenerateOptions)
    (p : string) (w w' : World) (r : Completion string) :
  Coder.generateFile coder options (Server.on_chunk p) "" w = (r, w') ->
  llm_calls w' = S (llm_calls w).
Proof.
  unfold Coder.generateFile, JS.bind, JS.gets, LLM.chatStream.
  destruct (completions_stream _ _) as [deltas ending].
  unfold JS.bind. rewrite each_delta_on_chunk.
  destruct ending as [e|]; intros [= _ <-]; reflexivity.
Qed.

Lemma on_fs_calls {A} (m : M FS.t A) (w : World) : llm_calls (snd (on_fs m w)) = llm_calls w.
Proof. unfold on_fs. destruct (m (fs w)) as [r f]. reflexivity. Qed.

Lemma started_chunks (p : string) (chunks : list string) (tail : list Protocol.Event) :
  Stream.started (map (Protocol.file_chunk p) chunks ++ tail) = Stream.started tail.
Proof. induction chunks as [|c chunks IH]; [reflexivity|exact IH]. Qed.

Lemma completed_chunks (p : string) (chunks : list string) (tail : list Protocol.Event) :
  Stream.completed (map (Protocol.file_chunk p) chunks ++ tail) = Stream.completed tail.
Proof. induction chunks as [|c chunks IH]; [reflexivity|exact IH]. Qed.

Lemma started_block (total i : nat) (p : string) (chunks : list string)
    (tail : list Protocol.Event) :
  Stream.started (Stream.file_block total i p chunks ++ tail) = p :: Stream.started tail.
Proof.
  unfold Stream.file_block, Stream.file_opening. rewrite <- !app_assoc.
  cbn [app Stream.started]. rewrite started_chunks. reflexivity.
Qed.

Lemma completed_block (total i : nat) (p : string) (chunks : list string)
    (tail : list Protocol.Event) :
  Stream.completed (Stream.file_block total i p chunks ++ tail)
  = (p, String.concat "" chunks) :: Stream.completed tail.
Proof.
  unfold Stream.file_block, Stream.file_opening. rewrite <- !app_assoc.
  cbn [app Stream.completed]. rewrite completed_chunks. reflexivity.
Qed.

(** What the loop leaves when it runs to its end over plain, distinct
    paths: every file it announced complete is on disk with the content
    announced, no other regular file has changed, and the model was asked
    once for each file. *)
Lemma writing_loop_disk (coder : Coder.Coder) (sandbox : Sandbox.SandboxTool)
    (goal projectName : string) (total : nat) (rest : list FileSpec) :
  forall (i : nat) (existingFiles files' : Coder.Files) (w w' : World),
    Server.writing_loop coder sandbox goal projectName total i rest existingFiles w
    = (Normal files', w') ->
    Forall (fun f => Workspace.plain_path (path f) = true) rest ->
    NoDup (map path rest) ->
    exists events,
      sent w' = sent w ++ events
      /\ FS.cwd (fs w') = FS.cwd (fs w)
      /\ llm_calls w' = llm_calls w + length rest
      /\ Stream.started events = map path rest
      /\ map fst (Stream.completed events) = map path rest
      /\ (forall q,
            (forall f, f ∈ map path rest ->
                       q <> Workspace.target sandbox projectName f (fs w)) ->
            FS.read q (FS.root (fs w')) = FS.read q (FS.root (fs w)))
      /\ (forall f content,
            In (f, content) (Stream.completed events) ->
            FS.read (Workspace.target sandbox projectName f (fs w)) (FS.root (fs w'))
            = Some content).
Proof.
  induction rest as [|f rest IH]; intros i existingFiles files' w w' E P N.
  - cbn in E. injection E as <- <-. exists []. rewrite app_nil_r, Nat.add_0_r.
    repeat split. intros f content [].
  - apply Forall_cons in P as [Pf P]. cbn [map] in N. apply NoDup_cons in N as [Nf N].
    cbn [Server.writing_loop] in E.
    assert (T : JS.truthy (path f) = true).
    { destruct (path f); [discriminate Pf|reflexivity]. }
    rewrite T in E. cbn [negb] in E.
    rewrite !bind_ws_send in E. rewrite bind_run in E.
    destruct (Coder.generateFile _ _ _ _ _) as [[content|e] wg] eqn:G; [|discriminate].
    pose proof (generateFile_calls _ _ _ _ _ _ G) as Gc.
    apply generateFile_on_chunk in G as (chunks & Gs & Gf & Gcontent).
    cbn [sent with_sent fs llm_calls] in Gs, Gf, Gc.
    rewrite bind_run in E.
    pose proof (on_fs_sent (Sandbox.writeProjectFile sandbox projectName (path f) content) wg)
      as Ws.
    pose proof (on_fs_calls (Sandbox.writeProjectFile sandbox projectName (path f) content) wg)
      as Wc.
    destruct (on_fs _ wg) as [[[]|e] ww] eqn:Wr; [|discriminate]. cbn [snd] in Ws, Wc.
    assert (Wd : Sandbox.writeProjectFile sandbox projectName (path f) content (fs wg)
                 = (Normal tt, fs ww)).
    { revert Wr. unfold on_fs.
      destruct (Sandbox.writeProjectFile _ _ _ _ (fs wg)) as [rw fw].
      intros [= -> <-]. reflexivity. }
    rewrite Gf in Wd.
    destruct (writeProjectFile_reads_back _ _ _ _ _ _ Wd) as [Back Cwd].
    rewrite !bind_ws_send in E.
    apply IH in E as (events & Es & Ec & El & Est & Eco & Eframe & Edisk); [|exact P|exact N].
    cbn [sent with_sent fs llm_calls] in Es, Ec, El, Eframe, Edisk.
    exists (Stream.file_block total i (path f) chunks ++ events).
    split; [|split; [|split; [|split; [|split; [|split]]]]].
    + rewrite Es, Ws, Gs, (Gcontent content eq_refl).
      unfold Stream.file_block, Stream.file_opening. rewrite <- !app_assoc. reflexivity.
    + rewrite Ec, Cwd. reflexivity.
    + rewrite El, Wc, Gc. cbn [length]. lia.
    + rewrite started_block, Est. reflexivity.
    + rewrite completed_block. cbn [map fst]. rewrite Eco. reflexivity.
    + intros q Out. rewrite Eframe.
      * pose proof (writeProjectFile_touches_target sandbox projectName (path f) content
                      (fs w) q) as Touch.
        rewrite Wd in Touch. apply Touch. apply Out. cbn [map]. apply list_elem_of_here.
      * intros g I. rewrite (target_cwd _ _ _ _ (fs w) Cwd).
        apply Out. cbn [map]. apply list_elem_of_further, I.
    + intros g c I. rewrite completed_block in I. destruct I as [[= <- <-]|I].
      * rewrite Eframe; [rewrite (Gcontent content eq_refl) in Back; exact Back|].
        intros g I. rewrite (target_cwd _ _ _ _ (fs w) Cwd).
        apply list_elem_of_fmap in I as (f' & -> & I).
        rewrite Forall_forall in P.
        apply targets_differ; [exact Pf|apply P, I|].
        intros Eq. apply Nf. rewrite Eq. apply list_elem_of_fmap. eauto.
      * rewrite <- (target_cwd _ _ _ (fs ww) (fs w) Cwd). apply Edisk, I.
Qed.

(** X12. The files of a finished session are on disk. When the code path runs
    to its end over a plan whose paths are made of names and are pairwise
    different, the files are generated in the order of the plan, one
    [file_start] and one [file_complete] for each entry; every file
    announced by a [file_complete] can be read with [readProjectFile] and
    holds the content announced; and the model was asked once for the plan
    and once for each file. *)
Theorem completed_files_are_on_disk (taskId goal : string) (template : ProjectTemplate)
    (coder : Coder.Coder) (sandbox : Sandbox.SandboxTool) (w w' : World) (plan : ProjectPlan) :
  Server.runCodeGeneration taskId goal template coder sandbox w = (Normal tt, w') ->
  fst (Coder.analyzeTask coder goal template
         (with_sent ((sent w ++ [Protocol.phase Protocol.planning]) ++ [Protocol.progress 5]) w))
    = Normal plan ->
  Forall (fun f => Workspace.plain_path (path f) = true) (files plan) ->
  NoDup (map path (files plan)) ->
  let events := drop (length (sent w)) (sent w') in
  Stream.started events = map path (files plan)
  /\ map fst (Stream.completed events) = map path (files plan)
  /\ (forall f content,
        In (Protocol.file_complete f content) events ->
        Sandbox.readProjectFile sandbox (projectName plan) f (fs w') = (Normal content, fs w'))
  /\ llm_calls w' = llm_calls w + 1 + length (files plan).
Proof.
  intros E A P N events. subst events.
  unfold Server.runCodeGeneration in E.
  rewrite !bind_ws_send in E. cbn [sent with_sent] in E. rewrite with_sent_twice in E.
  rewrite bind_run in E.
  destruct (Coder.analyzeTask _ _ _ _) as [rp w1] eqn:Ea. cbn [fst] in A. subst rp.
  assert (Ac : llm_calls w1 = S (llm_calls w) /\ sent w1 = sent w ++ [Protocol.phase Protocol.planning; Protocol.progress 5]).
  { revert Ea. unfold Coder.analyzeTask, JS.try_catch. rewrite bind_run.
    unfold LLM.chatJSON, LLM.chat. rewrite bind_run.
    destruct (completions_create _ _) as [answer|e].
    - destruct (JSON_parse_plan _) as [[parsed|]|e]; intros [= _ <-];
        cbn [llm_calls sent with_llm_calls with_sent]; rewrite <- app_assoc; split; reflexivity.
    - intros [= _ <-]. cbn [llm_calls sent with_llm_calls with_sent].
      rewrite <- app_assoc. split; reflexivity. }
  destruct Ac as [Ac As].
  rewrite !bind_ws_send in E. cbn [sent with_sent] in E. rewrite with_sent_twice in E.
  rewrite bind_run in E.
  pose proof (on_fs_sent (Sandbox.initProject sandbox (projectName plan) template)
                (with_sent ((sent w1 ++ [Protocol.progress 10])
                            ++ [Protocol.step ("Creating project: " +:+ projectName plan)
                                  Protocol.step_running]) w1)) as Is.
  pose proof (on_fs_calls (Sandbox.initProject sandbox (projectName plan) template)
                (with_sent ((sent w1 ++ [Protocol.progress 10])
                            ++ [Protocol.step ("Creating project: " +:+ projectName plan)
                                  Protocol.step_running]) w1)) as Ic.
  destruct (on_fs _ _) as [[info|e] w2]; [|discriminate].
  cbn [snd sent with_sent llm_calls] in Is, Ic.
  rewrite !bind_ws_send in E. cbn [sent with_sent] in E. rewrite with_sent_twice in E.
  rewrite bind_run in E.
  destruct (Server.writing_loop _ _ _ _ _ _ _ _ _) as [[files'|e] w3] eqn:L; [|discriminate].
  apply writing_loop_disk in L as (loop & Ls & Lc & Ll & Lst & Lco & _ & Ldisk);
    [|exact P|exact N].
  cbn [sent with_sent fs llm_calls] in Ls, Lc, Ll, Ldisk.
  rewrite !bind_ws_send in E. unfold ws_send, JS.modify in E.
  injection E as <-. cbn [sent with_sent fs llm_calls].
  rewrite Ls, Is, As. rewrite <- !app_assoc. rewrite drop_app_length. cbn [app].
  assert (Sa : forall a b, Stream.started (a ++ b) = Stream.started a ++ Stream.started b).
  { intros a b. induction a as [|e a IHa]; [reflexivity|].
    destruct e; cbn [app Stream.started]; rewrite ?IHa; reflexivity. }
  assert (Ca : forall a b, Stream.completed (a ++ b)
                           = Stream.completed a ++ Stream.completed b).
  { intros a b. induction a as [|e a IHa]; [reflexivity|].
    destruct e; cbn [app Stream.completed]; rewrite ?IHa; reflexivity. }
  assert (Ci : forall f content l,
             In (Protocol.file_complete f content) l -> In (f, content) (Stream.completed l)).
  { intros f content l. induction l as [|e l IHl]; [intros []|].
    intros [->|I]; [left; reflexivity|].
    destruct e; cbn [Stream.completed]; try (apply IHl, I). right. apply IHl, I. }
  cbn [Stream.started Stream.completed].
  rewrite Sa, Ca. cbn [Stream.started Stream.completed]. rewrite !app_nil_r.
  split; [exact Lst|]. split; [exact Lco|]. split; [|rewrite Ll, Ic, Ac; lia].
  intros f content I.
  assert (I' : In (f, content) (Stream.completed loop)).
  { repeat (destruct I as [I|I]; [discriminate I|]).
    apply in_app_or in I as [I|I]; [apply Ci, I|].
    repeat (destruct I as [I|I]; [discriminate I|]). destruct I. }
  unfold Sandbox.readProjectFile, FS.readFile.
  replace (FS.resolve (fs w3) (Path.join [Sandbox.workspaceDir sandbox; projectName plan; f]))
    with (Workspace.target sandbox (projectName plan) f (fs w2))
    by (unfold Workspace.target, FS.resolve; rewrite Lc; reflexivity).
  rewrite (Ldisk f content I'). reflexivity.
Qed.

End FilesOfSession.

Lemma completed_files_are_on_disk_witness :
  let w := Demo.fresh_world (Some "k") in
  let w' := snd (Server.runCodeGeneration (H:=Demo.five_files) "t1" "make a snake game" html
                   Demo.coder Demo.sandbox w) in
  let events := drop (length (sent w)) (sent w') in
  Stream.started events = map path (files Demo.five_file_plan)
  /\ map fst (Stream.completed events) = map path (files Demo.five_file_plan)
  /\ (forall f content,
        In (Protocol.file_complete f content) events ->
        Sandbox.readProjectFile Demo.sandbox (projectName Demo.five_file_plan) f (fs w')
        = (Normal content, fs w'))
  /\ llm_calls w' = llm_calls w + 1 + length (files Demo.five_file_plan).
Proof.
  intros w w'.
  apply (completed_files_are_on_disk (H:=Demo.five_files) "t1" "make a snake game" html
           Demo.coder Demo.sandbox w w' Demo.five_file_plan).
  - vm_compute. reflexivity.
  - reflexivity.
  - repeat constructor.
  - repeat (apply NoDup_cons; split; [intros I; repeat (apply elem_of_cons in I as [I|I]; [discriminate I|]); apply elem_of_nil in I; exact I|]).
    apply NoDup_nil_2.
Defined.

(** ** A session stays in its project *)

Section SessionConfinement.
Context `{Runtime}.

Lemma put_frame (p : list string) (v : FS.node) :
  forall n q, ~ p `prefix_of` q -> FS.read q (FS.tree_put p v n) = FS.read q n.
Proof.
  induction p as [|x p IH]; intros n q N.
  - exfalso. apply N, prefix_nil.
  - destruct n as [c|es]; [reflexivity|]. cbn [FS.tree_put].
    destruct (FS.lookup x es) as [child|] eqn:L; [|reflexivity].
    destruct q as [|y q]; [reflexivity|].
    rewrite !read_cons_dir, lookup_set_child.
    destruct (String.eqb x y) eqn:E; [|reflexivity].
    apply String.eqb_eq in E as <-. rewrite L.
    apply IH. intros P. apply N, prefix_cons, P.
Qed.

(** The runs of [initProject] over this model of the file system: when
    the project directory is not there and cannot be made, the call throws
    and the tree is as it was; otherwise the project directory, emptied, is
    replaced by the boilerplate. *)
Lemma initProject_runs (self : Sandbox.SandboxTool) (name : string)
    (template : ProjectTemplate) (fs fs' : FS.t) (r : Completion Sandbox.ProjectInfo) :
  let projectPath := Path.join [Sandbox.workspaceDir self; name] in
  Sandbox.initProject self name template fs = (r, fs') ->
  (JS.is_normal r = false /\ fs' = fs
   /\ FS.get (FS.resolve fs projectPath) (FS.root fs) = None)
  \/ (exists fs1,
        JS.is_normal r = true
        /\ fs' = FS.replaced (FS.resolve fs projectPath)
                   (Sandbox.boilerplate template projectPath) fs1
        /\ FS.cwd fs1 = FS.cwd fs
        /\ forall q, ~ FS.resolve fs projectPath `prefix_of` q ->
                     FS.read q (FS.root fs1) = FS.read q (FS.root fs)).
Proof.
  intros projectPath. unfold Sandbox.initProject. fold projectPath.
  rewrite bind_run. unfold FS.exists_ at 1, JS.gets at 1.
  set (proj := FS.resolve fs projectPath).
  destruct (bool_decide (is_Some (FS.get proj (FS.root fs)))) eqn:E.
  - apply bool_decide_eq_true in E.
    rewrite bind_run. unfold FS.rimraf at 1, JS.modify at 1.
    rewrite bind_run. unfold FS.mkdirp at 1.
    change (FS.resolve (FS.with_root _ fs) projectPath) with proj.
    cbn [FS.root FS.with_root].
    destruct (mkdirp_after_rimraf proj (FS.root fs) E) as (root2 & M & G2).
    fold proj. rewrite M.
    rewrite (initProject_from_empty self name template proj);
      [|split; [reflexivity|exact G2]].
    intros [= <- <-]. right. eexists. split; [reflexivity|]. split; [reflexivity|].
    split; [reflexivity|].
    intros q N. cbn [FS.root FS.with_root].
    rewrite (tree_mkdirp_read _ _ _ q M). apply rimraf_frame, N.
  - apply bool_decide_eq_false in E.
    assert (G : FS.get proj (FS.root fs) = None).
    { destruct (FS.get proj (FS.root fs)); [exfalso; apply E; eauto|reflexivity]. }
    rewrite bind_run. unfold JS.ret at 1.
    rewrite bind_run. unfold FS.mkdirp at 1. fold proj.
    destruct (FS.tree_mkdirp proj (FS.root fs)) as [root2|] eqn:M.
    + rewrite (initProject_from_empty self name template proj);
        [|split; [reflexivity|apply (mkdirp_fresh _ _ _ G M)]].
      intros [= <- <-]. right. eexists. split; [reflexivity|]. split; [reflexivity|].
      split; [reflexivity|].
      intros q N. cbn [FS.root FS.with_root]. apply (tree_mkdirp_read _ _ _ q M).
    + intros [= <- <-]. left. split; [reflexivity|]. split; [reflexivity|exact G].
Qed.

Lemma initProject_frame (self : Sandbox.SandboxTool) (name : string)
    (template : ProjectTemplate) (fs : FS.t) :
  FS.cwd (snd (Sandbox.initProject self name template fs)) = FS.cwd fs
  /\ forall q,
       ~ Workspace.project_dir self name fs `prefix_of` q ->
       FS.read q (FS.root (snd (Sandbox.initProject self name template fs)))
       = FS.read q (FS.root fs).
Proof.
  destruct (Sandbox.initProject self name template fs) as [r fs'] eqn:E.
  apply initProject_runs in E as [(_ & -> & _)|(fs1 & _ & -> & C & F)]; cbn [snd].
  - split; reflexivity.
  - split; [exact C|]. intros q N. unfold FS.replaced, FS.with_root. cbn [FS.root].
    rewrite put_frame by exact N. apply F, N.
Qed.

(** X25. [initProject] stays in its directory. Whether it returns or throws,
    no regular file outside the project directory [join(workspaceDir, name)]
    has been changed, made or removed, and the working directory of the
    process is the same. *)
Theorem initProject_keeps_other_files (self : Sandbox.SandboxTool) (name : string)
    (template : ProjectTemplate) (fs : FS.t) :
  let result := Sandbox.initProject self name template fs in
  FS.cwd (snd result) = FS.cwd fs
  /\ (forall q,
        ~ Workspace.project_dir self name fs `prefix_of` q ->
        FS.read q (FS.root (snd result)) = FS.read q (FS.root fs)).
Proof.
  intros result. subst result.
  destruct (Sandbox.initProject self name template fs) as [r fs'] eqn:E. cbn [snd].
  apply initProject_runs in E as [(_ & -> & _)|(fs1 & _ & -> & C & F)].
  - split; reflexivity.
  - split; [exact C|]. intros q N. unfold FS.replaced, FS.with_root. cbn [FS.root].
    rewrite put_frame by exact N. apply F, N.
Qed.

Lemma writeProjectFile_cwd (self : Sandbox.SandboxTool) (projectName filePath content : string)
    (fs : FS.t) :
  FS.cwd (snd (Sandbox.writeProjectFile self projectName filePath content fs)) = FS.cwd fs.
Proof.
  unfold Sandbox.writeProjectFile. rewrite bind_run. unfold FS.mkdirp.
  destruct (FS.tree_mkdirp _ (FS.root fs)) as [r1|]; [|reflexivity].
  unfold FS.writeFile. destruct (Path.trailing _); [reflexivity|].
  destruct (FS.tree_write _ content _); reflexivity.
Qed.

Lemma project_dir_cwd (self : Sandbox.SandboxTool) (projectName : string) (fs1 fs2 : FS.t) :
  FS.cwd fs1 = FS.cwd fs2 ->
  Workspace.project_dir self projectName fs1 = Workspace.project_dir self projectName fs2.
Proof. intros C. unfold Workspace.project_dir, FS.resolve. rewrite C. reflexivity. Qed.

(** The loop writes inside the project directory only, however it ends. *)
Lemma writing_loop_frame (coder : Coder.Coder) (sandbox : Sandbox.SandboxTool)
    (goal projectName : string) (total : nat) (rest : list FileSpec) :
  JS.truthy projectName = true ->
  Forall (fun f => Workspace.no_climb (path f) = true) rest ->
  forall (i : nat) (existingFiles : Coder.Files) (w w' : World) (r : Completion Coder.Files),
    Server.writing_loop coder sandbox goal projectName total i rest existingFiles w = (r, w') ->
    FS.cwd (fs w') = FS.cwd (fs w)
    /\ forall q,
         ~ Workspace.project_dir sandbox projectName (fs w) `prefix_of` q ->
         FS.read q (FS.root (fs w')) = FS.read q (FS.root (fs w)).
Proof.
  intros Tn. induction 1 as [|f rest Cf _ IH]; intros i existingFiles w w' r E.
  - cbn in E. injection E as <- <-. split; reflexivity.
  - cbn [Server.writing_loop] in E.
    destruct (JS.truthy (path f)); cbn [negb] in E; [|apply (IH _ _ _ _ _ E)].
    rewrite !bind_ws_send in E. rewrite bind_run in E.
    destruct (Coder.generateFile _ _ _ _ _) as [rg wg] eqn:G.
    apply generateFile_on_chunk in G as (chunks & _ & Gf & _). cbn [fs with_sent] in Gf.
    destruct rg as [content|e]; [|injection E as <- <-; rewrite Gf; split; reflexivity].
    rewrite bind_run in E.
    assert (W : FS.cwd (fs (snd (on_fs (Sandbox.writeProjectFile sandbox projectName (path f)
                                          content) wg))) = FS.cwd (fs w)
                /\ forall q,
                     ~ Workspace.project_dir sandbox projectName (fs w) `prefix_of` q ->
                     FS.read q (FS.root (fs (snd (on_fs (Sandbox.writeProjectFile sandbox
                                                           projectName (path f) content) wg))))
                     = FS.read q (FS.root (fs w))).
    { unfold on_fs. rewrite Gf.
      pose proof (writeProjectFile_cwd sandbox projectName (path f) content (fs w)) as C.
      pose proof (writeProjectFile_touches_target sandbox projectName (path f) content (fs w))
        as Touch.
      destruct (Sandbox.writeProjectFile _ _ _ _ (fs w)) as [rw fw]. cbn [snd fs with_fs] in *.
      split; [exact C|]. intros q N. apply Touch. intros ->. apply N.
      apply target_under_project; [right; rewrite Tn; apply orb_true_r|exact Cf]. }
    destruct (on_fs _ wg) as [rw ww]. cbn [snd] in W. destruct W as [Wc Wf].
    destruct rw as [[]|e]; [|injection E as <- <-; split; assumption].
    rewrite !bind_ws_send in E.
    apply IH in E as [Ec Ef]. cbn [fs with_sent] in Ec, Ef.
    split; [rewrite Ec; exact Wc|].
    intros q N. rewrite Ef; [apply Wf, N|].
    rewrite (project_dir_cwd _ _ _ (fs w) Wc). exact N.
Qed.

Lemma analyzeTask_named (self : Coder.Coder) (goal : string) (template : ProjectTemplate)
    (w w' : World) (plan : ProjectPlan) :
  Coder.analyzeTask self goal template w = (Normal plan, w') ->
  JS.truthy (projectName plan) = true /\ fs w' = fs w.
Proof.
  unfold Coder.analyzeTask, JS.try_catch. rewrite bind_run.
  unfold LLM.chatJSON, LLM.chat. rewrite bind_run.
  destruct (completions_create _ _) as [content|e].
  - destruct (JSON_parse_plan _) as [[parsed|]|e]; intros [= <- <-];
      (split; [|reflexivity]); [|reflexivity|reflexivity].
    cbn [projectName]. unfold JS.or_else.
    destruct (JS.truthy (projectName parsed)) eqn:T; [exact T|reflexivity].
  - intros [= <- <-]. split; reflexivity.
Qed.

(** X26. A code session stays in its project. When no path of the plan
    climbs with [..] above the directory it starts from, the code path,
    however it ends, changes, creates or removes no regular file outside
    the project directory [join(workspaceDir, projectName)]: the project is
    initialized inside it and every file is written inside it. *)
Theorem session_stays_in_project (taskId goal : string) (template : ProjectTemplate)
    (coder : Coder.Coder) (sandbox : Sandbox.SandboxTool) (w : World) (plan : ProjectPlan) :
  fst (Coder.analyzeTask coder goal template
         (with_sent ((sent w ++ [Protocol.phase Protocol.planning]) ++ [Protocol.progress 5]) w))
    = Normal plan ->
  Forall (fun f => Workspace.no_climb (path f) = true) (files plan) ->
  let w' := snd (Server.runCodeGeneration taskId goal template coder sandbox w) in
  forall q,
    ~ Workspace.project_dir sandbox (projectName plan) (fs w) `prefix_of` q ->
    FS.read q (FS.root (fs w')) = FS.read q (FS.root (fs w)).
Proof.
  intros A C w' q N. subst w'.
  unfold Server.runCodeGeneration.
  rewrite !bind_ws_send. cbn [sent with_sent]. rewrite with_sent_twice.
  rewrite bind_run.
  destruct (Coder.analyzeTask _ _ _ _) as [rp w1] eqn:Ea. cbn [fst] in A. subst rp.
  apply analyzeTask_named in Ea as [Tn F1]. cbn [fs with_sent] in F1.
  rewrite !bind_ws_send. cbn [sent with_sent]. rewrite with_sent_twice.
  rewrite bind_run.
  match goal with |- context [on_fs ?m ?w0] =>
    assert (I : FS.cwd (fs (snd (on_fs m w0))) = FS.cwd (fs w)
                /\ FS.read q (FS.root (fs (snd (on_fs m w0)))) = FS.read q (FS.root (fs w)));
    [|destruct (on_fs m w0) as [ri w2]]
  end.
  { unfold on_fs. cbn [fs with_sent]. rewrite F1.
    destruct (initProject_frame sandbox (projectName plan) template (fs w)) as [Ic If].
    destruct (Sandbox.initProject _ _ _ (fs w)) as [ri f2]. cbn [snd fs with_fs] in *.
    split; [exact Ic|apply If, N]. }
  cbn [snd] in I. destruct I as [Ic Ir].
  destruct ri as [info|e]; [|exact Ir].
  rewrite !bind_ws_send. cbn [sent with_sent]. rewrite with_sent_twice.
  rewrite bind_run.
  destruct (Server.writing_loop _ _ _ _ _ _ _ _ _) as [rl w3] eqn:L.
  apply (writing_loop_frame _ _ _ _ _ _ Tn C) in L as [Lc Lf]. cbn [fs with_sent] in Lc, Lf.
  assert (R3 : FS.read q (FS.root (fs w3)) = FS.read q (FS.root (fs w))).
  { rewrite Lf; [exact Ir|]. rewrite (project_dir_cwd _ _ _ (fs w) Ic). exact N. }
  destruct rl as [files'|e]; [|exact R3].
  rewrite !bind_ws_send. unfold ws_send, JS.modify. cbn [snd fs with_sent]. exact R3.
Qed.

End SessionConfinement.

Lemma initProject_keeps_other_files_witness :
  let fs := snd (Sandbox.writeProjectFile Demo.sandbox "other" "notes.txt" "remember the milk"
                   Demo.empty_disk) in
  let result := Sandbox.initProject Demo.sandbox "snake" html fs in
  FS.read ["ws"; "other"; "notes.txt"] (FS.root (snd result)) = Some "remember the milk".
Proof.
  intros fs result.
  etrans; [|exact (eq_refl : FS.read ["ws"; "other"; "notes.txt"] (FS.root fs)
                             = Some "remember the milk")].
  apply (proj2 (initProject_keeps_other_files Demo.sandbox "snake" html fs)).
  intros [k E]. discriminate E.
Defined.

Lemma session_stays_in_project_witness :
  let w := Demo.fresh_world (Some "k") in
  let w' := snd (Server.runCodeGeneration (H:=Demo.five_files) "t1" "make a snake game" html
                   Demo.coder Demo.sandbox w) in
  FS.read ["ws"; "other"; "index.html"] (FS.root (fs w'))
  = FS.read ["ws"; "other"; "index.html"] (FS.root (fs w)).
Proof.
  intros w w'.
  apply (session_stays_in_project (H:=Demo.five_files) "t1" "make a snake game" html
           Demo.coder Demo.sandbox w Demo.five_file_plan).
  - reflexivity.
  - repeat constructor.
  - intros [k E]. discriminate E.
Defined.
